(** * Radicale MCP adapter: iCalendar / vCard codecs and merge-on-update

    A shallow embedding of the calendar-and-contacts adapter
    (date helpers, [buildVEvent], [buildVTodo], [parseVCard], [buildVCard],
    [parseIcalObjects], the collection slug, and the create, get, list and
    update tools from the fetched objects on), followed by the properties
    of the specification checked against it and by further properties read
    off the code.

    Conventions of the embedding.
    - A JavaScript string is a [string]: a sequence of 8-bit code units, a
      character outside ASCII being held as the bytes of its UTF-8 encoding.
      [toLowerCase] / [toUpperCase] act on the ASCII letters.
    - [undefined] (an omitted tool argument, a missing object property) is
      [None]; where the source tells [null] from [undefined] the field's
      comment says which one [None] stands for.
    - A [Date] object is its time value [option Z] in milliseconds since the
      epoch, [None] being the invalid date.
    - Code that can throw returns a [res].
    - The two things the file takes from outside are parameters:
      [Date_parse] (the string constructor of [Date]) and [parseICS]
      (node-ical's [sync.parseICS]). *)

From Stdlib Require Import String Ascii List ZArith Lia Bool DecimalString.
From Equations Require Import Equations.
Import ListNotations.
Local Open Scope string_scope.
Local Open Scope Z_scope.

(** ** Results of code that may throw *)

Inductive error : Type :=
| RangeError (msg : string)
| TypeError (msg : string)
| Error (msg : string).

Inductive res (A : Type) : Type :=
| Ok (a : A)
| Throw (e : error).
Arguments Ok {A} a.
Arguments Throw {A} e.

Definition bind {A B : Type} (m : res A) (k : A -> res B) : res B :=
  match m with
  | Ok a => k a
  | Throw e => Throw e
  end.

Notation "'let*' x ':=' m 'in' k" := (bind m (fun x => k))
  (at level 10, x name, m at level 100, k at level 200).

Fixpoint mapM {A B : Type} (f : A -> res B) (l : list A) : res (list B) :=
  match l with
  | [] => Ok []
  | a :: l' =>
      let* b := f a in
      let* bs := mapM f l' in
      Ok (b :: bs)
  end.

(** ** Strings *)

Module Str.

Definition CR : ascii := "013"%char.
Definition LF : ascii := "010"%char.
Definition CRLF : string := String CR (String LF "").

Definition is_digit (c : ascii) : bool :=
  let n := nat_of_ascii c in (Nat.leb 48 n && Nat.leb n 57)%bool.

Definition is_lower (c : ascii) : bool :=
  let n := nat_of_ascii c in (Nat.leb 97 n && Nat.leb n 122)%bool.

Definition is_upper (c : ascii) : bool :=
  let n := nat_of_ascii c in (Nat.leb 65 n && Nat.leb n 90)%bool.

(** The class [[a-z0-9]]. *)
Definition is_alnum (c : ascii) : bool := (is_lower c || is_digit c)%bool.

Definition lower_char (c : ascii) : ascii :=
  if is_upper c then ascii_of_nat (nat_of_ascii c + 32) else c.

Definition upper_char (c : ascii) : ascii :=
  if is_lower c then ascii_of_nat (nat_of_ascii c - 32) else c.

Fixpoint map (f : ascii -> ascii) (s : string) : string :=
  match s with
  | EmptyString => EmptyString
  | String c s' => String (f c) (map f s')
  end.

Definition toLowerCase : string -> string := map lower_char.
Definition toUpperCase : string -> string := map upper_char.

(** [s.replace(/[class]/g, "")]: every character of the class is dropped. *)
Fixpoint remove (p : ascii -> bool) (s : string) : string :=
  match s with
  | EmptyString => EmptyString
  | String c s' => if p c then remove p s' else String c (remove p s')
  end.

Fixpoint forallb (p : ascii -> bool) (s : string) : bool :=
  match s with
  | EmptyString => true
  | String c s' => (p c && forallb p s')%bool
  end.

Fixpoint existsb (p : ascii -> bool) (s : string) : bool :=
  match s with
  | EmptyString => false
  | String c s' => (p c || existsb p s')%bool
  end.

(** [s.slice(0, n)]. *)
Fixpoint take (n : nat) (s : string) : string :=
  match n, s with
  | O, _ => EmptyString
  | S _, EmptyString => EmptyString
  | S n', String c s' => String c (take n' s')
  end.

(** [lines.join(sep)]. *)
Fixpoint join (sep : string) (l : list string) : string :=
  match l with
  | [] => EmptyString
  | [x] => x
  | x :: l' => x ++ sep ++ join sep l'
  end.

(** [s.split(/\r?\n/)]: a line ends at a line feed, and a carriage return
    directly before that line feed belongs to the separator. *)
Fixpoint split_lines (s : string) : list string :=
  match s with
  | EmptyString => [EmptyString]
  | String c s' =>
      if Ascii.eqb c LF then EmptyString :: split_lines s'
      else
        match s' with
        | String c' _ =>
            if (Ascii.eqb c CR && Ascii.eqb c' LF)%bool then split_lines s'
            else
              match split_lines s' with
              | l :: ls => String c l :: ls
              | [] => [String c EmptyString]
              end
        | EmptyString => [String c EmptyString]
        end
  end.

(** [s.split(";")]. *)
Fixpoint split_on (d : ascii) (s : string) : list string :=
  match s with
  | EmptyString => [EmptyString]
  | String c s' =>
      if Ascii.eqb c d then EmptyString :: split_on d s'
      else
        match split_on d s' with
        | l :: ls => String c l :: ls
        | [] => [String c EmptyString]
        end
  end.

(** A JavaScript string is falsy exactly when it is empty. *)
Definition nonempty (s : string) : bool :=
  match s with
  | EmptyString => false
  | String _ _ => true
  end.

Definition is_line_break (c : ascii) : bool :=
  (Ascii.eqb c CR || Ascii.eqb c LF)%bool.

(** No carriage return and no line feed anywhere in [s]. *)
Definition single_line (s : string) : bool :=
  negb (existsb is_line_break s).

End Str.

(** Truthiness of an optional string ([undefined], [null] and [""] are
    falsy). *)
Definition truthy (o : option string) : bool :=
  match o with
  | Some s => Str.nonempty s
  | None => false
  end.

(** [o || d] for an optional string [o] and a string [d]. *)
Definition or_else (o : option string) (d : string) : string :=
  match o with
  | Some s => if Str.nonempty s then s else d
  | None => d
  end.

(** ** Date helpers *)

Module DateTime.

Definition msPerDay : Z := 86400000.

(** Largest magnitude of a time value (ECMAScript TimeClip). *)
Definition maxTime : Z := 8640000000000000.

Definition valid_time (t : Z) : bool :=
  ((- maxTime <=? t) && (t <=? maxTime))%bool.

(** Proleptic Gregorian date (year, month 1-12, day 1-31) of a day number
    counted from 1970-01-01: what [getUTCFullYear], [getUTCMonth] + 1 and
    [getUTCDate] return. *)
Definition civil_from_days (days : Z) : Z * Z * Z :=
  let z := days + 719468 in
  let era := z / 146097 in
  let doe := z - era * 146097 in
  let yoe := (doe - doe / 1460 + doe / 36524 - doe / 146096) / 365 in
  let doy := doe - (365 * yoe + yoe / 4 - yoe / 100) in
  let mp := (5 * doy + 2) / 153 in
  let d := doy - (153 * mp + 2) / 5 + 1 in
  let m := if mp <? 10 then mp + 3 else mp - 9 in
  let y := yoe + era * 400 + (if m <=? 2 then 1 else 0) in
  (y, m, d).

(** Day number of a proleptic Gregorian date. *)
Definition days_from_civil (y m d : Z) : Z :=
  let y' := if m <=? 2 then y - 1 else y in
  let era := y' / 400 in
  let yoe := y' - era * 400 in
  let doy := (153 * (if 2 <? m then m - 3 else m + 9) + 2) / 5 + d - 1 in
  let doe := yoe * 365 + yoe / 4 - yoe / 100 + doy in
  era * 146097 + doe - 719468.

Definition digit (n : Z) : ascii := ascii_of_nat (48 + Z.to_nat (n mod 10)).
Arguments digit : simpl never.

Definition pad2 (n : Z) : string :=
  String (digit (n / 10)) (String (digit n) "").

Definition pad3 (n : Z) : string := String (digit (n / 100)) (pad2 n).

Definition pad4 (n : Z) : string := String (digit (n / 1000)) (pad3 n).

Definition pad6 (n : Z) : string :=
  String (digit (n / 100000)) (String (digit (n / 10000)) (pad4 n)).

(** Years 0 to 9999 print as four digits, the others as a sign and six
    digits. *)
Definition year_string (y : Z) : string :=
  if ((0 <=? y) && (y <=? 9999))%bool then pad4 y
  else (if (y <? 0)%Z then "-" else "+") ++ pad6 (Z.abs y).

Definition year_of (t : Z) : Z :=
  let '(y, _, _) := civil_from_days (t / msPerDay) in y.

(** The text of [Date.prototype.toISOString] for a valid time value. *)
Definition iso_string (t : Z) : string :=
  let '(y, m, d) := civil_from_days (t / msPerDay) in
  let ms := t mod msPerDay in
  (year_string y ++ "-" ++ pad2 m ++ "-" ++ pad2 d ++ "T"
   ++ pad2 (ms / 3600000) ++ ":" ++ pad2 (ms / 60000 mod 60) ++ ":"
   ++ pad2 (ms / 1000 mod 60) ++ "." ++ pad3 (ms mod 1000) ++ "Z")%string.

(** [d.toISOString()] on a [Date] with time value [d]: a [RangeError] on
    the invalid date. *)
Definition toISOString (d : option Z) : res string :=
  match d with
  | Some t =>
      if valid_time t then Ok (iso_string t)
      else Throw (RangeError "Invalid time value")
  | None => Throw (RangeError "Invalid time value")
  end.

Definition is_dash (c : ascii) : bool := Ascii.eqb c "-".
Definition is_dash_or_colon (c : ascii) : bool :=
  (Ascii.eqb c "-" || Ascii.eqb c ":")%bool.

(** [s.replace(/\.\d{3}/, "")]: the first dot that three digits follow is
    dropped together with them. *)
Fixpoint remove_first_millis (s : string) : string :=
  match s with
  | EmptyString => EmptyString
  | String c s' =>
      match s' with
      | String d1 (String d2 (String d3 rest)) =>
          if (Ascii.eqb c "." && Str.is_digit d1 && Str.is_digit d2
              && Str.is_digit d3)%bool
          then rest
          else String c (remove_first_millis s')
      | _ => String c (remove_first_millis s')
      end
  end.

(** What the codec hands back for a parsed DTSTART / DTEND / DUE /
    COMPLETED value. *)
Inductive parsed_date : Type :=
| PString (s : string)
| PDate (t : option Z)
    (** a [Date]; [None] is the invalid date *)
| PObject (iso : option string) (str : string)
    (** another object: [iso] is what its [toISOString] method returns when
        it has one, [str] is [String(d)] *).

Section WithDateParse.

(** [new Date(s)] for a string [s]: the time value, [None] for the invalid
    date. *)
Variable Date_parse : string -> option Z.

(** [new Date(iso)] where [iso] is a string or [null] ([None]);
    [new Date(null)] is the epoch. *)
Definition new_Date (iso : option string) : option Z :=
  match iso with
  | Some s => Date_parse s
  | None => Some 0
  end.

(** Convert ISO 8601 string to iCalendar date-time (YYYYMMDDTHHMMSSZ). *)
Definition isoToIcal (iso : option string) : res string :=
  let* s := toISOString (new_Date iso) in
  Ok (remove_first_millis (Str.remove is_dash_or_colon s)).

(** Convert ISO 8601 string to iCalendar DATE (YYYYMMDD) for all-day
    events.  [null.replace] is a [TypeError]. *)
Definition isoToIcalDate (iso : option string) : res string :=
  match iso with
  | Some s => Ok (Str.take 8 (Str.remove is_dash s))
  | None => Throw (TypeError "Cannot read properties of null")
  end.

End WithDateParse.

(** Format a parsed ical date to ISO string; [None] in the argument is a
    missing property, [None] in the result is [null]. *)
Definition icalDateToIso (d : option parsed_date) : res (option string) :=
  match d with
  | None => Ok None
  | Some (PString s) => if Str.nonempty s then Ok (Some s) else Ok None
  | Some (PDate t) => let* s := toISOString t in Ok (Some s)
  | Some (PObject (Some iso) _) => Ok (Some iso)
  | Some (PObject None str) => Ok (Some str)
  end.

(** *** A reference instance of [Date_parse]

    The UTC forms [YYYY-MM-DD], [YYYY-MM-DDTHH:mm:ssZ] and
    [YYYY-MM-DDTHH:mm:ss.sssZ] of the ECMAScript date-time string format;
    every other string is taken as the invalid date.  It is used to run the
    model on concrete inputs. *)

Definition digit_val (c : ascii) : option Z :=
  if Str.is_digit c then Some (Z.of_nat (nat_of_ascii c) - 48) else None.

Fixpoint number_aux (acc : Z) (s : string) : option Z :=
  match s with
  | EmptyString => Some acc
  | String c s' =>
      match digit_val c with
      | Some v => number_aux (10 * acc + v) s'
      | None => None
      end
  end.

Definition number (s : string) : option Z :=
  match s with
  | EmptyString => None
  | _ => number_aux 0 s
  end.

Definition time_of_fields (y mo d h mi s ms : string) : option Z :=
  match number y, number mo, number d, number h, number mi, number s, number ms with
  | Some y, Some mo, Some d, Some h, Some mi, Some s, Some ms =>
      if ((1 <=? mo) && (mo <=? 12) && (1 <=? d) && (d <=? 31)
          && (h <=? 23) && (mi <=? 59) && (s <=? 59))%bool
      then Some (days_from_civil y mo d * msPerDay
                 + h * 3600000 + mi * 60000 + s * 1000 + ms)
      else None
  | _, _, _, _, _, _, _ => None
  end.

Definition Date_parse_utc (s : string) : option Z :=
  match s with
  | String y1 (String y2 (String y3 (String y4 (String "-" (String m1
      (String m2 (String "-" (String d1 (String d2 rest))))))))) =>
      let y := String y1 (String y2 (String y3 (String y4 ""))) in
      let mo := String m1 (String m2 "") in
      let d := String d1 (String d2 "") in
      match rest with
      | EmptyString => time_of_fields y mo d "00" "00" "00" "000"
      | String "T" (String h1 (String h2 (String ":" (String i1 (String i2
          (String ":" (String s1 (String s2 tail)))))))) =>
          let h := String h1 (String h2 "") in
          let mi := String i1 (String i2 "") in
          let se := String s1 (String s2 "") in
          match tail with
          | String "Z" EmptyString => time_of_fields y mo d h mi se "000"
          | String "." (String f1 (String f2 (String f3 (String "Z" EmptyString)))) =>
              time_of_fields y mo d h mi se (String f1 (String f2 (String f3 "")))
          | _ => None
          end
      | _ => None
      end
  | _ => None
  end.

End DateTime.

(** ** iCalendar codec *)

Module ICal.

(** A PRIORITY value: the number a caller passes (integers are modelled) or
    the text the parser read. *)
Inductive js_prim : Type :=
| PNum (n : Z)
| PText (s : string).

(** Its rendering in a template literal. *)
Definition prim_to_string (p : js_prim) : string :=
  match p with
  | PNum n => NilZero.string_of_int (Z.to_int n)
  | PText s => s
  end.

(** A component object of the parser's result: the properties that
    [parseIcalObjects] reads, [None] when the object has no such
    property. *)
Record component : Type := {
  c_type : string;
  c_uid : option string;
  c_summary : option string;
  c_description : option string;
  c_start : option DateTime.parsed_date;
  c_end : option DateTime.parsed_date;
  c_location : option string;
  c_status : option string;
  c_priority : option js_prim;
  c_completed : option DateTime.parsed_date;
  c_due : option DateTime.parsed_date
}.

(** The plain object pushed by [parseIcalObjects].  [r_uid] and
    [r_priority] are [undefined] when [None]; the four dates are [null]
    when [None]. *)
Record cal_record : Type := {
  r_uid : option string;
  r_summary : string;
  r_description : string;
  r_start : option string;
  r_end : option string;
  r_location : string;
  r_status : string;
  r_priority : option js_prim;
  r_completed : option string;
  r_due : option string
}.

(** The argument of [buildVEvent].  [e_uid] is [undefined] when [None];
    [e_dtstart] is [null] when [None] (a string at creation, the decoded
    start on update); the other fields are falsy when [None]. *)
Record vevent : Type := {
  e_uid : option string;
  e_summary : option string;
  e_dtstart : option string;
  e_dtend : option string;
  e_description : option string;
  e_location : option string;
  e_allDay : option bool
}.

(** The argument of [buildVTodo]; [t_priority] is [undefined] or [null]
    when [None]. *)
Record vtodo : Type := {
  t_uid : option string;
  t_summary : option string;
  t_description : option string;
  t_due : option string;
  t_priority : option js_prim;
  t_status : option string;
  t_completed : option string
}.

(** [`${uid}`]. *)
Definition template (o : option string) : string :=
  match o with
  | Some s => s
  | None => "undefined"
  end.

(** [if (v) lines.push(`KEY:${v}`)]. *)
Definition push_if (key : string) (v : option string) : list string :=
  match v with
  | Some s => if Str.nonempty s then [key ++ s] else []
  | None => []
  end.

Definition is_true (b : option bool) : bool :=
  match b with
  | Some true => true
  | _ => false
  end.

Definition kind_match (type : string) (comp : component) : bool :=
  ((String.eqb type "VEVENT" && String.eqb (c_type comp) "VEVENT")
   || (String.eqb type "VTODO" && String.eqb (c_type comp) "VTODO"))%bool.

(** The object literal built for one matching component. *)
Definition to_record (comp : component) : res cal_record :=
  let* start := DateTime.icalDateToIso (c_start comp) in
  let* end_ := DateTime.icalDateToIso (c_end comp) in
  let* completed := DateTime.icalDateToIso (c_completed comp) in
  let* due := DateTime.icalDateToIso (c_due comp) in
  Ok {| r_uid := c_uid comp;
        r_summary := or_else (c_summary comp) "";
        r_description := or_else (c_description comp) "";
        r_start := start;
        r_end := end_;
        r_location := or_else (c_location comp) "";
        r_status := or_else (c_status comp) "";
        r_priority := c_priority comp;
        r_completed := completed;
        r_due := due |}.

Section WithEnvironment.

Variable Date_parse : string -> option Z.

(** [ical.sync.parseICS(data)] followed by [Object.entries]: the component
    objects of the parse result in their enumeration order. *)
Variable parseICS : string -> list component.

(** [isoToIcal(new Date().toISOString())] when the clock reads [now]; the
    current date is never the invalid date, so its [toISOString] is
    [DateTime.iso_string]. *)
Definition stamp (now : Z) : res string :=
  DateTime.isoToIcal Date_parse (Some (DateTime.iso_string now)).

Definition vevent_dates (a : vevent) : res (list string) :=
  if is_true (e_allDay a) then
    let* s := DateTime.isoToIcalDate (e_dtstart a) in
    let* e :=
      (if truthy (e_dtend a) then
         let* e := DateTime.isoToIcalDate (e_dtend a) in
         Ok ["DTEND;VALUE=DATE:" ++ e]
       else Ok []) in
    Ok (("DTSTART;VALUE=DATE:" ++ s) :: e)
  else
    let* s := DateTime.isoToIcal Date_parse (e_dtstart a) in
    let* e :=
      (if truthy (e_dtend a) then
         let* e := DateTime.isoToIcal Date_parse (e_dtend a) in
         Ok ["DTEND:" ++ e]
       else Ok []) in
    Ok (("DTSTART:" ++ s) :: e).

(** The array [lines] of [buildVEvent] just before it is joined. *)
Definition vevent_lines (now : Z) (a : vevent) : res (list string) :=
  let* now := stamp now in
  let* dates := vevent_dates a in
  Ok (["BEGIN:VCALENDAR";
       "VERSION:2.0";
       "PRODID:-//Radicale MCP//EN";
       "BEGIN:VEVENT";
       ("UID:" ++ template (e_uid a))%string;
       ("DTSTAMP:" ++ now)%string]
      ++ dates
      ++ push_if "SUMMARY:" (e_summary a)
      ++ push_if "DESCRIPTION:" (e_description a)
      ++ push_if "LOCATION:" (e_location a)
      ++ ["END:VEVENT"; "END:VCALENDAR"])%list.

Definition buildVEvent (now : Z) (a : vevent) : res string :=
  let* lines := vevent_lines now a in
  Ok (Str.join Str.CRLF lines).

(** The array [lines] of [buildVTodo] just before it is joined. *)
Definition vtodo_lines (now : Z) (a : vtodo) : res (list string) :=
  let* now := stamp now in
  let* due :=
    (if truthy (t_due a) then
       let* d := DateTime.isoToIcal Date_parse (t_due a) in
       Ok ["DUE:" ++ d]
     else Ok []) in
  let* completed :=
    (if truthy (t_completed a) then
       let* c := DateTime.isoToIcal Date_parse (t_completed a) in
       Ok ["COMPLETED:" ++ c]
     else Ok []) in
  Ok (["BEGIN:VCALENDAR";
       "VERSION:2.0";
       "PRODID:-//Radicale MCP//EN";
       "BEGIN:VTODO";
       ("UID:" ++ template (t_uid a))%string;
       ("DTSTAMP:" ++ now)%string]
      ++ push_if "SUMMARY:" (t_summary a)
      ++ push_if "DESCRIPTION:" (t_description a)
      ++ due
      ++ match t_priority a with
         | Some p => [("PRIORITY:" ++ prim_to_string p)%string]
         | None => []
         end
      ++ match t_status a with
         | Some s =>
             if Str.nonempty s then [("STATUS:" ++ Str.toUpperCase s)%string]
             else []
         | None => []
         end
      ++ completed
      ++ ["END:VTODO"; "END:VCALENDAR"])%list.

Definition buildVTodo (now : Z) (a : vtodo) : res string :=
  let* lines := vtodo_lines now a in
  Ok (Str.join Str.CRLF lines).

(** Parse iCal data and extract VEVENT/VTODO components as plain
    objects. *)
Definition parseIcalObjects (data : string) (type : string)
  : res (list cal_record) :=
  mapM to_record (filter (kind_match type) (parseICS data)).

End WithEnvironment.

End ICal.

(** ** vCard codec *)

Module VCard.

(** A contact: the object returned by [parseVCard], the argument of
    [buildVCard] and the tool arguments all have this shape; a field is
    [undefined] when [None]. *)
Record contact : Type := {
  v_uid : option string;
  v_full_name : option string;
  v_first_name : option string;
  v_last_name : option string;
  v_email : option string;
  v_phone : option string;
  v_org : option string;
  v_title : option string;
  v_note : option string
}.

(** The object [{}]. *)
Definition empty : contact :=
  {| v_uid := None; v_full_name := None; v_first_name := None;
     v_last_name := None; v_email := None; v_phone := None; v_org := None;
     v_title := None; v_note := None |}.

(** [vcardStr.replace(/\r\n /g, "")]. *)
Fixpoint unfold (s : string) : string :=
  match s with
  | EmptyString => EmptyString
  | String c s' =>
      match s' with
      | String c2 (String c3 rest) =>
          if (Ascii.eqb c Str.CR && Ascii.eqb c2 Str.LF && Ascii.eqb c3 " ")%bool
          then unfold rest
          else String c (unfold s')
      | _ => String c (unfold s')
      end
  end.

(** The longest prefix of characters satisfying [p], and the rest. *)
Fixpoint span (p : ascii -> bool) (s : string) : string * string :=
  match s with
  | EmptyString => (EmptyString, EmptyString)
  | String c s' =>
      if p c then let (a, b) := span p s' in (String c a, b)
      else (EmptyString, s)
  end.

Definition not_colon (c : ascii) : bool := negb (Ascii.eqb c ":").
Definition not_colon_semi (c : ascii) : bool :=
  negb (Ascii.eqb c ":" || Ascii.eqb c ";").

(** The line separator U+2028 and the paragraph separator U+2029 lie
    outside the 8-bit range; they are recognised by their UTF-8 bytes,
    226 128 168 and 226 128 169, the form in which a string literal holds
    them. *)
Definition is_separator_bytes (a b c : ascii) : bool :=
  (Ascii.eqb a "226" && Ascii.eqb b "128"
   && (Ascii.eqb c "168" || Ascii.eqb c "169"))%bool.

(** [s] holds U+2028 or U+2029. *)
Fixpoint has_separator (s : string) : bool :=
  match s with
  | EmptyString => false
  | String a s' =>
      match s' with
      | String b (String c _) =>
          (is_separator_bytes a b c || has_separator s')%bool
      | _ => false
      end
  end.

(** Every character of [v] is matched by the regular-expression dot: [v]
    holds none of the line terminators LF, CR, U+2028 and U+2029. *)
Definition dot_all (v : string) : bool :=
  (Str.single_line v && negb (has_separator v))%bool.

(** The value group, a run of dots up to the end of the line: the dot
    matches no line terminator. *)
Definition value_ok (v : string) : option string :=
  if dot_all v then Some v else None.

(** [line.match] on the line pattern: a key (one or more characters other
    than colon and semicolon), optionally a semicolon and parameters (any
    characters other than colon), a colon, and the value up to the end of
    the line.  The result holds the groups 1 and 2, or is [None] when the
    line does not match. *)
Definition line_match (line : string) : option (string * string) :=
  let (key, rest) := span not_colon_semi line in
  if Str.nonempty key then
    match rest with
    | String c r =>
        if Ascii.eqb c ":" then
          match value_ok r with Some v => Some (key, v) | None => None end
        else
          (* [c] is the semicolon that opens the parameters *)
          match snd (span not_colon r) with
          | String _ v =>
              match value_ok v with Some v => Some (key, v) | None => None end
          | EmptyString => None
          end
    | EmptyString => None
    end
  else None.

(** The body of the loop of [parseVCard] for one line. *)
Definition parse_line (result : contact) (line : string) : contact :=
  match line_match line with
  | None => result
  | Some (k, val) =>
      let key := Str.toUpperCase k in
      if String.eqb key "FN" then
        {| v_uid := v_uid result; v_full_name := Some val;
           v_first_name := v_first_name result;
           v_last_name := v_last_name result; v_email := v_email result;
           v_phone := v_phone result; v_org := v_org result;
           v_title := v_title result; v_note := v_note result |}
      else if String.eqb key "N" then
        let parts := Str.split_on ";" val in
        {| v_uid := v_uid result; v_full_name := v_full_name result;
           v_first_name := Some (or_else (nth_error parts 1) "");
           v_last_name := Some (or_else (nth_error parts 0) "");
           v_email := v_email result; v_phone := v_phone result;
           v_org := v_org result; v_title := v_title result;
           v_note := v_note result |}
      else if String.eqb key "EMAIL" then
        {| v_uid := v_uid result; v_full_name := v_full_name result;
           v_first_name := v_first_name result;
           v_last_name := v_last_name result; v_email := Some val;
           v_phone := v_phone result; v_org := v_org result;
           v_title := v_title result; v_note := v_note result |}
      else if String.eqb key "TEL" then
        {| v_uid := v_uid result; v_full_name := v_full_name result;
           v_first_name := v_first_name result;
           v_last_name := v_last_name result; v_email := v_email result;
           v_phone := Some val; v_org := v_org result;
           v_title := v_title result; v_note := v_note result |}
      else if String.eqb key "ORG" then
        {| v_uid := v_uid result; v_full_name := v_full_name result;
           v_first_name := v_first_name result;
           v_last_name := v_last_name result; v_email := v_email result;
           v_phone := v_phone result; v_org := Some val;
           v_title := v_title result; v_note := v_note result |}
      else if String.eqb key "TITLE" then
        {| v_uid := v_uid result; v_full_name := v_full_name result;
           v_first_name := v_first_name result;
           v_last_name := v_last_name result; v_email := v_email result;
           v_phone := v_phone result; v_org := v_org result;
           v_title := Some val; v_note := v_note result |}
      else if String.eqb key "NOTE" then
        {| v_uid := v_uid result; v_full_name := v_full_name result;
           v_first_name := v_first_name result;
           v_last_name := v_last_name result; v_email := v_email result;
           v_phone := v_phone result; v_org := v_org result;
           v_title := v_title result; v_note := Some val |}
      else if String.eqb key "UID" then
        {| v_uid := Some val; v_full_name := v_full_name result;
           v_first_name := v_first_name result;
           v_last_name := v_last_name result; v_email := v_email result;
           v_phone := v_phone result; v_org := v_org result;
           v_title := v_title result; v_note := v_note result |}
      else result
  end.

(** Parse a vCard string into a simple object. *)
Definition parseVCard (vcardStr : string) : contact :=
  fold_left parse_line (Str.split_lines (unfold vcardStr)) empty.

(** [full_name || [first_name, last_name].filter(Boolean).join(" ")
    || "Unknown"]. *)
Definition formatted_name (c : contact) : string :=
  or_else (v_full_name c)
    (or_else
       (Some (Str.join " "
                (List.map ICal.template
                   (filter truthy [v_first_name c; v_last_name c]))))
       "Unknown").

(** The array [lines] of [buildVCard] just before it is joined. *)
Definition vcard_lines (c : contact) : list string :=
  (["BEGIN:VCARD";
    "VERSION:3.0";
    ("UID:" ++ ICal.template (v_uid c))%string;
    ("FN:" ++ formatted_name c)%string;
    ("N:" ++ or_else (v_last_name c) "" ++ ";"
     ++ or_else (v_first_name c) "" ++ ";;;")%string]
   ++ ICal.push_if "EMAIL:" (v_email c)
   ++ ICal.push_if "TEL:" (v_phone c)
   ++ ICal.push_if "ORG:" (v_org c)
   ++ ICal.push_if "TITLE:" (v_title c)
   ++ ICal.push_if "NOTE:" (v_note c)
   ++ ["END:VCARD"])%list.

Definition buildVCard (c : contact) : string :=
  Str.join Str.CRLF (vcard_lines c).

End VCard.

(** ** Tools *)

Module Tools.

Import ICal VCard.

(** *** Collection slug *)

(** [s.replace(/[^a-z0-9]+/g, "-")]: scanning from the left, every maximal
    run of characters outside the class becomes one hyphen; [in_run] tells
    that the run's hyphen is already written. *)
Fixpoint replace_runs (in_run : bool) (s : string) : string :=
  match s with
  | EmptyString => EmptyString
  | String c s' =>
      if Str.is_alnum c then String c (replace_runs false s')
      else if in_run then replace_runs true s'
      else String "-" (replace_runs true s')
  end.

(** Drops the last character of [s] when it is a hyphen. *)
Fixpoint drop_last_hyphen (s : string) : string :=
  match s with
  | EmptyString => EmptyString
  | String c EmptyString => if Ascii.eqb c "-" then EmptyString else s
  | String c s' => String c (drop_last_hyphen s')
  end.

(** The second replace of the slug, which deletes every match of a hyphen
    at the start of the string or a hyphen at its end: at most one
    character at each side. *)
Definition strip_edges (s : string) : string :=
  match s with
  | String c s' =>
      if Ascii.eqb c "-" then drop_last_hyphen s' else drop_last_hyphen s
  | EmptyString => EmptyString
  end.

(** The path segment of [radicale_create_calendar] and
    [radicale_create_address_book]. *)
Definition slug (name : string) : string :=
  strip_edges (replace_runs false (Str.toLowerCase name)).

(** *** Remote objects *)

(** An object returned by [fetchCalendarObjects] / [fetchVCards]. *)
Record dav_object : Type := {
  url : string;
  data : string;
  etag : option string
}.

(** The conditional write handed to [updateCalendarObject] /
    [updateVCard]. *)
Record put_request : Type := {
  p_url : string;
  p_data : string;
  p_etag : option string
}.

(** The arguments of [radicale_update_event] other than the URL. *)
Record event_update : Type := {
  ue_summary : option string;
  ue_start : option string;
  ue_end : option string;
  ue_description : option string;
  ue_location : option string;
  ue_all_day : option bool
}.

(** The arguments of [radicale_update_todo] other than the URL. *)
Record todo_update : Type := {
  ut_summary : option string;
  ut_description : option string;
  ut_due : option string;
  ut_status : option string;
  ut_priority : option js_prim
}.

(** [arg !== undefined ? arg : existing]. *)
Definition overlay {A : Type} (arg : option A) (existing : A) : A :=
  match arg with
  | Some v => v
  | None => existing
  end.

(** The same choice when the existing value may itself be [undefined] or
    [null]. *)
Definition overlay_opt {A : Type} (arg : option A) (existing : option A)
  : option A :=
  match arg with
  | Some v => Some v
  | None => existing
  end.

(** The object [merged] of [radicale_update_event]. *)
Definition merge_event (existing : cal_record) (u : event_update) : vevent :=
  {| e_uid := r_uid existing;
     e_summary := Some (overlay (ue_summary u) (r_summary existing));
     e_dtstart := overlay_opt (ue_start u) (r_start existing);
     e_dtend := overlay_opt (ue_end u) (r_end existing);
     e_description := Some (overlay (ue_description u) (r_description existing));
     e_location := Some (overlay (ue_location u) (r_location existing));
     e_allDay := Some (overlay (ue_all_day u) false) |}.

(** The object [merged] of [radicale_update_todo]; [nowIso] is
    [new Date().toISOString()]. *)
Definition merge_todo (existing : cal_record) (u : todo_update)
    (nowIso : string) : vtodo :=
  let newStatus := overlay (ut_status u) (r_status existing) in
  {| t_uid := r_uid existing;
     t_summary := Some (overlay (ut_summary u) (r_summary existing));
     t_description := Some (overlay (ut_description u) (r_description existing));
     t_due := overlay_opt (ut_due u) (r_due existing);
     t_priority := overlay_opt (ut_priority u) (r_priority existing);
     t_status := Some newStatus;
     t_completed :=
       if String.eqb newStatus "COMPLETED" then Some nowIso else None |}.

(** The object [merged] of [radicale_update_contact]; the arguments have
    the shape of a contact whose [v_uid] is not read. *)
Definition merge_contact (existing : contact) (u : contact) : contact :=
  {| v_uid := v_uid existing;
     v_full_name := overlay_opt (v_full_name u) (v_full_name existing);
     v_first_name := overlay_opt (v_first_name u) (v_first_name existing);
     v_last_name := overlay_opt (v_last_name u) (v_last_name existing);
     v_email := overlay_opt (v_email u) (v_email existing);
     v_phone := overlay_opt (v_phone u) (v_phone existing);
     v_org := overlay_opt (v_org u) (v_org existing);
     v_title := overlay_opt (v_title u) (v_title existing);
     v_note := overlay_opt (v_note u) (v_note existing) |}.

(** An element of the list returned by [radicale_list_todos]:
    [{...obj, url, etag}]. *)
Record listed : Type := {
  l_obj : cal_record;
  l_url : string;
  l_etag : option string
}.

(** Summarise a calendar object for list output. *)
Definition summariseCalObject (obj : cal_record) (url : string)
    (etag : option string) : listed :=
  {| l_obj := obj; l_url := url; l_etag := etag |}.

Section WithEnvironment.

Variable Date_parse : string -> option Z.
Variable parseICS : string -> list component.

(** [radicale_update_event] from the fetched [objects] on: the merged
    record and the write. *)
Definition radicale_update_event (event_url : string)
    (objects : list dav_object) (u : event_update) (now : Z)
  : res (vevent * put_request) :=
  match objects with
  | [] => Throw (Error "Event not found")
  | o :: _ =>
      let* events := parseIcalObjects parseICS (data o) "VEVENT" in
      match events with
      | [] => Throw (Error "No VEVENT found in object")
      | existing :: _ =>
          let merged := merge_event existing u in
          let* data := buildVEvent Date_parse now merged in
          Ok (merged,
              {| p_url := event_url; p_data := data; p_etag := etag o |})
      end
  end.

(** [radicale_update_todo] from the fetched [objects] on.  The clock is
    read once for [completed] ([now]) and once more inside [buildVTodo]
    ([now']). *)
Definition radicale_update_todo (todo_url : string)
    (objects : list dav_object) (u : todo_update) (now now' : Z)
  : res (vtodo * put_request) :=
  match objects with
  | [] => Throw (Error "Todo not found")
  | o :: _ =>
      let* todos := parseIcalObjects parseICS (data o) "VTODO" in
      match todos with
      | [] => Throw (Error "No VTODO found in object")
      | existing :: _ =>
          let merged := merge_todo existing u (DateTime.iso_string now) in
          let* data := buildVTodo Date_parse now' merged in
          Ok (merged,
              {| p_url := todo_url; p_data := data; p_etag := etag o |})
      end
  end.

(** [radicale_list_todos] from the fetched [objects] on. *)
Definition radicale_list_todos (objects : list dav_object)
    (show_completed : option bool) : res (list listed) :=
  let* per_object :=
    mapM (fun o =>
            let* todos := parseIcalObjects parseICS (data o) "VTODO" in
            Ok (List.map (fun t => summariseCalObject t (url o) (etag o)) todos))
         objects in
  Ok (filter (fun t => (is_true show_completed
                        || negb (String.eqb (r_status (l_obj t)) "COMPLETED"))%bool)
        (filter (fun t => truthy (r_uid (l_obj t)))
           (concat per_object))).

End WithEnvironment.

(** [radicale_update_contact] from the fetched [objects] on. *)
Definition radicale_update_contact (contact_url : string)
    (objects : list dav_object) (u : contact)
  : res (contact * put_request) :=
  match objects with
  | [] => Throw (Error "Contact not found")
  | o :: _ =>
      let existing := parseVCard (data o) in
      let merged := merge_contact existing u in
      Ok (merged,
          {| p_url := contact_url; p_data := buildVCard merged;
             p_etag := etag o |})
  end.

End Tools.


(** ** The specification's wording, for comparison with the code *)

Module Spec.

(** The characters after the leading run of non-alphanumeric characters. *)
Fixpoint skip_run (s : string) : string :=
  match s with
  | EmptyString => EmptyString
  | String c s' => if Str.is_alnum c then s else skip_run s'
  end.

Lemma skip_run_length (s : string) :
  (String.length (skip_run s) <= String.length s)%nat.
Proof.
  induction s as [|c s IH]; simpl; [lia|].
  destruct (Str.is_alnum c); simpl; lia.
Qed.

(** "Replacing runs of non-alphanumeric characters with a single hyphen":
    a run is taken whole and one hyphen is written for it. *)
Equations? hyphenate (s : string) : string by wf (String.length s) lt :=
  hyphenate EmptyString := EmptyString;
  hyphenate (String c s') with Str.is_alnum c => {
    | true := String c (hyphenate s');
    | false := String "-" (hyphenate (skip_run s')) }.
Proof.
  pose proof (skip_run_length s'). simpl. lia.
Qed.

(** "Trimming leading hyphens": all of them. *)
Fixpoint trim_leading (s : string) : string :=
  match s with
  | EmptyString => EmptyString
  | String c s' => if Ascii.eqb c "-" then trim_leading s' else s
  end.

(** "Trimming trailing hyphens": all of them. *)
Fixpoint trim_trailing (s : string) : string :=
  match s with
  | EmptyString => EmptyString
  | String c s' =>
      match trim_trailing s' with
      | EmptyString => if Ascii.eqb c "-" then EmptyString else String c EmptyString
      | r => String c r
      end
  end.

(** The derived path segment as the specification words it. *)
Definition slug_spec (name : string) : string :=
  trim_trailing (trim_leading (hyphenate (Str.toLowerCase name))).

(** "Lines beginning with a single leading space are joined to the
    previous line": [cur] is the logical line being assembled. *)
Fixpoint join_continuations (cur : string) (rest : list string)
  : list string :=
  match rest with
  | [] => [cur]
  | l :: rest' =>
      match l with
      | String c l' =>
          if Ascii.eqb c " " then join_continuations (cur ++ l') rest'
          else cur :: join_continuations l rest'
      | EmptyString => cur :: join_continuations l rest'
      end
  end.

Definition logical_lines (lines : list string) : list string :=
  match lines with
  | [] => []
  | l :: rest => join_continuations l rest
  end.

(** Decoding a vCard given as its sequence of physical lines: unfold, then
    read each logical line. *)
Definition decode_lines (lines : list string) : VCard.contact :=
  fold_left VCard.parse_line (logical_lines lines) VCard.empty.

End Spec.

(** ** Shapes of date tokens *)

Module Shape.

(** The DATE form: exactly eight digits. *)
Definition date_token (s : string) : bool :=
  (Nat.eqb (String.length s) 8 && Str.forallb Str.is_digit s)%bool.

(** The UTC DATE-TIME form [YYYYMMDDTHHMMSSZ]. *)
Definition datetime_token (s : string) : bool :=
  match s with
  | String y1 (String y2 (String y3 (String y4 (String m1 (String m2
      (String d1 (String d2 (String "T" (String h1 (String h2 (String i1
      (String i2 (String s1 (String s2 (String "Z" EmptyString))))))))))))))) =>
      Str.forallb Str.is_digit
        (String y1 (String y2 (String y3 (String y4 (String m1 (String m2
        (String d1 (String d2 (String h1 (String h2 (String i1 (String i2
        (String s1 (String s2 EmptyString))))))))))))))
  | _ => false
  end.

(** The digits of a leading [YYYY-MM-DD], when the string starts with
    one. *)
Definition date_prefix (s : string) : option string :=
  match s with
  | String y1 (String y2 (String y3 (String y4 (String h1 (String m1
      (String m2 (String h2 (String d1 (String d2 _))))))))) =>
      let d := String y1 (String y2 (String y3 (String y4 (String m1
                 (String m2 (String d1 (String d2 EmptyString))))))) in
      if (Ascii.eqb h1 "-" && Ascii.eqb h2 "-"
          && Str.forallb Str.is_digit d)%bool
      then Some d else None
  | _ => None
  end.

(** A date-only ISO value: [YYYY-MM-DD] and nothing more. *)
Definition date_only_iso (s : string) : bool :=
  match date_prefix s with
  | Some _ => Nat.eqb (String.length s) 10
  | None => false
  end.

(** The token a valid time value is written as by [isoToIcal]. *)
Definition ical_datetime (t : Z) : string :=
  DateTime.remove_first_millis
    (Str.remove DateTime.is_dash_or_colon (DateTime.iso_string t)).

End Shape.

(** ** Statements about the codec *)

Module Contract.

Import DateTime ICal.

(** [new Date(s).toISOString()] for a populated field: the ISO-normalised
    value of a start or an end; [None] for an absent (falsy) field or one
    that is no date. *)
Definition iso_normalized (Date_parse : string -> option Z)
    (o : option string) : option string :=
  match o with
  | Some s =>
      if Str.nonempty s then
        match toISOString (Date_parse s) with
        | Ok iso => Some iso
        | Throw _ => None
        end
      else None
  | None => None
  end.

(** The round-trip contract at one record: encoding succeeds, decoding the
    text for VEVENT gives a first record, and that record reproduces the
    uid, the summary, the ISO-normalised start and end, the description
    and the location, an absent optional field reading as the empty string
    or null. *)
Definition roundtrips (Date_parse : string -> option Z)
    (parseICS : string -> list component) (now : Z) (r : vevent) : Prop :=
  exists (text : string) (rec : cal_record) (rest : list cal_record),
    buildVEvent Date_parse now r = Ok text
    /\ parseIcalObjects parseICS text "VEVENT" = Ok (rec :: rest)
    /\ r_uid rec = e_uid r
    /\ r_summary rec = or_else (e_summary r) ""
    /\ r_start rec = iso_normalized Date_parse (e_dtstart r)
    /\ r_end rec = iso_normalized Date_parse (e_dtend r)
    /\ r_description rec = or_else (e_description r) ""
    /\ r_location rec = or_else (e_location r) "".

(** An optional end (or due date) [o] denotes the instant [ot]: a populated
    field that parses to a valid time value, or a falsy field and no
    instant. *)
Definition reads_as (Date_parse : string -> option Z) (o : option string)
    (ot : option Z) : Prop :=
  match ot with
  | Some t =>
      exists e, o = Some e /\ Str.nonempty e = true
                /\ Date_parse e = Some t /\ valid_time t = true
  | None => truthy o = false
  end.

(** A populated text field holds no line break. *)
Definition one_line (o : option string) : Prop :=
  forall s, o = Some s -> Str.single_line s = true.

(** What decoding makes of one component. *)
Definition decoded_from (comp : component) (rec : cal_record) : Prop :=
  r_uid rec = c_uid comp
  /\ r_summary rec = or_else (c_summary comp) ""
  /\ r_description rec = or_else (c_description comp) ""
  /\ r_location rec = or_else (c_location comp) ""
  /\ r_status rec = or_else (c_status comp) ""
  /\ r_priority rec = c_priority comp
  /\ icalDateToIso (c_start comp) = Ok (r_start rec)
  /\ icalDateToIso (c_end comp) = Ok (r_end rec)
  /\ icalDateToIso (c_completed comp) = Ok (r_completed rec)
  /\ icalDateToIso (c_due comp) = Ok (r_due rec).

(** Two records that the event schema accepts and that differ in summary
    and location. *)
Definition event_with_break : vevent :=
  {| e_uid := Some "6f1c";
     e_summary := Some ("Review" ++ Str.CRLF ++ "LOCATION:Room 2");
     e_dtstart := Some "2026-03-01T09:00:00Z";
     e_dtend := None;
     e_description := None;
     e_location := None;
     e_allDay := Some false |}.

Definition event_with_location : vevent :=
  {| e_uid := Some "6f1c";
     e_summary := Some "Review";
     e_dtstart := Some "2026-03-01T09:00:00Z";
     e_dtend := None;
     e_description := None;
     e_location := Some "Room 2";
     e_allDay := Some false |}.

End Contract.

(** ** Statements about all-day events and updates *)

Module Cases.

Import DateTime ICal Tools.

(** An optional end [o] starts with the calendar date whose digits are
    [od], or is falsy and there is no date. *)
Definition date_reads (o : option string) (od : option string) : Prop :=
  match od with
  | Some d =>
      exists e, o = Some e /\ Str.nonempty e = true
                /\ Shape.date_prefix e = Some d
  | None => truthy o = false
  end.

(** An all-day record whose start is a year and a month. *)
Definition all_day_month : vevent :=
  {| e_uid := Some "6f1c";
     e_summary := Some "Offsite";
     e_dtstart := Some "2026-03";
     e_dtend := None;
     e_description := None;
     e_location := None;
     e_allDay := Some true |}.

(** An all-day record with a start and an end date. *)
Definition all_day_event : vevent :=
  {| e_uid := Some "6f1c";
     e_summary := Some "Offsite";
     e_dtstart := Some "2026-03-01";
     e_dtend := Some "2026-03-02T00:00:00Z";
     e_description := None;
     e_location := None;
     e_allDay := Some true |}.

(** The component of a stored all-day event: its start and end are dates
    at midnight. *)
Definition all_day_component : component :=
  {| c_type := "VEVENT";
     c_uid := Some "6f1c";
     c_summary := Some "Offsite";
     c_description := None;
     c_start := Some (PDate (Some 1772323200000));
     c_end := Some (PDate (Some 1772409600000));
     c_location := Some "Lisbon";
     c_status := None;
     c_priority := None;
     c_completed := None;
     c_due := None |}.

(** A stored todo that was completed on 2026-01-05. *)
Definition done_component : component :=
  {| c_type := "VTODO";
     c_uid := Some "77aa";
     c_summary := Some "File report";
     c_description := None;
     c_start := None;
     c_end := None;
     c_location := None;
     c_status := Some "COMPLETED";
     c_priority := Some (PText "5");
     c_completed := Some (PDate (Some 1767571200000));
     c_due := None |}.

(** A stored todo without a UID property. *)
Definition anonymous_component : component :=
  {| c_type := "VTODO";
     c_uid := None;
     c_summary := Some "Call back";
     c_description := None;
     c_start := None;
     c_end := None;
     c_location := None;
     c_status := Some "NEEDS-ACTION";
     c_priority := None;
     c_completed := None;
     c_due := None |}.

Definition stored (text : string) : dav_object :=
  {| url := "https://dav.example.org/u/cal/item.ics";
     data := text;
     etag := Some "etag-1" |}.

(** An update that supplies the summary only. *)
Definition summary_only (s : string) : event_update :=
  {| ue_summary := Some s; ue_start := None; ue_end := None;
     ue_description := None; ue_location := None; ue_all_day := None |}.

Definition todo_summary_only (s : string) : todo_update :=
  {| ut_summary := Some s; ut_description := None; ut_due := None;
     ut_status := None; ut_priority := None |}.

(** A field of a merged record: the supplied value exactly when one is
    supplied, the existing value otherwise. *)
Definition takes {A : Type} (arg : option A) (existing result : A) : Prop :=
  match arg with
  | Some v => result = v
  | None => result = existing
  end.

End Cases.

(** ** Statements about merging, listing and vCard lines *)

Module Rules.

Import DateTime ICal VCard Tools.

(** A nullable field of a merged record: the supplied value exactly when
    one is supplied, the existing (possibly absent) value otherwise. *)
Definition takes_opt {A : Type} (arg existing result : option A) : Prop :=
  match arg with
  | Some v => result = Some v
  | None => result = existing
  end.

(** A parsed date that [icalDateToIso] accepts: everything but an invalid
    [Date]. *)
Definition date_ok (d : option parsed_date) : bool :=
  match d with
  | Some (PDate (Some t)) => valid_time t
  | Some (PDate None) => false
  | _ => true
  end.

Definition dates_ok (comp : component) : bool :=
  (date_ok (c_start comp) && date_ok (c_end comp)
   && date_ok (c_completed comp) && date_ok (c_due comp))%bool.

(** The todos decoded from the fetched objects, each with the URL and etag
    of the object it came from, in fetch order. *)
Definition parsed_todos (objects : list dav_object)
    (per_object : list (list cal_record)) : list listed :=
  concat
    (List.map
       (fun p => List.map (fun t => summariseCalObject t (url (fst p)) (etag (fst p)))
                   (snd p))
       (combine objects per_object)).

(** The vCard keys the decoder recognises, each with what it assigns. *)
Definition with_full_name (val : string) (r : contact) : contact :=
  {| v_uid := v_uid r; v_full_name := Some val;
     v_first_name := v_first_name r; v_last_name := v_last_name r;
     v_email := v_email r; v_phone := v_phone r; v_org := v_org r;
     v_title := v_title r; v_note := v_note r |}.

Definition with_names (val : string) (r : contact) : contact :=
  {| v_uid := v_uid r; v_full_name := v_full_name r;
     v_first_name := Some (or_else (nth_error (Str.split_on ";" val) 1) "");
     v_last_name := Some (or_else (nth_error (Str.split_on ";" val) 0) "");
     v_email := v_email r; v_phone := v_phone r; v_org := v_org r;
     v_title := v_title r; v_note := v_note r |}.

Definition with_email (val : string) (r : contact) : contact :=
  {| v_uid := v_uid r; v_full_name := v_full_name r;
     v_first_name := v_first_name r; v_last_name := v_last_name r;
     v_email := Some val; v_phone := v_phone r; v_org := v_org r;
     v_title := v_title r; v_note := v_note r |}.

Definition with_phone (val : string) (r : contact) : contact :=
  {| v_uid := v_uid r; v_full_name := v_full_name r;
     v_first_name := v_first_name r; v_last_name := v_last_name r;
     v_email := v_email r; v_phone := Some val; v_org := v_org r;
     v_title := v_title r; v_note := v_note r |}.

Definition with_org (val : string) (r : contact) : contact :=
  {| v_uid := v_uid r; v_full_name := v_full_name r;
     v_first_name := v_first_name r; v_last_name := v_last_name r;
     v_email := v_email r; v_phone := v_phone r; v_org := Some val;
     v_title := v_title r; v_note := v_note r |}.

Definition with_title (val : string) (r : contact) : contact :=
  {| v_uid := v_uid r; v_full_name := v_full_name r;
     v_first_name := v_first_name r; v_last_name := v_last_name r;
     v_email := v_email r; v_phone := v_phone r; v_org := v_org r;
     v_title := Some val; v_note := v_note r |}.

Definition with_note (val : string) (r : contact) : contact :=
  {| v_uid := v_uid r; v_full_name := v_full_name r;
     v_first_name := v_first_name r; v_last_name := v_last_name r;
     v_email := v_email r; v_phone := v_phone r; v_org := v_org r;
     v_title := v_title r; v_note := Some val |}.

Definition with_uid (val : string) (r : contact) : contact :=
  {| v_uid := Some val; v_full_name := v_full_name r;
     v_first_name := v_first_name r; v_last_name := v_last_name r;
     v_email := v_email r; v_phone := v_phone r; v_org := v_org r;
     v_title := v_title r; v_note := v_note r |}.

Definition recognized : list (string * (string -> contact -> contact)) :=
  [("FN", with_full_name); ("N", with_names); ("EMAIL", with_email);
   ("TEL", with_phone); ("ORG", with_org); ("TITLE", with_title);
   ("NOTE", with_note); ("UID", with_uid)].

Fixpoint lookup {A : Type} (key : string) (table : list (string * A))
  : option A :=
  match table with
  | [] => None
  | (k, a) :: table' => if String.eqb key k then Some a else lookup key table'
  end.

(** Reading one logical line [KEY:VALUE] whose key, in upper case, is
    [key]: a recognised key assigns, any other key is ignored. *)
Definition assign (key val : string) (r : contact) : contact :=
  match lookup key recognized with
  | Some set => set val r
  | None => r
  end.

End Rules.

(** ** The remaining tools *)

Module MoreTools.

Import DateTime ICal VCard Tools.

Definition not_slash (c : ascii) : bool := negb (Ascii.eqb c "/").

(** [url.replace(/[^/]+$/, "")] with the pattern "one or more characters
    other than a slash, up to the end": the leftmost position from which
    the rest of the string is non-empty and free of slashes is where the
    match starts, and the match is deleted. *)
Fixpoint strip_last_segment (s : string) : string :=
  match s with
  | EmptyString => EmptyString
  | String c s' =>
      if Str.forallb not_slash s then EmptyString
      else String c (strip_last_segment s')
  end.

(** The characters deleted by [strip_last_segment]. *)
Fixpoint last_segment (s : string) : string :=
  match s with
  | EmptyString => EmptyString
  | String c s' => if Str.forallb not_slash s then s else last_segment s'
  end.

(** The arguments of [radicale_create_event] other than the URL. *)
Record event_create : Type := {
  ce_summary : string;
  ce_start : string;
  ce_end : option string;
  ce_description : option string;
  ce_location : option string;
  ce_all_day : option bool
}.

(** The arguments of [radicale_create_todo] other than the URL. *)
Record todo_create : Type := {
  ct_summary : string;
  ct_description : option string;
  ct_due : option string;
  ct_priority : option js_prim
}.

(** The object handed to [createCalendarObject] / [createVCard]. *)
Record create_request : Type := {
  q_collection : string;
  q_filename : string;
  q_data : string
}.

(** What [radicale_get_event] serialises: the first decoded event, when
    there is one, spread into the URL, etag and raw text of the object. *)
Record event_view : Type := {
  g_event : option cal_record;
  g_url : string;
  g_etag : option string;
  g_raw : string
}.

Section WithEnvironment.

Variable Date_parse : string -> option Z.
Variable parseICS : string -> list component.

(** [radicale_create_event]; [uid] is the value of
    [crypto.randomUUID()].  The result holds the request and the URL
    reported to the caller. *)
Definition radicale_create_event (calendar_url : string) (a : event_create)
    (uid : string) (now : Z) : res (create_request * string) :=
  let filename := uid ++ ".ics" in
  let* data :=
    buildVEvent Date_parse now
      {| e_uid := Some uid;
         e_summary := Some (ce_summary a);
         e_dtstart := Some (ce_start a);
         e_dtend := ce_end a;
         e_description := ce_description a;
         e_location := ce_location a;
         e_allDay := ce_all_day a |} in
  Ok ({| q_collection := calendar_url; q_filename := filename;
         q_data := data |},
      calendar_url ++ filename).

(** [radicale_create_todo]. *)
Definition radicale_create_todo (calendar_url : string) (a : todo_create)
    (uid : string) (now : Z) : res (create_request * string) :=
  let filename := uid ++ ".ics" in
  let* data :=
    buildVTodo Date_parse now
      {| t_uid := Some uid;
         t_summary := Some (ct_summary a);
         t_description := ct_description a;
         t_due := ct_due a;
         t_priority := ct_priority a;
         t_status := Some "NEEDS-ACTION";
         t_completed := None |} in
  Ok ({| q_collection := calendar_url; q_filename := filename;
         q_data := data |},
      calendar_url ++ filename).

(** The [timeRange] of [radicale_list_events]: present only when both
    bounds are truthy. *)
Definition time_range (start end_ : option string)
  : res (option (string * string)) :=
  if (truthy start && truthy end_)%bool then
    let* s := toISOString (new_Date Date_parse start) in
    let* e := toISOString (new_Date Date_parse end_) in
    Ok (Some (s, e))
  else Ok None.

(** [radicale_list_events] from the fetched [objects] on. *)
Definition radicale_list_events (objects : list dav_object)
  : res (list listed) :=
  let* per_object :=
    mapM (fun o =>
            let* events := parseIcalObjects parseICS (data o) "VEVENT" in
            Ok (List.map (fun e => summariseCalObject e (url o) (etag o)) events))
         objects in
  Ok (filter (fun e => truthy (r_uid (l_obj e))) (concat per_object)).

(** [radicale_get_event] from the fetched objects on. *)
Definition radicale_get_event (obj : list dav_object) : res event_view :=
  match obj with
  | [] => Throw (Error "Event not found")
  | o :: _ =>
      let* events := parseIcalObjects parseICS (data o) "VEVENT" in
      Ok {| g_event := hd_error events; g_url := url o; g_etag := etag o;
            g_raw := data o |}
  end.

End WithEnvironment.

(** [radicale_create_contact]; the arguments have the shape of a contact
    whose [v_uid] is not read. *)
Definition radicale_create_contact (address_book_url : string) (a : contact)
    (uid : string) : create_request * string :=
  let filename := uid ++ ".vcf" in
  ({| q_collection := address_book_url; q_filename := filename;
      q_data :=
        buildVCard
          {| v_uid := Some uid; v_full_name := v_full_name a;
             v_first_name := v_first_name a; v_last_name := v_last_name a;
             v_email := v_email a; v_phone := v_phone a; v_org := v_org a;
             v_title := v_title a; v_note := v_note a |} |},
   address_book_url ++ filename).

(** [radicale_list_contacts] from the fetched [objects] on: URL, etag and
    the decoded card of each object. *)
Definition radicale_list_contacts (objects : list dav_object)
  : list (string * option string * contact) :=
  List.map (fun o => (url o, etag o, parseVCard (data o))) objects.

End MoreTools.

(** ** Statements about the remaining tools *)

Module Extra.

Import DateTime ICal VCard Tools.


Definition ends_with_slash (s : string) : Prop :=
  exists p, s = p ++ "/".

Definition not_semicolon (c : ascii) : bool := negb (Ascii.eqb c ";").

(** A populated field without line terminator (LF, CR, U+2028,
    U+2029). *)
Definition plain (o : option string) : bool :=
  match o with
  | Some s => VCard.dot_all s
  | None => true
  end.

(** A populated name without line terminator and without semicolon. *)
Definition plain_name (o : option string) : bool :=
  match o with
  | Some s => (VCard.dot_all s && Str.forallb not_semicolon s)%bool
  | None => true
  end.

(** The character can neither continue nor end the UTF-8 bytes of U+2028
    or U+2029. *)
Definition head_safe (s : string) : bool :=
  match s with
  | String c _ =>
      negb (Ascii.eqb c "128" || Ascii.eqb c "168" || Ascii.eqb c "169")
  | EmptyString => true
  end.

(** A contact that [buildVCard] writes one line per property for. *)
Definition plain_contact (c : contact) : bool :=
  (plain (v_uid c) && plain (v_full_name c) && plain_name (v_first_name c)
   && plain_name (v_last_name c) && plain (v_email c) && plain (v_phone c)
   && plain (v_org c) && plain (v_title c) && plain (v_note c))%bool.

(** A field as it is read back: a falsy value was not written. *)
Definition kept (o : option string) : option string :=
  if truthy o then o else None.

(** The contact read back from the card written for [c]. *)
Definition reread (c : contact) : contact :=
  {| v_uid := Some (template (v_uid c));
     v_full_name := Some (formatted_name c);
     v_first_name := Some (or_else (v_first_name c) "");
     v_last_name := Some (or_else (v_last_name c) "");
     v_email := kept (v_email c);
     v_phone := kept (v_phone c);
     v_org := kept (v_org c);
     v_title := kept (v_title c);
     v_note := kept (v_note c) |}.

(** An update that supplies nothing. *)
Definition no_change : contact := VCard.empty.

End Extra.

Module ExtraCases.

Import DateTime ICal Tools.

(** A stored event without DTSTART. *)
Definition floating_component : component :=
  {| c_type := "VEVENT";
     c_uid := Some "31de";
     c_summary := Some "Kickoff";
     c_description := None;
     c_start := None;
     c_end := None;
     c_location := None;
     c_status := None;
     c_priority := None;
     c_completed := None;
     c_due := None |}.

Definition floating_record : cal_record :=
  {| r_uid := Some "31de"; r_summary := "Kickoff"; r_description := "";
     r_start := None; r_end := None; r_location := ""; r_status := "";
     r_priority := None; r_completed := None; r_due := None |}.



End ExtraCases.

Module CardCases.

Import VCard Tools.

Definition ada : contact :=
  {| v_uid := Some "u1"; v_full_name := None; v_first_name := Some "Ada";
     v_last_name := None; v_email := None; v_phone := None; v_org := None;
     v_title := None; v_note := None |}.

Definition stored_card : dav_object :=
  {| url := "https://dav.example.org/u/book/u1.vcf";
     data := buildVCard ada;
     etag := Some "e7" |}.

End CardCases.

(** ** The model on concrete inputs *)

Example split_lines_crlf :
  Str.split_lines ("a" ++ Str.CRLF ++ "b" ++ String Str.LF "c")
  = ["a"; "b"; "c"].
Proof. reflexivity. Qed.

Example split_lines_lone_cr :
  Str.split_lines (String "a" (String Str.CR (String Str.CR (String Str.LF "b"))))
  = [String "a" (String Str.CR ""); "b"].
Proof. reflexivity. Qed.

Example toISOString_2026 :
  DateTime.toISOString (Some 1772355600000) = Ok "2026-03-01T09:00:00.000Z".
Proof. reflexivity. Qed.

Example toISOString_before_epoch :
  DateTime.toISOString (Some (-1)) = Ok "1969-12-31T23:59:59.999Z".
Proof. reflexivity. Qed.

Example toISOString_expanded_year :
  DateTime.toISOString (Some 253402300800000) = Ok "+010000-01-01T00:00:00.000Z".
Proof. reflexivity. Qed.

Example isoToIcal_2026 :
  DateTime.isoToIcal DateTime.Date_parse_utc (Some "2026-03-01T09:00:00Z")
  = Ok "20260301T090000Z".
Proof. reflexivity. Qed.

Example isoToIcal_null :
  DateTime.isoToIcal DateTime.Date_parse_utc None = Ok "19700101T000000Z".
Proof. reflexivity. Qed.

Example isoToIcalDate_2026 :
  DateTime.isoToIcalDate (Some "2026-03-01T09:00:00Z") = Ok "20260301".
Proof. reflexivity. Qed.

Example parseVCard_folded :
  VCard.parseVCard
    ("BEGIN:VCARD" ++ Str.CRLF ++ "fn;charset=utf-8:Ada Lovelace" ++ Str.CRLF
     ++ "N:Lovelace;Ada;;;" ++ Str.CRLF ++ "NOTE:first" ++ Str.CRLF
     ++ " second" ++ Str.CRLF ++ "X-CUSTOM:1" ++ Str.CRLF ++ "END:VCARD")
  = {| VCard.v_uid := None; VCard.v_full_name := Some "Ada Lovelace";
       VCard.v_first_name := Some "Ada"; VCard.v_last_name := Some "Lovelace";
       VCard.v_email := None; VCard.v_phone := None; VCard.v_org := None;
       VCard.v_title := None; VCard.v_note := Some "firstsecond" |}.
Proof. reflexivity. Qed.

Example parseVCard_line_separator :
  VCard.parseVCard
    ("FN:Ada" ++ Str.CRLF
     ++ "NOTE:a" ++ String "226" (String "128" (String "168" "b")))
  = {| VCard.v_uid := None; VCard.v_full_name := Some "Ada";
       VCard.v_first_name := None; VCard.v_last_name := None;
       VCard.v_email := None; VCard.v_phone := None; VCard.v_org := None;
       VCard.v_title := None; VCard.v_note := None |}.
Proof. reflexivity. Qed.

Example plain_refuses_line_separator :
  Extra.plain (Some ("a" ++ String "226" (String "128" (String "168" "b"))))
  = false.
Proof. reflexivity. Qed.

Example buildVCard_first_only :
  VCard.vcard_lines
    {| VCard.v_uid := Some "u1"; VCard.v_full_name := None;
       VCard.v_first_name := Some "Ada"; VCard.v_last_name := None;
       VCard.v_email := Some "ada@example.org"; VCard.v_phone := None;
       VCard.v_org := None; VCard.v_title := None; VCard.v_note := None |}
  = ["BEGIN:VCARD"; "VERSION:3.0"; "UID:u1"; "FN:Ada"; "N:;Ada;;;";
     "EMAIL:ada@example.org"; "END:VCARD"].
Proof. reflexivity. Qed.

Example slug_team_sync : Tools.slug "Team Sync" = "team-sync".
Proof. reflexivity. Qed.

Example slug_edges : Tools.slug "  ---Q3 / Plan!!  " = "q3-plan".
Proof. reflexivity. Qed.

Example slug_spec_team_sync : Spec.slug_spec "Team Sync" = "team-sync".
Proof. reflexivity. Qed.

(** * Properties *)

(** ** Characters and strings *)

Lemma ascii_eqb_eq (a b : ascii) : Ascii.eqb a b = true <-> a = b.
Proof. apply Ascii.eqb_eq. Qed.

Lemma ascii_eqb_neq (a b : ascii) : Ascii.eqb a b = false <-> a <> b.
Proof. apply Ascii.eqb_neq. Qed.

Lemma append_nil_r (s : string) : s ++ "" = s.
Proof. induction s as [|c s IH]; simpl; [reflexivity | now rewrite IH]. Qed.

Lemma append_assoc (a b c : string) : (a ++ b) ++ c = a ++ (b ++ c).
Proof. induction a as [|x a IH]; simpl; [reflexivity | now rewrite IH]. Qed.

(** ** The collection slug *)

Module SlugFacts.

Import Tools Spec.

(** The code's one-pass replacement is the replacement of whole runs. *)
Lemma replace_runs_hyphenate (s : string) :
  replace_runs true s = hyphenate (skip_run s)
  /\ replace_runs false s = hyphenate s.
Proof.
  induction s as [|c s [IHt IHf]].
  - simpl. simp hyphenate. split; reflexivity.
  - simpl. simp hyphenate. destruct (Str.is_alnum c) eqn:Ha; simpl.
    + simp hyphenate. rewrite Ha. simpl. rewrite IHf. split; reflexivity.
    + rewrite IHt. split; reflexivity.
Qed.

(** No two hyphens in a row. *)
Fixpoint separated (s : string) : bool :=
  match s with
  | EmptyString => true
  | String c s' =>
      match s' with
      | String c' _ =>
          (negb (Ascii.eqb c "-" && Ascii.eqb c' "-") && separated s')%bool
      | EmptyString => true
      end
  end.

Definition starts_with_hyphen (s : string) : bool :=
  match s with
  | String c _ => Ascii.eqb c "-"
  | EmptyString => false
  end.

Lemma alnum_not_hyphen (c : ascii) :
  Str.is_alnum c = true -> Ascii.eqb c "-" = false.
Proof.
  intros H. apply ascii_eqb_neq. intros ->. discriminate H.
Qed.

Lemma replace_runs_separated (s : string) :
  (separated (replace_runs true s) = true
   /\ starts_with_hyphen (replace_runs true s) = false)
  /\ separated (replace_runs false s) = true.
Proof.
  induction s as [|c s [[IHt IHh] IHf]]; simpl; [auto|].
  destruct (Str.is_alnum c) eqn:Ha.
  - assert (Hs : separated (String c (replace_runs false s)) = true).
    { simpl. destruct (replace_runs false s) eqn:E; [reflexivity|].
      rewrite (alnum_not_hyphen c Ha). simpl. exact IHf. }
    repeat split; try exact Hs. simpl. now apply alnum_not_hyphen.
  - repeat split; try assumption.
    simpl. destruct (replace_runs true s) eqn:E; [reflexivity|].
    simpl in IHh. rewrite IHh. simpl. exact IHt.
Qed.

Lemma separated_tail (c : ascii) (s : string) :
  separated (String c s) = true -> separated s = true.
Proof.
  simpl. destruct s; [reflexivity|].
  intros H. apply andb_true_iff in H. apply H.
Qed.

Lemma drop_last_hyphen_empty (s : string) :
  drop_last_hyphen s = "" -> s = "" \/ s = "-".
Proof.
  destruct s as [|c s]; [auto|].
  simpl. destruct s as [|c' s].
  - destruct (Ascii.eqb c "-") eqn:E; [|discriminate].
    apply ascii_eqb_eq in E. subst. auto.
  - discriminate.
Qed.

Lemma trim_trailing_separated (s : string) :
  separated s = true -> trim_trailing s = drop_last_hyphen s.
Proof.
  induction s as [|c s IH]; [reflexivity|].
  intros Hs. pose proof (separated_tail _ _ Hs) as Hs'.
  specialize (IH Hs').
  change (trim_trailing (String c s)) with
    (match trim_trailing s with
     | EmptyString => if Ascii.eqb c "-" then EmptyString else String c EmptyString
     | r => String c r
     end).
  rewrite IH. destruct s as [|c' s]; [reflexivity|].
  change (drop_last_hyphen (String c (String c' s)))
    with (String c (drop_last_hyphen (String c' s))).
  destruct (drop_last_hyphen (String c' s)) eqn:E; [|reflexivity].
  apply drop_last_hyphen_empty in E. destruct E as [E|E]; [discriminate|].
  injection E as -> ->. simpl in Hs.
  destruct (Ascii.eqb c "-"); [discriminate Hs | reflexivity].
Qed.

Lemma strip_edges_trim (s : string) :
  separated s = true -> strip_edges s = trim_trailing (trim_leading s).
Proof.
  intros Hs. destruct s as [|c s]; [reflexivity|].
  pose proof (separated_tail _ _ Hs) as Hs'.
  unfold strip_edges.
  change (trim_leading (String c s))
    with (if Ascii.eqb c "-" then trim_leading s else String c s).
  destruct (Ascii.eqb c "-") eqn:Ec.
  - assert (Ht : trim_leading s = s).
    { destruct s as [|c' s]; [reflexivity|]. simpl in Hs. rewrite Ec in Hs.
      simpl. destruct (Ascii.eqb c' "-"); [discriminate Hs | reflexivity]. }
    rewrite Ht. symmetry. now apply trim_trailing_separated.
  - symmetry. now apply trim_trailing_separated.
Qed.

(** The characters a slug is made of. *)
Definition slug_char (c : ascii) : bool :=
  (Str.is_alnum c || Ascii.eqb c "-")%bool.

Lemma replace_runs_chars (b : bool) (s : string) :
  Str.forallb slug_char (replace_runs b s) = true.
Proof.
  revert b. induction s as [|c s IH]; intros b; simpl; [reflexivity|].
  destruct (Str.is_alnum c) eqn:Ha; simpl.
  - unfold slug_char at 1. rewrite Ha. simpl. apply IH.
  - destruct b; simpl; apply IH.
Qed.

End SlugFacts.

(** C7.  The path segment derived at collection creation (calendar and
    address book share the expression) is the supplied name lowercased,
    with every run of characters outside a-z0-9 replaced by one hyphen and
    the leading and trailing hyphens trimmed; "Team Sync" gives
    "team-sync". *)
Theorem C7_slug_is_lowercase_hyphenate_trim :
  (forall name : string, Tools.slug name = Spec.slug_spec name)
  /\ Tools.slug "Team Sync" = "team-sync".
Proof.
  split; [|reflexivity].
  intros name. unfold Tools.slug, Spec.slug_spec.
  destruct (SlugFacts.replace_runs_hyphenate (Str.toLowerCase name)) as [_ <-].
  apply SlugFacts.strip_edges_trim.
  apply SlugFacts.replace_runs_separated.
Qed.

(** ** Lines *)

Module LineFacts.

Lemma single_line_cons (c : ascii) (s : string) :
  Str.single_line (String c s) = true ->
  Str.is_line_break c = false /\ Str.single_line s = true.
Proof.
  unfold Str.single_line. simpl.
  destruct (Str.is_line_break c); simpl; [discriminate | auto].
Qed.

Lemma not_line_break (c : ascii) :
  Str.is_line_break c = false ->
  Ascii.eqb c Str.CR = false /\ Ascii.eqb c Str.LF = false.
Proof.
  unfold Str.is_line_break. intros H. now apply orb_false_iff in H.
Qed.

Lemma split_lines_single (s : string) :
  Str.single_line s = true -> Str.split_lines s = [s].
Proof.
  induction s as [|c s IH]; [reflexivity|].
  intros H. apply single_line_cons in H. destruct H as [Hc Hs].
  apply not_line_break in Hc. destruct Hc as [Hcr Hlf].
  specialize (IH Hs). simpl. rewrite Hlf, Hcr. simpl.
  destruct s; [reflexivity|]. rewrite IH. reflexivity.
Qed.

(** A line without line breaks followed by CRLF is read back as written. *)
Lemma split_lines_first_line (s rest : string) :
  Str.single_line s = true ->
  Str.split_lines (s ++ Str.CRLF ++ rest) = s :: Str.split_lines rest.
Proof.
  induction s as [|c s IH]; [reflexivity|].
  intros H. apply single_line_cons in H. destruct H as [Hc Hs].
  apply not_line_break in Hc. destruct Hc as [Hcr Hlf].
  specialize (IH Hs).
  change (String c s ++ Str.CRLF ++ rest)
    with (String c (s ++ Str.CRLF ++ rest)).
  remember (s ++ Str.CRLF ++ rest) as tl eqn:Etl.
  simpl. rewrite Hlf, Hcr. simpl.
  destruct tl as [|c' tl'].
  - destruct s; discriminate Etl.
  - rewrite IH. reflexivity.
Qed.

(** Splitting undoes joining with CRLF when no line holds a line break. *)
Lemma split_lines_join (l : string) (ls : list string) :
  Forall (fun x => Str.single_line x = true) (l :: ls) ->
  Str.split_lines (Str.join Str.CRLF (l :: ls)) = l :: ls.
Proof.
  revert l. induction ls as [|l' ls IH]; intros l H.
  - simpl. apply split_lines_single. now inversion H.
  - inversion H as [|? ? Hl Hrest]; subst.
    change (Str.join Str.CRLF (l :: l' :: ls))
      with (l ++ Str.CRLF ++ Str.join Str.CRLF (l' :: ls)).
    rewrite split_lines_first_line by exact Hl.
    now rewrite IH.
Qed.

Lemma single_line_app (a b : string) :
  Str.single_line a = true -> Str.single_line b = true ->
  Str.single_line (a ++ b) = true.
Proof.
  induction a as [|c a IH]; [auto|].
  intros Ha Hb. apply single_line_cons in Ha. destruct Ha as [Hc Ha].
  unfold Str.single_line in *. simpl. rewrite Hc. simpl. now apply IH.
Qed.

Lemma push_if_single_line (key : string) (v : option string) :
  Str.single_line key = true ->
  (forall s, v = Some s -> Str.single_line s = true) ->
  Forall (fun x => Str.single_line x = true) (ICal.push_if key v).
Proof.
  intros Hk Hv. unfold ICal.push_if. destruct v as [s|]; [|constructor].
  destruct (Str.nonempty s); constructor; [|constructor].
  apply single_line_app; auto.
Qed.

End LineFacts.

(** ** Dates *)

Module DateFacts.

Import DateTime Shape.

Lemma digit_is_digit (n : Z) : Str.is_digit (digit n) = true.
Proof.
  unfold digit. pose proof (Z.mod_pos_bound n 10 ltac:(lia)) as H.
  assert (E : n mod 10 = 0 \/ n mod 10 = 1 \/ n mod 10 = 2 \/ n mod 10 = 3
              \/ n mod 10 = 4 \/ n mod 10 = 5 \/ n mod 10 = 6
              \/ n mod 10 = 7 \/ n mod 10 = 8 \/ n mod 10 = 9) by lia.
  repeat (destruct E as [E|E]; [rewrite E; reflexivity|]).
  rewrite E. reflexivity.
Qed.

Lemma is_digit_not_sep (c : ascii) :
  Str.is_digit c = true -> is_dash_or_colon c = false.
Proof.
  destruct c as [[] [] [] [] [] [] [] []]; intros H;
    try reflexivity; discriminate H.
Qed.

Lemma is_digit_not_dash (c : ascii) :
  Str.is_digit c = true -> is_dash c = false.
Proof.
  destruct c as [[] [] [] [] [] [] [] []]; intros H;
    try reflexivity; discriminate H.
Qed.

Lemma is_digit_not_dot (c : ascii) :
  Str.is_digit c = true -> Ascii.eqb c "." = false.
Proof.
  destruct c as [[] [] [] [] [] [] [] []]; intros H;
    try reflexivity; discriminate H.
Qed.

Lemma is_digit_not_line_break (c : ascii) :
  Str.is_digit c = true -> Str.is_line_break c = false.
Proof.
  destruct c as [[] [] [] [] [] [] [] []]; intros H;
    try reflexivity; discriminate H.
Qed.

Lemma remove_app (p : ascii -> bool) (a b : string) :
  Str.remove p (a ++ b) = Str.remove p a ++ Str.remove p b.
Proof.
  induction a as [|c a IH]; [reflexivity|].
  simpl. destruct (p c); simpl; now rewrite IH.
Qed.

Lemma remove_digits (p : ascii -> bool) (s : string) :
  (forall c, Str.is_digit c = true -> p c = false) ->
  Str.forallb Str.is_digit s = true -> Str.remove p s = s.
Proof.
  intros Hp. induction s as [|c s IH]; [reflexivity|].
  simpl. intros H. apply andb_true_iff in H. destruct H as [Hc Hs].
  rewrite (Hp c Hc). now rewrite IH.
Qed.

Lemma forallb_app (p : ascii -> bool) (a b : string) :
  Str.forallb p (a ++ b) = (Str.forallb p a && Str.forallb p b)%bool.
Proof.
  induction a as [|c a IH]; [reflexivity|].
  simpl. rewrite IH. now rewrite andb_assoc.
Qed.

Lemma pad2_digits (n : Z) : Str.forallb Str.is_digit (pad2 n) = true.
Proof. unfold pad2. cbn [Str.forallb]. now rewrite !digit_is_digit. Qed.

Lemma pad3_digits (n : Z) : Str.forallb Str.is_digit (pad3 n) = true.
Proof.
  unfold pad3, pad2. cbn [Str.forallb]. now rewrite !digit_is_digit.
Qed.

Lemma pad4_digits (n : Z) : Str.forallb Str.is_digit (pad4 n) = true.
Proof.
  unfold pad4, pad3, pad2. cbn [Str.forallb]. now rewrite !digit_is_digit.
Qed.

Lemma remove_sep_pad2 (n : Z) : Str.remove is_dash_or_colon (pad2 n) = pad2 n.
Proof. apply remove_digits; [apply is_digit_not_sep | apply pad2_digits]. Qed.

Lemma remove_sep_pad3 (n : Z) : Str.remove is_dash_or_colon (pad3 n) = pad3 n.
Proof. apply remove_digits; [apply is_digit_not_sep | apply pad3_digits]. Qed.

Lemma remove_sep_pad4 (n : Z) : Str.remove is_dash_or_colon (pad4 n) = pad4 n.
Proof. apply remove_digits; [apply is_digit_not_sep | apply pad4_digits]. Qed.

(** A character that is no dot is kept by the millisecond removal. *)
Lemma remove_first_millis_skip (c : ascii) (s : string) :
  Ascii.eqb c "." = false ->
  remove_first_millis (String c s) = String c (remove_first_millis s).
Proof.
  intros H. simpl. rewrite H. simpl.
  destruct s as [|a [|b [|d s]]]; reflexivity.
Qed.

Lemma remove_first_millis_digits (a rest : string) :
  Str.forallb Str.is_digit a = true ->
  remove_first_millis (a ++ rest) = a ++ remove_first_millis rest.
Proof.
  induction a as [|c a IH]; [reflexivity|].
  simpl Str.forallb. intros H. apply andb_true_iff in H. destruct H as [Hc Ha].
  change (String c a ++ rest) with (String c (a ++ rest)).
  rewrite remove_first_millis_skip by now apply is_digit_not_dot.
  now rewrite IH.
Qed.

Lemma remove_first_millis_hit (f : Z) (rest : string) :
  remove_first_millis (String "." (pad3 f ++ rest)) = rest.
Proof.
  unfold pad3, pad2. cbn [String.append remove_first_millis].
  rewrite !digit_is_digit. reflexivity.
Qed.

(** The date and the time of day a time value falls on, as
    [iso_string] prints them. *)
Definition date_digits (t : Z) : string :=
  let '(y, m, d) := civil_from_days (t / msPerDay) in
  year_string y ++ pad2 m ++ pad2 d.

Definition time_digits (t : Z) : string :=
  let ms := t mod msPerDay in
  pad2 (ms / 3600000) ++ pad2 (ms / 60000 mod 60) ++ pad2 (ms / 1000 mod 60).

Lemma time_digits_digits (t : Z) :
  Str.forallb Str.is_digit (time_digits t) = true.
Proof.
  unfold time_digits. rewrite !forallb_app, !pad2_digits. reflexivity.
Qed.

(** The token of a time value in years 0 to 9999: the date digits, a T,
    the time digits and a Z; the milliseconds are gone. *)
Lemma ical_datetime_in_range (t : Z) :
  0 <= year_of t <= 9999 ->
  ical_datetime t = date_digits t ++ "T" ++ time_digits t ++ "Z"
  /\ Str.forallb Str.is_digit (date_digits t) = true
  /\ String.length (date_digits t) = 8%nat.
Proof.
  unfold ical_datetime, iso_string, year_of, date_digits, time_digits.
  destruct (civil_from_days (t / msPerDay)) as [[y m] d].
  intros Hy. unfold year_string.
  assert (Hr : ((0 <=? y) && (y <=? 9999))%bool = true).
  { apply andb_true_iff. split; apply Z.leb_le; lia. }
  rewrite Hr. split; [|split].
  - rewrite !remove_app.
    rewrite remove_sep_pad4, remove_sep_pad3, !remove_sep_pad2.
    change (Str.remove is_dash_or_colon "-") with "".
    change (Str.remove is_dash_or_colon ":") with "".
    change (Str.remove is_dash_or_colon "T") with "T".
    change (Str.remove is_dash_or_colon ".") with ".".
    change (Str.remove is_dash_or_colon "Z") with "Z".
    cbn [String.append].
    rewrite (remove_first_millis_digits (pad4 y)) by apply pad4_digits.
    rewrite (remove_first_millis_digits (pad2 m)) by apply pad2_digits.
    rewrite (remove_first_millis_digits (pad2 d)) by apply pad2_digits.
    rewrite remove_first_millis_skip by reflexivity.
    rewrite !(remove_first_millis_digits (pad2 _)) by apply pad2_digits.
    rewrite remove_first_millis_hit.
    now rewrite !append_assoc.
  - rewrite !forallb_app, pad4_digits, !pad2_digits. reflexivity.
  - reflexivity.
Qed.

Lemma datetime_token_intro (a b : string) :
  String.length a = 8%nat -> String.length b = 6%nat ->
  Str.forallb Str.is_digit a = true -> Str.forallb Str.is_digit b = true ->
  datetime_token (a ++ "T" ++ b ++ "Z") = true.
Proof.
  intros La Lb Ha Hb.
  do 8 (destruct a as [|? a]; [discriminate La|]).
  destruct a; [|discriminate La].
  do 6 (destruct b as [|? b]; [discriminate Lb|]).
  destruct b; [|discriminate Lb].
  simpl in *.
  repeat (apply andb_true_iff in Ha; destruct Ha as [? Ha]).
  repeat (apply andb_true_iff in Hb; destruct Hb as [? Hb]).
  repeat (apply andb_true_iff; split; try assumption).
Qed.

(** In years 0 to 9999 [isoToIcal] writes the DATE-TIME form. *)
Lemma ical_datetime_shape (t : Z) :
  0 <= year_of t <= 9999 -> datetime_token (ical_datetime t) = true.
Proof.
  intros Hy. destruct (ical_datetime_in_range t Hy) as [-> [Hd Hl]].
  apply datetime_token_intro; auto using time_digits_digits.
Qed.

Lemma isoToIcal_ok (Date_parse : string -> option Z) (s : string) (t : Z) :
  Date_parse s = Some t -> valid_time t = true ->
  isoToIcal Date_parse (Some s) = Ok (ical_datetime t).
Proof.
  intros Hp Hv. unfold isoToIcal, new_Date, toISOString, ical_datetime.
  rewrite Hp, Hv. cbn [bind]. reflexivity.
Qed.

(** A leading [YYYY-MM-DD] is turned into its eight digits. *)
Lemma isoToIcalDate_prefix (s d : string) :
  date_prefix s = Some d ->
  isoToIcalDate (Some s) = Ok d /\ date_token d = true.
Proof.
  unfold date_prefix, isoToIcalDate.
  do 10 (destruct s as [|? s]; [discriminate|]).
  match goal with
  | |- (if (?x && ?y && ?z)%bool then _ else _) = _ -> _ =>
      destruct x eqn:E1; [|discriminate];
      destruct y eqn:E2; [|discriminate];
      destruct z eqn:E3; [|discriminate]
  end.
  simpl. intros H. injection H as <-.
  apply ascii_eqb_eq in E1, E2. subst.
  unfold date_token. rewrite E3. split; [|reflexivity].
  simpl in E3.
  repeat (apply andb_true_iff in E3; destruct E3 as [? E3]).
  f_equal. simpl.
  repeat match goal with
         | H : Str.is_digit ?c = true |- _ =>
             rewrite (is_digit_not_dash c H); clear H
         end.
  reflexivity.
Qed.

Lemma length_append (a b : string) :
  String.length (a ++ b) = (String.length a + String.length b)%nat.
Proof. induction a as [|c a IH]; simpl; [reflexivity | now rewrite IH]. Qed.

(** [toISOString] always prints a date and a time: 24 characters, or 27
    for the years written with a sign. *)
Lemma iso_string_length (t : Z) :
  String.length (iso_string t) = 24%nat \/ String.length (iso_string t) = 27%nat.
Proof.
  unfold iso_string. destruct (civil_from_days (t / msPerDay)) as [[y m] d].
  rewrite length_append. unfold year_string.
  destruct ((0 <=? y) && (y <=? 9999))%bool.
  - left. reflexivity.
  - right. rewrite length_append. destruct (y <? 0)%Z; reflexivity.
Qed.

Lemma date_only_length (s : string) :
  date_only_iso s = true -> String.length s = 10%nat.
Proof.
  unfold date_only_iso. destruct (date_prefix s); [|discriminate].
  apply Nat.eqb_eq.
Qed.

Lemma iso_string_not_date_only (t : Z) : date_only_iso (iso_string t) = false.
Proof.
  destruct (date_only_iso (iso_string t)) eqn:E; [|reflexivity].
  apply date_only_length in E.
  destruct (iso_string_length t) as [H|H]; rewrite H in E; discriminate.
Qed.

End DateFacts.

(** ** Encoding events *)

Module EventFacts.

Import DateTime ICal Shape Contract LineFacts DateFacts.

Definition no_break (c : ascii) : bool := negb (Str.is_line_break c).

Lemma single_line_forallb (s : string) :
  Str.single_line s = Str.forallb no_break s.
Proof.
  unfold Str.single_line. induction s as [|c s IH]; [reflexivity|].
  simpl. unfold no_break at 1. rewrite negb_orb. now rewrite IH.
Qed.

Lemma forallb_impl (p q : ascii -> bool) (s : string) :
  (forall c, p c = true -> q c = true) ->
  Str.forallb p s = true -> Str.forallb q s = true.
Proof.
  intros Hpq. induction s as [|c s IH]; [reflexivity|].
  simpl. intros H. apply andb_true_iff in H. destruct H as [Hc Hs].
  now rewrite (Hpq c Hc), IH.
Qed.

Lemma digits_no_break (s : string) :
  Str.forallb Str.is_digit s = true -> Str.forallb no_break s = true.
Proof.
  apply forallb_impl. intros c Hc. unfold no_break.
  now rewrite is_digit_not_line_break.
Qed.

Lemma forallb_remove (p q : ascii -> bool) (s : string) :
  Str.forallb p s = true -> Str.forallb p (Str.remove q s) = true.
Proof.
  induction s as [|c s IH]; [reflexivity|].
  simpl. intros H. apply andb_true_iff in H. destruct H as [Hc Hs].
  destruct (q c); simpl; [|rewrite Hc]; auto.
Qed.

Lemma forallb_remove_first_millis (p : ascii -> bool) (s : string) :
  Str.forallb p s = true -> Str.forallb p (remove_first_millis s) = true.
Proof.
  induction s as [|c s IH]; [reflexivity|].
  intros H. pose proof H as H'. simpl in H'.
  apply andb_true_iff in H'. destruct H' as [Hc Hs].
  specialize (IH Hs).
  assert (Hk : Str.forallb p (String c (remove_first_millis s)) = true).
  { simpl. now rewrite Hc. }
  destruct s as [|d1 [|d2 [|d3 rest]]]; try exact Hk.
  change (remove_first_millis (String c (String d1 (String d2 (String d3 rest)))))
    with (if (Ascii.eqb c "." && Str.is_digit d1 && Str.is_digit d2
              && Str.is_digit d3)%bool
          then rest
          else String c (remove_first_millis (String d1 (String d2 (String d3 rest))))).
  destruct (Ascii.eqb c "." && Str.is_digit d1 && Str.is_digit d2
            && Str.is_digit d3)%bool; [|exact Hk].
  simpl in Hs.
  repeat (apply andb_true_iff in Hs; destruct Hs as [_ Hs]). exact Hs.
Qed.

Lemma year_string_no_break (y : Z) :
  Str.forallb no_break (year_string y) = true.
Proof.
  unfold year_string. destruct ((0 <=? y) && (y <=? 9999))%bool.
  - apply digits_no_break, pad4_digits.
  - rewrite forallb_app. apply andb_true_iff. split.
    + destruct (y <? 0)%Z; reflexivity.
    + apply digits_no_break. unfold pad6. cbn [Str.forallb].
      now rewrite !digit_is_digit, pad4_digits.
Qed.

Lemma iso_string_single_line (t : Z) :
  Str.single_line (iso_string t) = true.
Proof.
  rewrite single_line_forallb. unfold iso_string.
  destruct (civil_from_days (t / msPerDay)) as [[y m] d].
  rewrite !forallb_app, year_string_no_break.
  rewrite !(digits_no_break _ (pad2_digits _)).
  rewrite (digits_no_break _ (pad3_digits _)). reflexivity.
Qed.

(** The token written by [isoToIcal] holds no line break. *)
Lemma ical_datetime_single_line (t : Z) :
  Str.single_line (ical_datetime t) = true.
Proof.
  rewrite single_line_forallb. unfold ical_datetime.
  apply forallb_remove_first_millis, forallb_remove.
  rewrite <- single_line_forallb. apply iso_string_single_line.
Qed.

Section WithDateParse.

Variable Date_parse : string -> option Z.

Lemma stamp_ok (now t_now : Z) :
  Date_parse (iso_string now) = Some t_now -> valid_time t_now = true ->
  stamp Date_parse now = Ok (ical_datetime t_now).
Proof. intros. unfold stamp. now apply isoToIcal_ok. Qed.

(** The date lines of a timed event. *)
Lemma vevent_dates_timed (a : vevent) (start : string) (t_start : Z)
    (t_end : option Z) :
  is_true (e_allDay a) = false ->
  e_dtstart a = Some start ->
  Date_parse start = Some t_start -> valid_time t_start = true ->
  reads_as Date_parse (e_dtend a) t_end ->
  vevent_dates Date_parse a
  = Ok (("DTSTART:" ++ ical_datetime t_start)
        :: match t_end with
           | Some t => ["DTEND:" ++ ical_datetime t]
           | None => []
           end).
Proof.
  intros Hall Hs Hp Hv He. unfold vevent_dates. rewrite Hall, Hs.
  rewrite (isoToIcal_ok _ _ _ Hp Hv). simpl.
  destruct t_end as [t|]; simpl in He.
  - destruct He as (e & -> & Hne & Hpe & Hve). simpl. rewrite Hne.
    now rewrite (isoToIcal_ok _ _ _ Hpe Hve).
  - now rewrite He.
Qed.

End WithDateParse.

Lemma decoded_from_to_record (comp : component) (rec : cal_record) :
  to_record comp = Ok rec -> decoded_from comp rec.
Proof.
  unfold to_record, decoded_from.
  destruct (icalDateToIso (c_start comp)) as [s|]; [|discriminate].
  destruct (icalDateToIso (c_end comp)) as [e|]; [|discriminate].
  destruct (icalDateToIso (c_completed comp)) as [c|]; [|discriminate].
  destruct (icalDateToIso (c_due comp)) as [d|]; [|discriminate].
  simpl. intros H. injection H as <-. simpl. repeat split; reflexivity.
Qed.

Lemma mapM_Forall2 {A B : Type} (f : A -> res B) (l : list A) (r : list B) :
  mapM f l = Ok r -> Forall2 (fun a b => f a = Ok b) l r.
Proof.
  revert r. induction l as [|a l IH]; intros r; simpl.
  - intros H. injection H as <-. constructor.
  - destruct (f a) as [b|] eqn:Ea; [|discriminate]. simpl.
    destruct (mapM f l) as [bs|]; [|discriminate]. simpl.
    intros H. injection H as <-. constructor; auto.
Qed.

Lemma Forall2_impl {A B : Type} (P Q : A -> B -> Prop) (l : list A)
    (r : list B) :
  (forall a b, P a b -> Q a b) -> Forall2 P l r -> Forall2 Q l r.
Proof. intros H F. induction F; constructor; auto. Qed.

(** The records returned by [parseIcalObjects] are, in order, the decoded
    components of the requested type. *)
Lemma parseIcalObjects_decoded (parseICS : string -> list component)
    (data type : string) (recs : list cal_record) :
  parseIcalObjects parseICS data type = Ok recs ->
  Forall2 decoded_from (filter (kind_match type) (parseICS data)) recs.
Proof.
  intros H. apply mapM_Forall2 in H.
  eapply Forall2_impl; [|exact H]. apply decoded_from_to_record.
Qed.

End EventFacts.

(** C1 (as stated, refuted).  The two records [event_with_break] and
    [event_with_location] are accepted by the event schema, are timed, and
    differ in summary and location; [buildVEvent] writes the same text for
    both, so whatever the date constructor, the parser and the clock are,
    decoding cannot reproduce the fields of both. *)
Lemma C1_roundtrip_counterexample :
  ~ (exists (Date_parse : string -> option Z)
            (parseICS : string -> list ICal.component) (now : Z),
        Contract.roundtrips Date_parse parseICS now Contract.event_with_break
        /\ Contract.roundtrips Date_parse parseICS now
             Contract.event_with_location).
Proof.
  intros (Date_parse & parseICS & now & R1 & R2).
  destruct R1 as (text1 & rec1 & rest1 & B1 & P1 & _ & S1 & _).
  destruct R2 as (text2 & rec2 & rest2 & B2 & P2 & _ & S2 & _).
  assert (E : text1 = text2).
  { revert B1 B2. unfold ICal.buildVEvent, ICal.vevent_lines, ICal.vevent_dates.
    simpl.
    destruct (ICal.stamp Date_parse now) as [st|]; [|discriminate]. simpl.
    destruct (DateTime.isoToIcal Date_parse (Some "2026-03-01T09:00:00Z"))
      as [tok|]; [|discriminate].
    simpl. intros B1 B2. injection B1 as <-. injection B2 as <-.
    reflexivity. }
  subst text2. rewrite P1 in P2. injection P2 as <- _.
  rewrite S1 in S2. discriminate S2.
Qed.

Lemma kind_match_type (type : string) (comp : ICal.component) :
  type = "VEVENT" \/ type = "VTODO" ->
  ICal.kind_match type comp = String.eqb (ICal.c_type comp) type.
Proof.
  unfold ICal.kind_match. intros [-> | ->]; simpl.
  - apply orb_false_r.
  - reflexivity.
Qed.

(** C1 (amended).  For a timed event record whose uid, summary, description
    and location hold no line break and whose start (and end, when
    populated) are dates, [buildVEvent] succeeds and its text splits into
    exactly the content lines of the wrapper, UID, DTSTAMP, DTSTART (and
    DTEND) as the UTC date-time token of the instant, and SUMMARY,
    DESCRIPTION and LOCATION for the populated ones, each carrying the
    value as it is.  Decoding maps every VEVENT component the parser
    returns, in order, to a record holding the component's uid, its
    summary, description and location or the empty string when absent, and
    the ISO string of its start and end or null when absent. *)
Theorem C1_encoded_lines_and_decoded_fields
    (Date_parse : string -> option Z)
    (parseICS : string -> list ICal.component)
    (now t_now t_start : Z) (t_end : option Z)
    (r : ICal.vevent) (uid start : string) :
  ICal.is_true (ICal.e_allDay r) = false ->
  ICal.e_uid r = Some uid -> Str.single_line uid = true ->
  ICal.e_dtstart r = Some start ->
  Date_parse (DateTime.iso_string now) = Some t_now ->
  DateTime.valid_time t_now = true ->
  Date_parse start = Some t_start -> DateTime.valid_time t_start = true ->
  Contract.reads_as Date_parse (ICal.e_dtend r) t_end ->
  Contract.one_line (ICal.e_summary r) ->
  Contract.one_line (ICal.e_description r) ->
  Contract.one_line (ICal.e_location r) ->
  (exists text : string,
      ICal.buildVEvent Date_parse now r = Ok text
      /\ Str.split_lines text
         = (["BEGIN:VCALENDAR"; "VERSION:2.0"; "PRODID:-//Radicale MCP//EN";
             "BEGIN:VEVENT";
             ("UID:" ++ uid)%string;
             ("DTSTAMP:" ++ Shape.ical_datetime t_now)%string;
             ("DTSTART:" ++ Shape.ical_datetime t_start)%string]
            ++ match t_end with
               | Some t => [("DTEND:" ++ Shape.ical_datetime t)%string]
               | None => []
               end
            ++ ICal.push_if "SUMMARY:" (ICal.e_summary r)
            ++ ICal.push_if "DESCRIPTION:" (ICal.e_description r)
            ++ ICal.push_if "LOCATION:" (ICal.e_location r)
            ++ ["END:VEVENT"; "END:VCALENDAR"])%list)
  /\ (forall (data : string) (recs : list ICal.cal_record),
        ICal.parseIcalObjects parseICS data "VEVENT" = Ok recs ->
        Forall2
          (fun comp rec =>
             Contract.decoded_from comp rec
             /\ (ICal.c_summary comp = None -> ICal.r_summary rec = "")
             /\ (ICal.c_description comp = None -> ICal.r_description rec = "")
             /\ (ICal.c_location comp = None -> ICal.r_location rec = "")
             /\ (ICal.c_end comp = None -> ICal.r_end rec = None)
             /\ (forall t, ICal.c_start comp = Some (DateTime.PDate (Some t)) ->
                           ICal.r_start rec = Some (DateTime.iso_string t)))
          (filter (fun comp => String.eqb (ICal.c_type comp) "VEVENT")
             (parseICS data))
          recs).
Proof.
  intros Hall Huid Hsl Hstart Hnow Hvnow Hps Hvs Hend Hsum Hdesc Hloc.
  split.
  - unfold ICal.buildVEvent, ICal.vevent_lines.
    rewrite (EventFacts.stamp_ok _ _ _ Hnow Hvnow).
    rewrite (EventFacts.vevent_dates_timed _ _ _ _ _ Hall Hstart Hps Hvs Hend).
    rewrite Huid. cbn [bind ICal.template].
    eexists. split; [reflexivity|].
    cbn [app].
    apply LineFacts.split_lines_join.
    repeat (apply Forall_cons; [try reflexivity|]).
    + apply LineFacts.single_line_app; [reflexivity | exact Hsl].
    + apply LineFacts.single_line_app;
        [reflexivity | apply EventFacts.ical_datetime_single_line].
    + apply LineFacts.single_line_app;
        [reflexivity | apply EventFacts.ical_datetime_single_line].
    + repeat (apply Forall_app; split).
      * destruct t_end; repeat constructor.
        apply LineFacts.single_line_app;
          [reflexivity | apply EventFacts.ical_datetime_single_line].
      * now apply LineFacts.push_if_single_line.
      * now apply LineFacts.push_if_single_line.
      * now apply LineFacts.push_if_single_line.
      * repeat constructor.
  - intros data recs H.
    apply EventFacts.parseIcalObjects_decoded in H.
    rewrite (filter_ext _ (fun comp => String.eqb (ICal.c_type comp) "VEVENT"))
      in H by (intros c; apply kind_match_type; auto).
    eapply EventFacts.Forall2_impl; [|exact H].
    intros comp rec D. split; [exact D|].
    destruct D as (_ & Ds & Dd & Dl & _ & _ & Dst & Den & _).
    repeat split.
    + intros E. now rewrite Ds, E.
    + intros E. now rewrite Dd, E.
    + intros E. now rewrite Dl, E.
    + intros E. rewrite E in Den. simpl in Den. now injection Den as <-.
    + intros t E. rewrite E in Dst. simpl in Dst. unfold DateTime.toISOString in Dst.
      destruct (DateTime.valid_time t); [|discriminate Dst].
      simpl in Dst. now injection Dst as <-.
Qed.

Lemma C1_encoded_lines_witness :
  (exists text : string,
      ICal.buildVEvent DateTime.Date_parse_utc 1772355600000
        Contract.event_with_location = Ok text
      /\ Str.split_lines text
         = ["BEGIN:VCALENDAR"; "VERSION:2.0"; "PRODID:-//Radicale MCP//EN";
            "BEGIN:VEVENT"; "UID:6f1c"; "DTSTAMP:20260301T090000Z";
            "DTSTART:20260301T090000Z"; "SUMMARY:Review"; "LOCATION:Room 2";
            "END:VEVENT"; "END:VCALENDAR"])
  /\ (forall (data : string) (recs : list ICal.cal_record),
        ICal.parseIcalObjects (fun _ => []) data "VEVENT" = Ok recs ->
        Forall2
          (fun comp rec =>
             Contract.decoded_from comp rec
             /\ (ICal.c_summary comp = None -> ICal.r_summary rec = "")
             /\ (ICal.c_description comp = None -> ICal.r_description rec = "")
             /\ (ICal.c_location comp = None -> ICal.r_location rec = "")
             /\ (ICal.c_end comp = None -> ICal.r_end rec = None)
             /\ (forall t, ICal.c_start comp = Some (DateTime.PDate (Some t)) ->
                           ICal.r_start rec = Some (DateTime.iso_string t)))
          (filter (fun comp => String.eqb (ICal.c_type comp) "VEVENT") [])
          recs).
Proof.
  apply (C1_encoded_lines_and_decoded_fields DateTime.Date_parse_utc
           (fun _ => []) 1772355600000 1772355600000 1772355600000 None
           Contract.event_with_location "6f1c" "2026-03-01T09:00:00Z");
    first [ reflexivity
          | intros s H; discriminate H
          | intros s H; injection H as <-; reflexivity ].
Defined.

(** ** All-day events *)

(** C4 (as stated, refuted).  With [allDay] set and the start "2026-03"
    (a string the schema accepts and [Date] parses) the DTSTART value has
    six digits, not eight; and a start the parser hands back as a [Date]
    (here midnight of 2026-03-01) decodes to a full date-time string, not
    to a date-only value. *)
Lemma C4_all_day_counterexample :
  (ICal.vevent_dates DateTime.Date_parse_utc Cases.all_day_month
   = Ok ["DTSTART;VALUE=DATE:202603"]
   /\ Shape.date_token "202603" = false)
  /\ (DateTime.icalDateToIso (Some (DateTime.PDate (Some 1772323200000)))
      = Ok (Some "2026-03-01T00:00:00.000Z")
      /\ Shape.date_only_iso "2026-03-01T00:00:00.000Z" = false).
Proof. repeat split; reflexivity. Qed.

(** C4 (amended).  For an event record with [allDay] set whose start (and
    end, when populated) begins with a YYYY-MM-DD calendar date, the
    encoded lines carry DTSTART;VALUE=DATE (and DTEND;VALUE=DATE) with
    exactly the eight digits of that date, whatever follows the date in the
    field: the form depends on the flag alone.  On decoding, a value that
    the parser returns as a [Date] becomes its full ISO date-time string,
    which is never date-only; a non-empty string value is passed through
    unchanged. *)
Theorem C4_all_day_date_form
    (Date_parse : string -> option Z) (now t_now : Z)
    (r : ICal.vevent) (start d : string) (od : option string) :
  ICal.is_true (ICal.e_allDay r) = true ->
  ICal.e_dtstart r = Some start -> Shape.date_prefix start = Some d ->
  Cases.date_reads (ICal.e_dtend r) od ->
  Date_parse (DateTime.iso_string now) = Some t_now ->
  DateTime.valid_time t_now = true ->
  ICal.vevent_lines Date_parse now r
  = Ok (["BEGIN:VCALENDAR"; "VERSION:2.0"; "PRODID:-//Radicale MCP//EN";
         "BEGIN:VEVENT";
         ("UID:" ++ ICal.template (ICal.e_uid r))%string;
         ("DTSTAMP:" ++ Shape.ical_datetime t_now)%string;
         ("DTSTART;VALUE=DATE:" ++ d)%string]
        ++ match od with
           | Some de => [("DTEND;VALUE=DATE:" ++ de)%string]
           | None => []
           end
        ++ ICal.push_if "SUMMARY:" (ICal.e_summary r)
        ++ ICal.push_if "DESCRIPTION:" (ICal.e_description r)
        ++ ICal.push_if "LOCATION:" (ICal.e_location r)
        ++ ["END:VEVENT"; "END:VCALENDAR"])%list
  /\ Shape.date_token d = true
  /\ (forall de, od = Some de -> Shape.date_token de = true)
  /\ (forall t, DateTime.valid_time t = true ->
        DateTime.icalDateToIso (Some (DateTime.PDate (Some t)))
        = Ok (Some (DateTime.iso_string t))
        /\ Shape.date_only_iso (DateTime.iso_string t) = false)
  /\ (forall s, Str.nonempty s = true ->
        DateTime.icalDateToIso (Some (DateTime.PString s)) = Ok (Some s)).
Proof.
  intros Hall Hstart Hd Hend Hnow Hvnow.
  destruct (DateFacts.isoToIcalDate_prefix _ _ Hd) as [Es Ts].
  repeat split.
  - unfold ICal.vevent_lines, ICal.vevent_dates.
    rewrite (EventFacts.stamp_ok _ _ _ Hnow Hvnow), Hall, Hstart, Es.
    cbn [bind].
    destruct od as [de|]; simpl in Hend.
    + destruct Hend as (e & -> & Hne & Hpe).
      destruct (DateFacts.isoToIcalDate_prefix _ _ Hpe) as [Ee _].
      simpl truthy. rewrite Hne, Ee. reflexivity.
    + rewrite Hend. reflexivity.
  - exact Ts.
  - intros de ->. simpl in Hend. destruct Hend as (e & _ & _ & Hpe).
    now destruct (DateFacts.isoToIcalDate_prefix _ _ Hpe).
  - simpl. unfold DateTime.toISOString. now rewrite H.
  - apply DateFacts.iso_string_not_date_only.
  - intros s Hs. simpl. now rewrite Hs.
Qed.

Lemma C4_all_day_date_form_witness :
  ICal.vevent_lines DateTime.Date_parse_utc 1772355600000 Cases.all_day_event
  = Ok ["BEGIN:VCALENDAR"; "VERSION:2.0"; "PRODID:-//Radicale MCP//EN";
        "BEGIN:VEVENT"; "UID:6f1c"; "DTSTAMP:20260301T090000Z";
        "DTSTART;VALUE=DATE:20260301"; "DTEND;VALUE=DATE:20260302";
        "SUMMARY:Offsite"; "END:VEVENT"; "END:VCALENDAR"]
  /\ Shape.date_token "20260301" = true.
Proof.
  pose proof (C4_all_day_date_form DateTime.Date_parse_utc 1772355600000
                1772355600000 Cases.all_day_event "2026-03-01" "20260301"
                (Some "20260302") eq_refl eq_refl eq_refl
                (ex_intro _ "2026-03-02T00:00:00Z"
                   (conj eq_refl (conj eq_refl eq_refl)))
                eq_refl eq_refl) as [H1 [H2 _]].
  split; [exact H1 | exact H2].
Defined.

(** ** Updating an event *)

Lemma isoToIcal_new_Date (Date_parse : string -> option Z)
    (o : option string) (t : Z) :
  DateTime.new_Date Date_parse o = Some t -> DateTime.valid_time t = true ->
  DateTime.isoToIcal Date_parse o = Ok (Shape.ical_datetime t).
Proof.
  intros Hp Hv.
  unfold DateTime.isoToIcal, DateTime.toISOString, Shape.ical_datetime.
  rewrite Hp, Hv. cbn [bind]. reflexivity.
Qed.

(** C9.  When [all_day] is omitted from an event update, the merged
    record's [allDay] is false whatever the stored event is, and the event
    is written back with DTSTART (and DTEND) in the date-time form: for an
    instant in the years 0 to 9999 the sixteen characters
    YYYYMMDDTHHMMSSZ. *)
Theorem C9_update_without_all_day_is_timed
    (Date_parse : string -> option Z)
    (parseICS : string -> list ICal.component)
    (event_url : string) (o : Tools.dav_object) (rest : list Tools.dav_object)
    (u : Tools.event_update) (now t_now t_start : Z) (t_end : option Z)
    (existing : ICal.cal_record) (others : list ICal.cal_record) :
  Tools.ue_all_day u = None ->
  ICal.parseIcalObjects parseICS (Tools.data o) "VEVENT"
  = Ok (existing :: others) ->
  Date_parse (DateTime.iso_string now) = Some t_now ->
  DateTime.valid_time t_now = true ->
  DateTime.new_Date Date_parse
    (Tools.overlay_opt (Tools.ue_start u) (ICal.r_start existing))
  = Some t_start ->
  DateTime.valid_time t_start = true ->
  Contract.reads_as Date_parse
    (Tools.overlay_opt (Tools.ue_end u) (ICal.r_end existing)) t_end ->
  exists (merged : ICal.vevent) (put : Tools.put_request),
    Tools.radicale_update_event Date_parse parseICS event_url (o :: rest) u now
    = Ok (merged, put)
    /\ ICal.e_allDay merged = Some false
    /\ Tools.p_data put
       = Str.join Str.CRLF
           (["BEGIN:VCALENDAR"; "VERSION:2.0"; "PRODID:-//Radicale MCP//EN";
             "BEGIN:VEVENT";
             ("UID:" ++ ICal.template (ICal.r_uid existing))%string;
             ("DTSTAMP:" ++ Shape.ical_datetime t_now)%string;
             ("DTSTART:" ++ Shape.ical_datetime t_start)%string]
            ++ match t_end with
               | Some t => [("DTEND:" ++ Shape.ical_datetime t)%string]
               | None => []
               end
            ++ ICal.push_if "SUMMARY:" (ICal.e_summary merged)
            ++ ICal.push_if "DESCRIPTION:" (ICal.e_description merged)
            ++ ICal.push_if "LOCATION:" (ICal.e_location merged)
            ++ ["END:VEVENT"; "END:VCALENDAR"])%list
    /\ (0 <= DateTime.year_of t_start <= 9999 ->
        Shape.datetime_token (Shape.ical_datetime t_start) = true)
    /\ (forall t, t_end = Some t -> 0 <= DateTime.year_of t <= 9999 ->
        Shape.datetime_token (Shape.ical_datetime t) = true).
Proof.
  intros Hall Hparse Hnow Hvnow Hstart Hvs Hend.
  unfold Tools.radicale_update_event. rewrite Hparse. cbn [bind].
  unfold ICal.buildVEvent, ICal.vevent_lines.
  rewrite (EventFacts.stamp_ok _ _ _ Hnow Hvnow). cbn [bind].
  assert (Hd : ICal.vevent_dates Date_parse (Tools.merge_event existing u)
               = Ok (("DTSTART:" ++ Shape.ical_datetime t_start)%string
                     :: match t_end with
                        | Some t => [("DTEND:" ++ Shape.ical_datetime t)%string]
                        | None => []
                        end)).
  { unfold ICal.vevent_dates, Tools.merge_event. cbn [ICal.e_allDay
      ICal.e_dtstart ICal.e_dtend]. rewrite Hall. cbn [Tools.overlay ICal.is_true].
    rewrite (isoToIcal_new_Date _ _ _ Hstart Hvs). cbn [bind].
    destruct t_end as [t|]; simpl in Hend.
    - destruct Hend as (e & -> & Hne & Hpe & Hve). simpl truthy. rewrite Hne.
      now rewrite (DateFacts.isoToIcal_ok _ _ _ Hpe Hve).
    - now rewrite Hend. }
  rewrite Hd. cbn [bind].
  eexists. eexists. split; [reflexivity|].
  repeat split.
  - unfold Tools.merge_event. cbn [ICal.e_allDay]. now rewrite Hall.
  - apply DateFacts.ical_datetime_shape.
  - intros t _. apply DateFacts.ical_datetime_shape.
Qed.

Lemma C9_update_without_all_day_witness :
  exists (merged : ICal.vevent) (put : Tools.put_request),
    Tools.radicale_update_event DateTime.Date_parse_utc
      (fun _ => [Cases.all_day_component])
      "https://dav.example.org/u/cal/item.ics"
      [Cases.stored "BEGIN:VCALENDAR"] (Cases.summary_only "Offsite, day 1")
      1772355600000
    = Ok (merged, put)
    /\ ICal.e_allDay merged = Some false
    /\ Tools.p_data put
       = Str.join Str.CRLF
           ["BEGIN:VCALENDAR"; "VERSION:2.0"; "PRODID:-//Radicale MCP//EN";
            "BEGIN:VEVENT"; "UID:6f1c"; "DTSTAMP:20260301T090000Z";
            "DTSTART:20260301T000000Z"; "DTEND:20260302T000000Z";
            "SUMMARY:Offsite, day 1"; "LOCATION:Lisbon";
            "END:VEVENT"; "END:VCALENDAR"].
Proof.
  destruct (C9_update_without_all_day_is_timed DateTime.Date_parse_utc
              (fun _ => [Cases.all_day_component])
              "https://dav.example.org/u/cal/item.ics"
              (Cases.stored "BEGIN:VCALENDAR") []
              (Cases.summary_only "Offsite, day 1")
              1772355600000 1772355600000 1772323200000 (Some 1772409600000)
              {| ICal.r_uid := Some "6f1c"; ICal.r_summary := "Offsite";
                 ICal.r_description := "";
                 ICal.r_start := Some "2026-03-01T00:00:00.000Z";
                 ICal.r_end := Some "2026-03-02T00:00:00.000Z";
                 ICal.r_location := "Lisbon"; ICal.r_status := "";
                 ICal.r_priority := None; ICal.r_completed := None;
                 ICal.r_due := None |} []
              eq_refl eq_refl eq_refl eq_refl eq_refl eq_refl
              (ex_intro _ "2026-03-02T00:00:00.000Z"
                 (conj eq_refl (conj eq_refl (conj eq_refl eq_refl)))))
    as (merged & put & H1 & H2 & H3 & _).
  vm_compute in H1. injection H1 as <- <-.
  eexists. eexists. split; [vm_compute; reflexivity|].
  split; [exact H2|]. vm_compute in H3. vm_compute. exact H3.
Defined.

(** ** Updating a todo *)

(** C2.  In a todo update the merged status is the supplied status, or the
    stored one when none is supplied.  When it is COMPLETED the merged
    [completed] is the current instant; for every other status it is null.
    The update arguments hold no [completed]: the field depends on the
    arguments through the status alone. *)
Theorem C2_completed_follows_status
    (Date_parse : string -> option Z)
    (parseICS : string -> list ICal.component)
    (todo_url : string) (o : Tools.dav_object) (rest : list Tools.dav_object)
    (u : Tools.todo_update) (now now' t_stamp : Z) (t_due : option Z)
    (existing : ICal.cal_record) (others : list ICal.cal_record) :
  ICal.parseIcalObjects parseICS (Tools.data o) "VTODO"
  = Ok (existing :: others) ->
  Date_parse (DateTime.iso_string now') = Some t_stamp ->
  DateTime.valid_time t_stamp = true ->
  Contract.reads_as Date_parse
    (Tools.overlay_opt (Tools.ut_due u) (ICal.r_due existing)) t_due ->
  (Tools.overlay (Tools.ut_status u) (ICal.r_status existing) = "COMPLETED" ->
   exists t, Date_parse (DateTime.iso_string now) = Some t
             /\ DateTime.valid_time t = true) ->
  exists (merged : ICal.vtodo) (put : Tools.put_request),
    Tools.radicale_update_todo Date_parse parseICS todo_url (o :: rest) u
      now now' = Ok (merged, put)
    /\ ICal.t_status merged
       = Some (Tools.overlay (Tools.ut_status u) (ICal.r_status existing))
    /\ (Tools.overlay (Tools.ut_status u) (ICal.r_status existing) = "COMPLETED" ->
        ICal.t_completed merged = Some (DateTime.iso_string now))
    /\ (Tools.overlay (Tools.ut_status u) (ICal.r_status existing) <> "COMPLETED" ->
        ICal.t_completed merged = None)
    /\ (forall u' : Tools.todo_update,
          Tools.ut_status u' = Tools.ut_status u ->
          ICal.t_completed
            (Tools.merge_todo existing u' (DateTime.iso_string now))
          = ICal.t_completed merged).
Proof.
  intros Hparse Hstamp Hvstamp Hdue Hdone.
  unfold Tools.radicale_update_todo. rewrite Hparse. cbn [bind].
  unfold ICal.buildVTodo, ICal.vtodo_lines.
  rewrite (EventFacts.stamp_ok _ _ _ Hstamp Hvstamp). cbn [bind].
  assert (Hd : exists dl,
             (if truthy (ICal.t_due (Tools.merge_todo existing u
                                       (DateTime.iso_string now)))
              then
                let* d := DateTime.isoToIcal Date_parse
                            (ICal.t_due (Tools.merge_todo existing u
                                           (DateTime.iso_string now))) in
                Ok [("DUE:" ++ d)%string]
              else Ok []) = Ok dl).
  { cbn [Tools.merge_todo ICal.t_due].
    destruct t_due as [t|]; simpl in Hdue.
    - destruct Hdue as (e & -> & Hne & Hpe & Hve). simpl truthy. rewrite Hne.
      rewrite (DateFacts.isoToIcal_ok _ _ _ Hpe Hve). cbn [bind]. eauto.
    - rewrite Hdue. eauto. }
  destruct Hd as [dl Hd]. rewrite Hd. cbn [bind].
  assert (Hc : exists cl,
             (if truthy (ICal.t_completed (Tools.merge_todo existing u
                                             (DateTime.iso_string now)))
              then
                let* c := DateTime.isoToIcal Date_parse
                            (ICal.t_completed (Tools.merge_todo existing u
                                                 (DateTime.iso_string now))) in
                Ok [("COMPLETED:" ++ c)%string]
              else Ok []) = Ok cl).
  { cbn [Tools.merge_todo ICal.t_completed].
    destruct (String.eqb (Tools.overlay (Tools.ut_status u)
                            (ICal.r_status existing)) "COMPLETED") eqn:E.
    - apply String.eqb_eq in E. destruct (Hdone E) as (t & Hp & Hv).
      destruct (truthy (Some (DateTime.iso_string now))); [|eauto].
      rewrite (DateFacts.isoToIcal_ok _ _ _ Hp Hv). cbn [bind]. eauto.
    - simpl. eauto. }
  destruct Hc as [cl Hc]. rewrite Hc. cbn [bind].
  eexists. eexists. split; [reflexivity|].
  cbn [Tools.merge_todo ICal.t_status ICal.t_completed].
  split; [reflexivity|]. split; [|split].
  - intros E. now rewrite E.
  - intros E. apply String.eqb_neq in E. now rewrite E.
  - intros u' E. now rewrite E.
Qed.

Lemma C2_completed_follows_status_witness :
  exists (merged : ICal.vtodo) (put : Tools.put_request),
    Tools.radicale_update_todo DateTime.Date_parse_utc
      (fun _ => [Cases.anonymous_component])
      "https://dav.example.org/u/cal/item.ics"
      [Cases.stored "BEGIN:VCALENDAR"]
      {| Tools.ut_summary := None; Tools.ut_description := None;
         Tools.ut_due := None; Tools.ut_status := Some "COMPLETED";
         Tools.ut_priority := None |}
      1772355600000 1772355600000
    = Ok (merged, put)
    /\ ICal.t_status merged = Some "COMPLETED"
    /\ ICal.t_completed merged = Some "2026-03-01T09:00:00.000Z".
Proof.
  destruct (C2_completed_follows_status DateTime.Date_parse_utc
              (fun _ => [Cases.anonymous_component])
              "https://dav.example.org/u/cal/item.ics"
              (Cases.stored "BEGIN:VCALENDAR") []
              {| Tools.ut_summary := None; Tools.ut_description := None;
                 Tools.ut_due := None; Tools.ut_status := Some "COMPLETED";
                 Tools.ut_priority := None |}
              1772355600000 1772355600000 1772355600000 None
              {| ICal.r_uid := None; ICal.r_summary := "Call back";
                 ICal.r_description := ""; ICal.r_start := None;
                 ICal.r_end := None; ICal.r_location := "";
                 ICal.r_status := "NEEDS-ACTION"; ICal.r_priority := None;
                 ICal.r_completed := None; ICal.r_due := None |} []
              eq_refl eq_refl eq_refl eq_refl
              (fun _ => ex_intro _ 1772355600000 (conj eq_refl eq_refl)))
    as (merged & put & H1 & H2 & H3 & _).
  exists merged, put. split; [exact H1|]. split; [exact H2|].
  rewrite (H3 eq_refl). vm_compute. reflexivity.
Defined.

(** ** Merging *)

(** C3 (as stated, refuted).  The stored todo [done_component] was
    completed on 2026-01-05.  An update that supplies the summary only
    leaves the status COMPLETED, and the merged [completed], a field
    outside the update schema, is the instant of the update, not the
    stored one. *)
Lemma C3_completed_not_carried_over :
  exists (existing : ICal.cal_record) (merged : ICal.vtodo)
         (put : Tools.put_request),
    ICal.parseIcalObjects (fun _ => [Cases.done_component]) "BEGIN:VCALENDAR"
      "VTODO" = Ok [existing]
    /\ Tools.radicale_update_todo DateTime.Date_parse_utc
         (fun _ => [Cases.done_component])
         "https://dav.example.org/u/cal/item.ics"
         [Cases.stored "BEGIN:VCALENDAR"]
         (Cases.todo_summary_only "File the report")
         1772355600000 1772355600000
       = Ok (merged, put)
    /\ ICal.r_completed existing = Some "2026-01-05T00:00:00.000Z"
    /\ ICal.t_completed merged = Some "2026-03-01T09:00:00.000Z".
Proof.
  eexists. eexists. eexists.
  split; [vm_compute; reflexivity|].
  split; [vm_compute; reflexivity|].
  split; reflexivity.
Qed.

Module MergeFacts.

Import ICal VCard Tools Cases Rules.

Lemma takes_overlay {A : Type} (arg : option A) (existing : A) :
  takes arg existing (overlay arg existing).
Proof. destruct arg; reflexivity. Qed.

Lemma takes_opt_overlay {A : Type} (arg existing : option A) :
  takes_opt arg existing (overlay_opt arg existing).
Proof. destruct arg; reflexivity. Qed.

End MergeFacts.

(** C3 (amended).  In every update the merged record takes, field by
    field, the supplied value exactly when the field is present in the
    request and the decoded value of the stored object otherwise: summary,
    start, end, description and location of an event; summary,
    description, due, priority and status of a todo; the eight fields of a
    contact.  The uid is always that of the stored object.  Two fields are
    not overlaid: an event's [allDay] is the supplied flag or false, and a
    todo's [completed] is derived from the merged status.  An update
    supplying only the summary leaves start, end, location and uid as
    decoded.  The record each tool writes back is that merge of the first
    decoded record of the first fetched object, under the fetched etag. *)
Theorem C3_merge_overlays_supplied_fields :
  (forall (existing : ICal.cal_record) (u : Tools.event_update),
      ICal.e_uid (Tools.merge_event existing u) = ICal.r_uid existing
      /\ (exists s, ICal.e_summary (Tools.merge_event existing u) = Some s
                    /\ Cases.takes (Tools.ue_summary u) (ICal.r_summary existing) s)
      /\ Rules.takes_opt (Tools.ue_start u) (ICal.r_start existing)
           (ICal.e_dtstart (Tools.merge_event existing u))
      /\ Rules.takes_opt (Tools.ue_end u) (ICal.r_end existing)
           (ICal.e_dtend (Tools.merge_event existing u))
      /\ (exists s, ICal.e_description (Tools.merge_event existing u) = Some s
                    /\ Cases.takes (Tools.ue_description u)
                         (ICal.r_description existing) s)
      /\ (exists s, ICal.e_location (Tools.merge_event existing u) = Some s
                    /\ Cases.takes (Tools.ue_location u)
                         (ICal.r_location existing) s)
      /\ (exists b, ICal.e_allDay (Tools.merge_event existing u) = Some b
                    /\ Cases.takes (Tools.ue_all_day u) false b))
  /\ (forall (existing : ICal.cal_record) (u : Tools.todo_update)
             (nowIso : string),
      ICal.t_uid (Tools.merge_todo existing u nowIso) = ICal.r_uid existing
      /\ (exists s, ICal.t_summary (Tools.merge_todo existing u nowIso) = Some s
                    /\ Cases.takes (Tools.ut_summary u) (ICal.r_summary existing) s)
      /\ (exists s, ICal.t_description (Tools.merge_todo existing u nowIso) = Some s
                    /\ Cases.takes (Tools.ut_description u)
                         (ICal.r_description existing) s)
      /\ Rules.takes_opt (Tools.ut_due u) (ICal.r_due existing)
           (ICal.t_due (Tools.merge_todo existing u nowIso))
      /\ Rules.takes_opt (Tools.ut_priority u) (ICal.r_priority existing)
           (ICal.t_priority (Tools.merge_todo existing u nowIso))
      /\ (exists s, ICal.t_status (Tools.merge_todo existing u nowIso) = Some s
                    /\ Cases.takes (Tools.ut_status u) (ICal.r_status existing) s
                    /\ ICal.t_completed (Tools.merge_todo existing u nowIso)
                       = if String.eqb s "COMPLETED" then Some nowIso else None))
  /\ (forall existing u : VCard.contact,
      VCard.v_uid (Tools.merge_contact existing u) = VCard.v_uid existing
      /\ Rules.takes_opt (VCard.v_full_name u) (VCard.v_full_name existing)
           (VCard.v_full_name (Tools.merge_contact existing u))
      /\ Rules.takes_opt (VCard.v_first_name u) (VCard.v_first_name existing)
           (VCard.v_first_name (Tools.merge_contact existing u))
      /\ Rules.takes_opt (VCard.v_last_name u) (VCard.v_last_name existing)
           (VCard.v_last_name (Tools.merge_contact existing u))
      /\ Rules.takes_opt (VCard.v_email u) (VCard.v_email existing)
           (VCard.v_email (Tools.merge_contact existing u))
      /\ Rules.takes_opt (VCard.v_phone u) (VCard.v_phone existing)
           (VCard.v_phone (Tools.merge_contact existing u))
      /\ Rules.takes_opt (VCard.v_org u) (VCard.v_org existing)
           (VCard.v_org (Tools.merge_contact existing u))
      /\ Rules.takes_opt (VCard.v_title u) (VCard.v_title existing)
           (VCard.v_title (Tools.merge_contact existing u))
      /\ Rules.takes_opt (VCard.v_note u) (VCard.v_note existing)
           (VCard.v_note (Tools.merge_contact existing u)))
  /\ (forall (existing : ICal.cal_record) (s : string),
      ICal.e_summary (Tools.merge_event existing (Cases.summary_only s)) = Some s
      /\ ICal.e_dtstart (Tools.merge_event existing (Cases.summary_only s))
         = ICal.r_start existing
      /\ ICal.e_dtend (Tools.merge_event existing (Cases.summary_only s))
         = ICal.r_end existing
      /\ ICal.e_location (Tools.merge_event existing (Cases.summary_only s))
         = Some (ICal.r_location existing)
      /\ ICal.e_uid (Tools.merge_event existing (Cases.summary_only s))
         = ICal.r_uid existing)
  /\ (forall Date_parse parseICS event_url objects u now merged put,
      Tools.radicale_update_event Date_parse parseICS event_url objects u now
      = Ok (merged, put) ->
      exists o rest existing others,
        objects = o :: rest
        /\ ICal.parseIcalObjects parseICS (Tools.data o) "VEVENT"
           = Ok (existing :: others)
        /\ merged = Tools.merge_event existing u
        /\ Tools.p_url put = event_url /\ Tools.p_etag put = Tools.etag o)
  /\ (forall Date_parse parseICS todo_url objects u now now' merged put,
      Tools.radicale_update_todo Date_parse parseICS todo_url objects u now now'
      = Ok (merged, put) ->
      exists o rest existing others,
        objects = o :: rest
        /\ ICal.parseIcalObjects parseICS (Tools.data o) "VTODO"
           = Ok (existing :: others)
        /\ merged = Tools.merge_todo existing u (DateTime.iso_string now)
        /\ Tools.p_url put = todo_url /\ Tools.p_etag put = Tools.etag o)
  /\ (forall contact_url objects u merged put,
      Tools.radicale_update_contact contact_url objects u = Ok (merged, put) ->
      exists o rest,
        objects = o :: rest
        /\ merged = Tools.merge_contact (VCard.parseVCard (Tools.data o)) u
        /\ Tools.p_data put = VCard.buildVCard merged
        /\ Tools.p_url put = contact_url /\ Tools.p_etag put = Tools.etag o).
Proof.
  repeat apply conj.
  - intros existing u. cbn [Tools.merge_event ICal.e_uid ICal.e_summary
      ICal.e_dtstart ICal.e_dtend ICal.e_description ICal.e_location
      ICal.e_allDay].
    repeat split; eauto using MergeFacts.takes_overlay,
      MergeFacts.takes_opt_overlay.
  - intros existing u nowIso. cbn [Tools.merge_todo ICal.t_uid ICal.t_summary
      ICal.t_description ICal.t_due ICal.t_priority ICal.t_status
      ICal.t_completed].
    repeat split; eauto using MergeFacts.takes_overlay,
      MergeFacts.takes_opt_overlay.
  - intros existing u. cbn [Tools.merge_contact VCard.v_uid VCard.v_full_name
      VCard.v_first_name VCard.v_last_name VCard.v_email VCard.v_phone
      VCard.v_org VCard.v_title VCard.v_note].
    repeat split; apply MergeFacts.takes_opt_overlay.
  - intros existing s. repeat apply conj; reflexivity.
  - intros Date_parse parseICS event_url objects u now merged put.
    unfold Tools.radicale_update_event.
    destruct objects as [|o rest]; [discriminate|].
    destruct (ICal.parseIcalObjects parseICS (Tools.data o) "VEVENT")
      as [[|existing others]|] eqn:Ep; try discriminate.
    cbn [bind].
    destruct (ICal.buildVEvent Date_parse now (Tools.merge_event existing u));
      [|discriminate].
    cbn [bind]. intros H. injection H as <- <-.
    exists o, rest, existing, others.
    repeat apply conj; try reflexivity; exact Ep.
  - intros Date_parse parseICS todo_url objects u now now' merged put.
    unfold Tools.radicale_update_todo.
    destruct objects as [|o rest]; [discriminate|].
    destruct (ICal.parseIcalObjects parseICS (Tools.data o) "VTODO")
      as [[|existing others]|] eqn:Ep; try discriminate.
    cbn [bind].
    destruct (ICal.buildVTodo Date_parse now'
                (Tools.merge_todo existing u (DateTime.iso_string now)));
      [|discriminate].
    cbn [bind]. intros H. injection H as <- <-.
    exists o, rest, existing, others.
    repeat apply conj; try reflexivity; exact Ep.
  - intros contact_url objects u merged put.
    unfold Tools.radicale_update_contact.
    destruct objects as [|o rest]; [discriminate|].
    intros H. injection H as <- <-.
    exists o, rest. repeat apply conj; reflexivity.
Qed.

Lemma C3_merge_example :
  exists s l,
    ICal.e_summary
      (Tools.merge_event
         {| ICal.r_uid := Some "6f1c"; ICal.r_summary := "A";
            ICal.r_description := ""; ICal.r_start := None;
            ICal.r_end := None; ICal.r_location := "X"; ICal.r_status := "";
            ICal.r_priority := None; ICal.r_completed := None;
            ICal.r_due := None |}
         (Cases.summary_only "B")) = Some s
    /\ s = "B"
    /\ ICal.e_location
         (Tools.merge_event
            {| ICal.r_uid := Some "6f1c"; ICal.r_summary := "A";
               ICal.r_description := ""; ICal.r_start := None;
               ICal.r_end := None; ICal.r_location := "X"; ICal.r_status := "";
               ICal.r_priority := None; ICal.r_completed := None;
               ICal.r_due := None |}
            (Cases.summary_only "B")) = Some l
    /\ l = "X".
Proof.
  destruct C3_merge_overlays_supplied_fields as [He _].
  destruct (He {| ICal.r_uid := Some "6f1c"; ICal.r_summary := "A";
                  ICal.r_description := ""; ICal.r_start := None;
                  ICal.r_end := None; ICal.r_location := "X";
                  ICal.r_status := ""; ICal.r_priority := None;
                  ICal.r_completed := None; ICal.r_due := None |}
               (Cases.summary_only "B"))
    as (_ & (s & Hs & Ts) & _ & _ & _ & (l & Hl & Tl) & _).
  exists s, l. repeat split; assumption.
Defined.

(** ** The formatted name of a contact *)

(** With only one of the two names populated, FN is that name alone. *)
Lemma formatted_name_single (c : VCard.contact) (n : string) :
  truthy (VCard.v_full_name c) = false -> Str.nonempty n = true ->
  (VCard.v_first_name c = Some n /\ truthy (VCard.v_last_name c) = false)
  \/ (truthy (VCard.v_first_name c) = false /\ VCard.v_last_name c = Some n) ->
  VCard.formatted_name c = n.
Proof.
  unfold VCard.formatted_name. intros Hfull Hn.
  destruct c as [uid full first last email phone org title note]; simpl in *.
  destruct n as [|a n]; [discriminate|].
  intros [[-> Hl] | [Hf ->]].
  - destruct full as [[|]|]; try discriminate;
      destruct last as [[|]|]; try discriminate; reflexivity.
  - destruct full as [[|]|]; try discriminate;
      destruct first as [[|]|]; try discriminate; reflexivity.
Qed.


(** ** Decoding components *)

Module DecodeFacts.

Import DateTime ICal Tools Rules.





Lemma filter_none {A : Type} (p : A -> bool) (l : list A) :
  (forall a, In a l -> p a = false) -> filter p l = [].
Proof.
  induction l as [|a l IH]; intros H; simpl; [reflexivity|].
  rewrite (H a (or_introl eq_refl)). apply IH. intros b Hb. apply H. now right.
Qed.

Lemma filter_all {A : Type} (l : list A) : filter (fun _ => true) l = l.
Proof. induction l as [|a l IH]; simpl; [reflexivity | now rewrite IH]. Qed.

(** The per-object map of [radicale_list_todos] in terms of the decoded
    lists. *)
Lemma list_map_ok (parseICS : string -> list component)
    (objects : list dav_object) (per : list (list cal_record)) :
  mapM (fun o => parseIcalObjects parseICS (data o) "VTODO") objects = Ok per ->
  mapM (fun o =>
          let* todos := parseIcalObjects parseICS (data o) "VTODO" in
          Ok (List.map (fun t => summariseCalObject t (url o) (etag o)) todos))
       objects
  = Ok (List.map
          (fun p => List.map
                      (fun t => summariseCalObject t (url (fst p)) (etag (fst p)))
                      (snd p))
          (combine objects per)).
Proof.
  revert per. induction objects as [|o objects IH]; intros per; simpl.
  - intros _. reflexivity.
  - destruct (parseIcalObjects parseICS (data o) "VTODO") as [todos|];
      [|discriminate]. cbn [bind].
    destruct (mapM (fun o => parseIcalObjects parseICS (data o) "VTODO") objects)
      as [per'|]; [|discriminate].
    cbn [bind]. intros H. injection H as <-.
    rewrite (IH per' eq_refl). reflexivity.
Qed.

End DecodeFacts.



(** ** Listing todos *)

(** C10 (as stated, refuted).  A stored VTODO without a UID is parsed (its
    status is NEEDS-ACTION), yet the listing leaves it out, with
    [show_completed] absent and with [show_completed] true. *)
Lemma C10_todo_without_uid_dropped :
  exists t : ICal.cal_record,
    ICal.parseIcalObjects (fun _ => [Cases.anonymous_component])
      "BEGIN:VCALENDAR" "VTODO" = Ok [t]
    /\ ICal.r_status t = "NEEDS-ACTION"
    /\ Tools.radicale_list_todos (fun _ => [Cases.anonymous_component])
         [Cases.stored "BEGIN:VCALENDAR"] None = Ok []
    /\ Tools.radicale_list_todos (fun _ => [Cases.anonymous_component])
         [Cases.stored "BEGIN:VCALENDAR"] (Some true) = Ok [].
Proof. eexists. repeat split; reflexivity. Qed.

(** C10 (amended).  The listing keeps, in fetch order, the parsed todos
    that have a non-empty uid: all of them when [show_completed] is true,
    and those whose status is not COMPLETED when it is absent or false. *)
Theorem C10_list_todos_filters
    (parseICS : string -> list ICal.component)
    (objects : list Tools.dav_object) (show_completed : option bool)
    (per : list (list ICal.cal_record)) :
  mapM (fun o => ICal.parseIcalObjects parseICS (Tools.data o) "VTODO") objects
  = Ok per ->
  exists result : list Tools.listed,
    Tools.radicale_list_todos parseICS objects show_completed = Ok result
    /\ (ICal.is_true show_completed = false ->
        result
        = filter (fun t => negb (String.eqb (ICal.r_status (Tools.l_obj t))
                                   "COMPLETED"))
            (filter (fun t => truthy (ICal.r_uid (Tools.l_obj t)))
               (Rules.parsed_todos objects per)))
    /\ (show_completed = Some true ->
        result = filter (fun t => truthy (ICal.r_uid (Tools.l_obj t)))
                   (Rules.parsed_todos objects per))
    /\ (forall t,
          In t result <->
          In t (Rules.parsed_todos objects per)
          /\ truthy (ICal.r_uid (Tools.l_obj t)) = true
          /\ (show_completed = Some true
              \/ ICal.r_status (Tools.l_obj t) <> "COMPLETED")).
Proof.
  intros Hper. unfold Tools.radicale_list_todos.
  rewrite (DecodeFacts.list_map_ok _ _ _ Hper). cbn [bind].
  fold (Rules.parsed_todos objects per).
  eexists. split; [reflexivity|]. repeat apply conj.
  - intros Hs. rewrite Hs. reflexivity.
  - intros ->. cbn [ICal.is_true orb]. apply DecodeFacts.filter_all.
  - intros t. rewrite !filter_In. split.
    + intros [[Hin Hu] Hc]. repeat split; auto.
      apply orb_true_iff in Hc. destruct Hc as [Hc|Hc].
      * left. destruct show_completed as [[|]|]; try discriminate; reflexivity.
      * right. apply String.eqb_neq. now apply negb_true_iff.
    + intros (Hin & Hu & Hc). repeat split; auto.
      apply orb_true_iff. destruct Hc as [-> | Hc]; [now left|].
      right. apply negb_true_iff. now apply String.eqb_neq.
Qed.

Lemma C10_list_todos_witness :
  Tools.radicale_list_todos
    (fun _ => [Cases.done_component; Cases.anonymous_component])
    [Cases.stored "BEGIN:VCALENDAR"] None = Ok []
  /\ exists t,
      Tools.radicale_list_todos
        (fun _ => [Cases.done_component; Cases.anonymous_component])
        [Cases.stored "BEGIN:VCALENDAR"] (Some true) = Ok [t]
      /\ ICal.r_uid (Tools.l_obj t) = Some "77aa".
Proof.
  assert (Hper : mapM (fun o => ICal.parseIcalObjects
                                  (fun _ => [Cases.done_component;
                                             Cases.anonymous_component])
                                  (Tools.data o) "VTODO")
                   [Cases.stored "BEGIN:VCALENDAR"]
                 = Ok [[{| ICal.r_uid := Some "77aa";
                           ICal.r_summary := "File report";
                           ICal.r_description := ""; ICal.r_start := None;
                           ICal.r_end := None; ICal.r_location := "";
                           ICal.r_status := "COMPLETED";
                           ICal.r_priority := Some (ICal.PText "5");
                           ICal.r_completed := Some "2026-01-05T00:00:00.000Z";
                           ICal.r_due := None |};
                        {| ICal.r_uid := None; ICal.r_summary := "Call back";
                           ICal.r_description := ""; ICal.r_start := None;
                           ICal.r_end := None; ICal.r_location := "";
                           ICal.r_status := "NEEDS-ACTION";
                           ICal.r_priority := None; ICal.r_completed := None;
                           ICal.r_due := None |}]]).
  { vm_compute. reflexivity. }
  split.
  - destruct (C10_list_todos_filters _ _ None _ Hper) as (r & H1 & H2 & _).
    rewrite H1, (H2 eq_refl). reflexivity.
  - destruct (C10_list_todos_filters _ _ (Some true) _ Hper)
      as (r & H1 & _ & H3 & _).
    eexists. rewrite H1, (H3 eq_refl). split; reflexivity.
Defined.

(** ** Decoding a vCard *)

Module VCardFacts.

Import VCard Spec Rules LineFacts.

Lemma unfold_skip (c : ascii) (s : string) :
  Ascii.eqb c Str.CR = false -> unfold (String c s) = String c (unfold s).
Proof.
  intros H. cbn [unfold]. rewrite H. cbn [andb].
  destruct s as [|a [|b s]]; reflexivity.
Qed.

Lemma unfold_single_app (cur s : string) :
  Str.single_line cur = true -> unfold (cur ++ s) = cur ++ unfold s.
Proof.
  induction cur as [|c cur IH]; [reflexivity|].
  intros H. apply single_line_cons in H. destruct H as [Hc Hs].
  apply not_line_break in Hc. destruct Hc as [Hcr _].
  change (String c cur ++ s) with (String c (cur ++ s)).
  rewrite unfold_skip by exact Hcr. now rewrite IH.
Qed.

Lemma unfold_single (s : string) :
  Str.single_line s = true -> unfold s = s.
Proof.
  intros H. rewrite <- (append_nil_r s) at 1.
  rewrite unfold_single_app by exact H. apply append_nil_r.
Qed.

Lemma unfold_crlf_space (s : string) :
  unfold (Str.CRLF ++ String " " s) = unfold s.
Proof. reflexivity. Qed.

(** A line break that no space follows stays. *)
Lemma unfold_crlf_other (s : string) :
  match s with
  | String c _ => Ascii.eqb c " " = false
  | EmptyString => True
  end ->
  unfold (Str.CRLF ++ s) = Str.CRLF ++ unfold s.
Proof.
  destruct s as [|c s]; [reflexivity|].
  intros H. change (Str.CRLF ++ String c s)
    with (String Str.CR (String Str.LF (String c s))).
  cbn [unfold]. rewrite H.
  change (Ascii.eqb Str.CR Str.CR && Ascii.eqb Str.LF Str.LF && false)%bool
    with false.
  change (Ascii.eqb Str.LF Str.CR && Ascii.eqb c Str.LF)%bool with false.
  destruct s as [|d s]; reflexivity.
Qed.

Lemma join_cons (sep x y : string) (l : list string) :
  Str.join sep (x :: y :: l) = x ++ sep ++ Str.join sep (y :: l).
Proof. reflexivity. Qed.

Lemma join_first_app (sep a b : string) (l : list string) :
  a ++ Str.join sep (b :: l) = Str.join sep ((a ++ b) :: l).
Proof.
  destruct l as [|y l]; [reflexivity|].
  rewrite !join_cons. now rewrite append_assoc.
Qed.

(** On CRLF-delimited lines the code's unfolding and splitting yield the
    logical lines. *)
Lemma split_unfold_join (ls : list string) :
  forall cur : string,
    Str.single_line cur = true ->
    Forall (fun x => Str.single_line x = true) ls ->
    Str.split_lines (unfold (Str.join Str.CRLF (cur :: ls)))
    = join_continuations cur ls.
Proof.
  induction ls as [|l ls IH]; intros cur Hcur Hls.
  - cbn [Str.join join_continuations].
    rewrite unfold_single by exact Hcur. now apply split_lines_single.
  - inversion Hls as [|? ? Hl Hls']; subst.
    rewrite join_cons. rewrite unfold_single_app by exact Hcur.
    cbn [join_continuations].
    destruct l as [|c l'].
    + rewrite unfold_crlf_other.
      * rewrite split_lines_first_line by exact Hcur. now rewrite IH.
      * destruct ls; [exact I | reflexivity].
    + destruct (Ascii.eqb c " ") eqn:Ec.
      * apply ascii_eqb_eq in Ec. subst c.
        assert (Hl' : Str.single_line l' = true)
          by (now apply single_line_cons in Hl).
        replace (Str.join Str.CRLF (String " " l' :: ls))
          with (String " " (Str.join Str.CRLF (l' :: ls)))
          by (destruct ls; reflexivity).
        rewrite unfold_crlf_space.
        rewrite <- unfold_single_app by exact Hcur.
        rewrite join_first_app.
        apply IH; [now apply single_line_app | exact Hls'].
      * rewrite unfold_crlf_other.
        -- rewrite split_lines_first_line by exact Hcur. now rewrite IH.
        -- destruct ls; exact Ec.
Qed.

Lemma span_stops (p : ascii -> bool) (key : string) (c : ascii)
    (rest : string) :
  Str.forallb p key = true -> p c = false ->
  span p (key ++ String c rest) = (key, String c rest).
Proof.
  intros Hk Hc. induction key as [|a key IH].
  - simpl. now rewrite Hc.
  - simpl in Hk. apply andb_true_iff in Hk. destruct Hk as [Ha Hk].
    simpl. rewrite Ha, (IH Hk). reflexivity.
Qed.

Lemma dot_all_single_line (v : string) :
  dot_all v = true -> Str.single_line v = true.
Proof. unfold dot_all. intros H. now apply andb_true_iff in H. Qed.

Lemma has_separator_three (x y z : ascii) (s : string) :
  has_separator (String x (String y (String z s)))
  = (is_separator_bytes x y z || has_separator (String y (String z s)))%bool.
Proof. reflexivity. Qed.

Lemma has_separator_cons (c : ascii) (s : string) :
  Ascii.eqb c "226" = false ->
  has_separator (String c s) = has_separator s.
Proof.
  intros H. destruct s as [|b [|d s]]; try reflexivity.
  rewrite has_separator_three. unfold is_separator_bytes. now rewrite H.
Qed.

(** A character that is no line break and does not open the bytes of a
    separator can be put in front. *)
Lemma dot_all_cons (c : ascii) (s : string) :
  Str.is_line_break c = false -> Ascii.eqb c "226" = false ->
  dot_all (String c s) = dot_all s.
Proof.
  intros Hb H. unfold dot_all, Str.single_line.
  rewrite (has_separator_cons c s H). simpl. now rewrite Hb.
Qed.

Lemma has_separator_tail (c : ascii) (s : string) :
  has_separator (String c s) = false -> has_separator s = false.
Proof.
  destruct s as [|b [|d s]]; try reflexivity.
  rewrite has_separator_three. intros H. now apply orb_false_iff in H.
Qed.

Lemma has_separator_app (a b : string) :
  has_separator a = false -> has_separator b = false ->
  Extra.head_safe b = true ->
  has_separator (a ++ b) = false.
Proof.
  intros Ha Hb Hs. induction a as [|x a IH]; [exact Hb|].
  specialize (IH (has_separator_tail _ _ Ha)).
  destruct a as [|y [|z a]].
  - change (String x "" ++ b) with (String x b).
    destruct b as [|b0 [|b1 b]]; try reflexivity.
    rewrite has_separator_three, Hb. unfold is_separator_bytes.
    unfold Extra.head_safe in Hs.
    apply negb_true_iff, orb_false_iff in Hs.
    destruct Hs as [Hs _]. apply orb_false_iff in Hs. destruct Hs as [Hs _].
    rewrite Hs. now rewrite andb_false_r.
  - change (String x (String y "") ++ b) with (String x (String y b)).
    change (String y "" ++ b) with (String y b) in IH.
    destruct b as [|b0 b]; [reflexivity|].
    rewrite has_separator_three, IH.
    unfold is_separator_bytes.
    unfold Extra.head_safe in Hs.
    apply negb_true_iff, orb_false_iff in Hs.
    destruct Hs as [Hs H169]. apply orb_false_iff in Hs.
    destruct Hs as [_ H168].
    rewrite H168, H169. now rewrite !andb_false_r.
  - change (String x (String y (String z a)) ++ b)
      with (String x (String y (String z (a ++ b)))).
    change (String y (String z a) ++ b)
      with (String y (String z (a ++ b))) in IH.
    rewrite has_separator_three in Ha. apply orb_false_iff in Ha.
    destruct Ha as [Ha _].
    now rewrite has_separator_three, Ha, IH.
Qed.

Lemma dot_all_app (a b : string) :
  dot_all a = true -> dot_all b = true -> Extra.head_safe b = true ->
  dot_all (a ++ b) = true.
Proof.
  unfold dot_all. intros Ha Hb Hs.
  apply andb_true_iff in Ha. destruct Ha as [Ha1 Ha2].
  apply andb_true_iff in Hb. destruct Hb as [Hb1 Hb2].
  apply negb_true_iff in Ha2, Hb2.
  rewrite single_line_app by assumption.
  now rewrite has_separator_app.
Qed.

Lemma line_match_plain (key value : string) :
  Str.nonempty key = true -> Str.forallb not_colon_semi key = true ->
  dot_all value = true ->
  line_match (key ++ ":" ++ value) = Some (key, value).
Proof.
  intros Hne Hk Hv. unfold line_match.
  change (key ++ ":" ++ value) with (key ++ String ":" value).
  rewrite span_stops by (auto; reflexivity).
  rewrite Hne. cbn. unfold value_ok. now rewrite Hv.
Qed.

Lemma line_match_params (key params value : string) :
  Str.nonempty key = true -> Str.forallb not_colon_semi key = true ->
  Str.forallb not_colon params = true ->
  dot_all value = true ->
  line_match (key ++ ";" ++ params ++ ":" ++ value) = Some (key, value).
Proof.
  intros Hne Hk Hp Hv. unfold line_match.
  change (key ++ ";" ++ params ++ ":" ++ value)
    with (key ++ String ";" (params ++ String ":" value)).
  rewrite span_stops by (auto; reflexivity).
  rewrite Hne. cbn [Ascii.eqb].
  change (Ascii.eqb ";" ":") with false. cbv iota.
  rewrite span_stops by (auto; reflexivity).
  cbn [snd]. unfold value_ok. now rewrite Hv.
Qed.

(** A value that holds a line terminator makes the line unreadable. *)
Lemma line_match_refused (key value : string) :
  Str.nonempty key = true -> Str.forallb not_colon_semi key = true ->
  dot_all value = false ->
  line_match (key ++ ":" ++ value) = None.
Proof.
  intros Hne Hk Hv. unfold line_match.
  change (key ++ ":" ++ value) with (key ++ String ":" value).
  rewrite span_stops by (auto; reflexivity).
  rewrite Hne. cbn. unfold value_ok. now rewrite Hv.
Qed.

Lemma parse_line_assign (r : contact) (line k v : string) :
  line_match line = Some (k, v) ->
  parse_line r line = assign (Str.toUpperCase k) v r.
Proof.
  intros H. unfold parse_line, assign, recognized. rewrite H.
  cbn [lookup].
  repeat match goal with
         | |- context [String.eqb (Str.toUpperCase k) ?s] =>
             destruct (String.eqb (Str.toUpperCase k) s); [reflexivity|]
         end.
  reflexivity.
Qed.

Lemma parse_line_no_match (r : contact) (line : string) :
  line_match line = None -> parse_line r line = r.
Proof. intros H. unfold parse_line. now rewrite H. Qed.

Lemma assign_other (key val : string) (r : contact) :
  ~ In key (List.map fst recognized) -> assign key val r = r.
Proof.
  intros H. unfold assign, recognized. cbn [lookup].
  repeat match goal with
         | |- context [String.eqb key ?s] =>
             let E := fresh "E" in
             destruct (String.eqb key s) eqn:E;
             [apply String.eqb_eq in E; subst key; exfalso; apply H; simpl; tauto|]
         end.
  reflexivity.
Qed.

End VCardFacts.

(** C8.  The claim: decoding first joins every line that begins with a
    single space to the line before it, then reads each logical line.  In
    the text [NOTE:first], a bare line feed, [ second], the code ends the
    first line at the line feed, so the second line begins with a single
    space; joined to the previous line, as the claim says, it gives the note
    "firstsecond".  [parseVCard] removes only a space that follows CR LF:
    it reads the note "first" and skips the second line. *)
Lemma C8_bare_line_feed_not_unfolded :
  Str.split_lines ("NOTE:first" ++ String Str.LF " second")
  = ["NOTE:first"; " second"]
  /\ VCard.v_note (Spec.decode_lines ["NOTE:first"; " second"])
     = Some "firstsecond"
  /\ VCard.v_note (VCard.parseVCard ("NOTE:first" ++ String Str.LF " second"))
     = Some "first".
Proof. repeat split; reflexivity. Qed.

(** X19.  For a vCard text whose lines are delimited by CR LF,
    [parseVCard] first joins every line that begins with a space to the
    line before it (dropping that one space) and then reads each logical
    line: a line KEY:VALUE or KEY;params:VALUE whose value holds no line
    terminator (CR, LF, U+2028, U+2029) yields the key and the value, and with
    such a terminator in the value the line is skipped; the key is compared
    in upper case; FN, N (split on semicolons into last and first name),
    EMAIL, TEL, ORG, TITLE, NOTE and UID assign their field; a line with
    another key, or one that is no such line, leaves the record
    unchanged. *)
Theorem vcard_decode_of_crlf_lines :
  (forall (l : string) (ls : list string),
      Forall (fun x => Str.single_line x = true) (l :: ls) ->
      VCard.parseVCard (Str.join Str.CRLF (l :: ls)) = Spec.decode_lines (l :: ls))
  /\ (forall key params value : string,
        Str.nonempty key = true ->
        Str.forallb VCard.not_colon_semi key = true ->
        Str.forallb VCard.not_colon params = true ->
        VCard.dot_all value = true ->
        VCard.line_match (key ++ ":" ++ value) = Some (key, value)
        /\ VCard.line_match (key ++ ";" ++ params ++ ":" ++ value)
           = Some (key, value))
  /\ (forall (r : VCard.contact) (key value : string),
        Str.nonempty key = true ->
        Str.forallb VCard.not_colon_semi key = true ->
        VCard.dot_all value = false ->
        VCard.parse_line r (key ++ ":" ++ value) = r)
  /\ (forall (r : VCard.contact) (line k v : string),
        VCard.line_match line = Some (k, v) ->
        VCard.parse_line r line = Rules.assign (Str.toUpperCase k) v r)
  /\ (forall (r : VCard.contact) (line : string),
        VCard.line_match line = None -> VCard.parse_line r line = r)
  /\ (forall (key val : string) (r : VCard.contact),
        ~ In key ["FN"; "N"; "EMAIL"; "TEL"; "ORG"; "TITLE"; "NOTE"; "UID"] ->
        Rules.assign key val r = r).
Proof.
  repeat apply conj.
  - intros l ls H. unfold VCard.parseVCard, Spec.decode_lines.
    inversion H; subst.
    rewrite VCardFacts.split_unfold_join by assumption. reflexivity.
  - intros key params value Hne Hk Hp Hv. split.
    + now apply VCardFacts.line_match_plain.
    + now apply VCardFacts.line_match_params.
  - intros r key value Hne Hk Hv. apply VCardFacts.parse_line_no_match.
    now apply VCardFacts.line_match_refused.
  - apply VCardFacts.parse_line_assign.
  - apply VCardFacts.parse_line_no_match.
  - intros key val r H. now apply VCardFacts.assign_other.
Qed.

Lemma vcard_decode_of_crlf_lines_witness :
  VCard.parseVCard
    (Str.join Str.CRLF
       ["BEGIN:VCARD"; "FN:Ada Lovelace"; "NOTE:first"; " second";
        "X-CUSTOM:1"; "END:VCARD"])
  = {| VCard.v_uid := None; VCard.v_full_name := Some "Ada Lovelace";
       VCard.v_first_name := None; VCard.v_last_name := None;
       VCard.v_email := None; VCard.v_phone := None; VCard.v_org := None;
       VCard.v_title := None; VCard.v_note := Some "firstsecond" |}.
Proof.
  destruct vcard_decode_of_crlf_lines as [H _].
  rewrite H; [reflexivity|].
  repeat constructor.
Defined.

(** * Further properties of the code *)

(** ** More on the collection slug *)

Module SlugShape.

Import Tools SlugFacts.

Fixpoint ends_with_hyphen (s : string) : bool :=
  match s with
  | EmptyString => false
  | String c EmptyString => Ascii.eqb c "-"
  | String _ s' => ends_with_hyphen s'
  end.

Lemma drop_last_hyphen_chars (p : ascii -> bool) (s : string) :
  Str.forallb p s = true -> Str.forallb p (drop_last_hyphen s) = true.
Proof.
  induction s as [|c s IH]; [reflexivity|].
  intros H. pose proof H as H'. simpl in H'.
  apply andb_true_iff in H'. destruct H' as [Hc Hs].
  destruct s as [|c' s].
  - simpl. destruct (Ascii.eqb c "-"); [reflexivity | exact H].
  - change (drop_last_hyphen (String c (String c' s)))
      with (String c (drop_last_hyphen (String c' s))).
    simpl Str.forallb. rewrite Hc. now apply IH.
Qed.

Lemma strip_edges_chars (p : ascii -> bool) (s : string) :
  Str.forallb p s = true -> Str.forallb p (strip_edges s) = true.
Proof.
  destruct s as [|c s]; [reflexivity|]. intros H. unfold strip_edges.
  destruct (Ascii.eqb c "-").
  - apply drop_last_hyphen_chars. simpl in H.
    apply andb_true_iff in H. apply H.
  - now apply drop_last_hyphen_chars.
Qed.

Lemma separated_cons2 (c d : ascii) (r : string) :
  separated (String c (String d r))
  = (negb (Ascii.eqb c "-" && Ascii.eqb d "-") && separated (String d r))%bool.
Proof. reflexivity. Qed.

Lemma drop_last_hyphen_separated (s : string) :
  separated s = true ->
  separated (drop_last_hyphen s) = true
  /\ ends_with_hyphen (drop_last_hyphen s) = false
  /\ starts_with_hyphen (drop_last_hyphen s) = starts_with_hyphen s
     \/ s = "-".
Proof.
  induction s as [|c s IH]; [auto|].
  intros Hs. pose proof (separated_tail _ _ Hs) as Hs'.
  destruct s as [|c' s].
  - simpl. destruct (Ascii.eqb c "-") eqn:Ec.
    + right. apply ascii_eqb_eq in Ec. now subst.
    + left. simpl. rewrite Ec. auto.
  - left.
    change (drop_last_hyphen (String c (String c' s)))
      with (String c (drop_last_hyphen (String c' s))).
    destruct (IH Hs') as [(Hsep & Hend & Hst) | E].
    + destruct (drop_last_hyphen (String c' s)) as [|d r] eqn:Ed.
      * apply drop_last_hyphen_empty in Ed.
        destruct Ed as [Ed|Ed]; [discriminate|].
        injection Ed as -> ->. simpl in Hs.
        destruct (Ascii.eqb c "-") eqn:Ec; [discriminate Hs|].
        simpl. rewrite Ec. auto.
      * repeat split.
        -- rewrite separated_cons2. rewrite separated_cons2 in Hs.
           simpl in Hst. rewrite Hst. apply andb_true_iff in Hs.
           destruct Hs as [Hs1 _]. now rewrite Hs1, Hsep.
        -- exact Hend.
    + injection E as -> ->. simpl in Hs.
      destruct (Ascii.eqb c "-") eqn:Ec; [discriminate Hs|].
      simpl. rewrite Ec. auto.
Qed.

Lemma strip_edges_shape (s : string) :
  separated s = true ->
  separated (strip_edges s) = true
  /\ starts_with_hyphen (strip_edges s) = false
  /\ ends_with_hyphen (strip_edges s) = false.
Proof.
  intros Hs. destruct s as [|c s]; [auto|].
  pose proof (separated_tail _ _ Hs) as Hs'. unfold strip_edges.
  destruct (Ascii.eqb c "-") eqn:Ec.
  - destruct (drop_last_hyphen_separated s Hs') as [(H1 & H2 & H3) | E].
    + repeat split; auto. rewrite H3.
      destruct s as [|c' s]; [reflexivity|]. simpl in Hs. rewrite Ec in Hs.
      simpl. destruct (Ascii.eqb c' "-"); [discriminate Hs | reflexivity].
    + subst s. simpl in Hs. rewrite Ec in Hs. discriminate Hs.
  - destruct (drop_last_hyphen_separated _ Hs) as [(H1 & H2 & H3) | E].
    + repeat split; auto. rewrite H3. exact Ec.
    + injection E as -> _. discriminate Ec.
Qed.

Lemma replace_runs_alnum (b : bool) (s : string) :
  Str.existsb Str.is_alnum (replace_runs b s) = Str.existsb Str.is_alnum s.
Proof.
  revert b. induction s as [|c s IH]; intros b; [reflexivity|].
  simpl. destruct (Str.is_alnum c) eqn:Ha; simpl.
  - now rewrite Ha.
  - destruct b; simpl; apply IH.
Qed.

Lemma drop_last_hyphen_alnum (s : string) :
  Str.existsb Str.is_alnum (drop_last_hyphen s) = Str.existsb Str.is_alnum s.
Proof.
  induction s as [|c s IH]; [reflexivity|].
  destruct s as [|c' s].
  - simpl. destruct (Ascii.eqb c "-") eqn:Ec; [|reflexivity].
    apply ascii_eqb_eq in Ec. subst. reflexivity.
  - change (drop_last_hyphen (String c (String c' s)))
      with (String c (drop_last_hyphen (String c' s))).
    change (Str.existsb Str.is_alnum (String c (drop_last_hyphen (String c' s))))
      with (Str.is_alnum c
            || Str.existsb Str.is_alnum (drop_last_hyphen (String c' s)))%bool.
    rewrite IH. reflexivity.
Qed.

Lemma strip_edges_alnum (s : string) :
  Str.existsb Str.is_alnum (strip_edges s) = Str.existsb Str.is_alnum s.
Proof.
  destruct s as [|c s]; [reflexivity|]. unfold strip_edges.
  destruct (Ascii.eqb c "-") eqn:Ec.
  - rewrite drop_last_hyphen_alnum. apply ascii_eqb_eq in Ec. now subst.
  - apply drop_last_hyphen_alnum.
Qed.

Lemma replace_runs_no_alnum (s : string) :
  Str.existsb Str.is_alnum s = false ->
  replace_runs true s = ""
  /\ (replace_runs false s = "" \/ replace_runs false s = "-").
Proof.
  induction s as [|c s IH]; [auto|].
  simpl. destruct (Str.is_alnum c); [discriminate|]. simpl.
  intros H. destruct (IH H) as [Ht _]. rewrite Ht. auto.
Qed.

Lemma slug_char_lower (c : ascii) :
  slug_char c = true -> Str.lower_char c = c.
Proof.
  unfold slug_char, Str.lower_char.
  destruct c as [[] [] [] [] [] [] [] []]; intros H;
    try reflexivity; discriminate H.
Qed.

Lemma lower_fixed (s : string) :
  Str.forallb slug_char s = true -> Str.toLowerCase s = s.
Proof.
  induction s as [|c s IH]; [reflexivity|].
  simpl. intros H. apply andb_true_iff in H. destruct H as [Hc Hs].
  unfold Str.toLowerCase in *. simpl. now rewrite (slug_char_lower c Hc), IH.
Qed.

Lemma slug_char_cases (c : ascii) :
  slug_char c = true -> Str.is_alnum c = false -> c = "-"%char.
Proof.
  unfold slug_char. intros H Ha. rewrite Ha in H. simpl in H.
  now apply ascii_eqb_eq.
Qed.

(** A string that already has the shape is left alone by the first
    replacement. *)
Lemma replace_runs_fixed (s : string) :
  Str.forallb slug_char s = true -> separated s = true ->
  replace_runs false s = s
  /\ (starts_with_hyphen s = false -> replace_runs true s = s).
Proof.
  induction s as [|c s IH]; [auto|].
  intros Hc Hs. simpl in Hc. apply andb_true_iff in Hc.
  destruct Hc as [Hc Hcs].
  destruct (IH Hcs (separated_tail _ _ Hs)) as [IHf IHt].
  simpl. destruct (Str.is_alnum c) eqn:Ha.
  - rewrite IHf. auto.
  - pose proof (slug_char_cases c Hc Ha) as ->. split.
    + rewrite IHt; [reflexivity|].
      destruct s as [|c' s]; [reflexivity|]. simpl in Hs. simpl.
      destruct (Ascii.eqb c' "-"); [discriminate Hs | reflexivity].
    + discriminate.
Qed.

Lemma drop_last_hyphen_fixed (s : string) :
  ends_with_hyphen s = false -> drop_last_hyphen s = s.
Proof.
  induction s as [|c s IH]; [reflexivity|].
  destruct s as [|c' s].
  - simpl. now intros ->.
  - intros H.
    change (drop_last_hyphen (String c (String c' s)))
      with (String c (drop_last_hyphen (String c' s))).
    now rewrite IH.
Qed.

Lemma strip_edges_fixed (s : string) :
  starts_with_hyphen s = false -> ends_with_hyphen s = false ->
  strip_edges s = s.
Proof.
  destruct s as [|c s]; [reflexivity|]. simpl starts_with_hyphen.
  intros Hc He. unfold strip_edges. rewrite Hc.
  now apply drop_last_hyphen_fixed.
Qed.

Lemma slug_facts (name : string) :
  Str.forallb slug_char (slug name) = true
  /\ separated (slug name) = true
  /\ starts_with_hyphen (slug name) = false
  /\ ends_with_hyphen (slug name) = false.
Proof.
  unfold slug. split.
  - apply strip_edges_chars, replace_runs_chars.
  - apply strip_edges_shape, replace_runs_separated.
Qed.

End SlugShape.

(** X1.  The derived path segment consists of the characters a-z, 0-9 and
    hyphen only, it neither starts nor ends with a hyphen, and it holds no
    two hyphens in a row. *)
Theorem slug_is_url_safe (name : string) :
  Str.forallb SlugFacts.slug_char (Tools.slug name) = true
  /\ SlugFacts.starts_with_hyphen (Tools.slug name) = false
  /\ SlugShape.ends_with_hyphen (Tools.slug name) = false
  /\ SlugFacts.separated (Tools.slug name) = true.
Proof.
  destruct (SlugShape.slug_facts name) as (H1 & H2 & H3 & H4). auto.
Qed.

(** X2.  The derived segment is empty exactly when the lowercased name
    holds no character of a-z0-9: a non-empty name of punctuation only
    passes the schema and yields an empty path segment. *)
Theorem slug_empty_iff_no_alphanumeric (name : string) :
  Tools.slug name = ""
  <-> Str.existsb Str.is_alnum (Str.toLowerCase name) = false.
Proof.
  unfold Tools.slug. split.
  - intros H.
    rewrite <- (SlugShape.replace_runs_alnum false),
      <- SlugShape.strip_edges_alnum, H. reflexivity.
  - intros H.
    destruct (SlugShape.replace_runs_no_alnum _ H) as [_ [-> | ->]];
      reflexivity.
Qed.

(** X3.  Deriving the segment of a derived segment changes nothing. *)
Theorem slug_idempotent (name : string) :
  Tools.slug (Tools.slug name) = Tools.slug name.
Proof.
  destruct (SlugShape.slug_facts name) as (Hc & Hs & Hst & He).
  unfold Tools.slug at 1.
  rewrite (SlugShape.lower_fixed _ Hc).
  destruct (SlugShape.replace_runs_fixed _ Hc Hs) as [-> _].
  now apply SlugShape.strip_edges_fixed.
Qed.

(** ** The parent collection of an object URL *)

Module UrlFacts.

Import MoreTools Extra.

Lemma strip_empty (s : string) :
  strip_last_segment s = "" <-> Str.forallb not_slash s = true.
Proof.
  destruct s as [|c s]; [split; reflexivity|].
  cbn [strip_last_segment].
  destruct (Str.forallb not_slash (String c s)); split; auto; discriminate.
Qed.

Lemma slash_inside (p : string) : Str.forallb not_slash (p ++ "/") = false.
Proof.
  induction p as [|c p IH]; [reflexivity|].
  simpl. rewrite IH. apply andb_false_r.
Qed.

Lemma split_url (s : string) :
  s = strip_last_segment s ++ last_segment s
  /\ Str.forallb not_slash (last_segment s) = true
  /\ (strip_last_segment s = "" \/ ends_with_slash (strip_last_segment s)).
Proof.
  induction s as [|c s (IH1 & IH2 & IH3)]; [auto|].
  cbn [strip_last_segment last_segment].
  destruct (Str.forallb not_slash (String c s)) eqn:E.
  - auto.
  - repeat split.
    + simpl. now rewrite <- IH1.
    + exact IH2.
    + right. destruct IH3 as [H | [p Hp]].
      * rewrite H. apply strip_empty in H. simpl in E. rewrite H in E.
        rewrite andb_true_r in E. unfold not_slash in E.
        apply negb_false_iff, ascii_eqb_eq in E. subst c. now exists "".
      * rewrite Hp. now exists (String c p).
Qed.

Lemma strip_fixed (p : string) :
  strip_last_segment (p ++ "/") = p ++ "/".
Proof.
  induction p as [|c p IH]; [reflexivity|].
  change (String c p ++ "/") with (String c (p ++ "/")).
  cbn [strip_last_segment].
  change (Str.forallb not_slash (String c (p ++ "/")))
    with (not_slash c && Str.forallb not_slash (p ++ "/"))%bool.
  rewrite slash_inside, andb_false_r. now rewrite IH.
Qed.

End UrlFacts.

(** X4.  The parent collection that the get and update tools derive from an
    object URL is the URL without its last path segment: the URL is the
    parent followed by a segment free of slashes, the parent is empty or
    ends with a slash, and a URL that already ends with a slash is its own
    parent. *)
Theorem strip_last_segment_is_parent (object_url : string) :
  object_url
  = MoreTools.strip_last_segment object_url ++ MoreTools.last_segment object_url
  /\ Str.forallb MoreTools.not_slash (MoreTools.last_segment object_url) = true
  /\ (MoreTools.strip_last_segment object_url = ""
      \/ Extra.ends_with_slash (MoreTools.strip_last_segment object_url))
  /\ (Extra.ends_with_slash object_url ->
      MoreTools.strip_last_segment object_url = object_url).
Proof.
  destruct (UrlFacts.split_url object_url) as (H1 & H2 & H3).
  repeat split; auto.
  intros [p ->]. apply UrlFacts.strip_fixed.
Qed.

Lemma strip_last_segment_example :
  MoreTools.strip_last_segment "https://dav.example.org/u/cal/"
  = "https://dav.example.org/u/cal/".
Proof.
  apply (strip_last_segment_is_parent "https://dav.example.org/u/cal/").
  now exists "https://dav.example.org/u/cal".
Defined.

(** ** Date-time tokens *)

Module TokenFacts.

Import DateTime Shape DateFacts.

Lemma same_second_same_day (t t' : Z) :
  t / 1000 = t' / 1000 -> t / msPerDay = t' / msPerDay.
Proof. unfold msPerDay. intros H. Z.div_mod_to_equations. lia. Qed.

Lemma same_second_same_time (t t' : Z) :
  t / 1000 = t' / 1000 -> time_digits t = time_digits t'.
Proof.
  intros H. unfold time_digits.
  assert (H1 : t mod msPerDay / 3600000 = t' mod msPerDay / 3600000)
    by (unfold msPerDay; Z.div_mod_to_equations; lia).
  assert (H2 : t mod msPerDay / 60000 = t' mod msPerDay / 60000)
    by (unfold msPerDay; Z.div_mod_to_equations; lia).
  assert (H3 : t mod msPerDay / 1000 = t' mod msPerDay / 1000)
    by (unfold msPerDay; Z.div_mod_to_equations; lia).
  now rewrite H1, H2, H3.
Qed.

Lemma same_second_same_token (t t' : Z) :
  0 <= year_of t <= 9999 -> t / 1000 = t' / 1000 ->
  ical_datetime t = ical_datetime t'.
Proof.
  intros Hy H. pose proof (same_second_same_day _ _ H) as Hd.
  assert (Hy' : 0 <= year_of t' <= 9999).
  { unfold year_of in *. now rewrite <- Hd. }
  destruct (ical_datetime_in_range t Hy) as [-> _].
  destruct (ical_datetime_in_range t' Hy') as [-> _].
  rewrite (same_second_same_time _ _ H).
  unfold date_digits. now rewrite Hd.
Qed.

End TokenFacts.

(** X5.  The token written for DTSTART, DTEND, DUE, COMPLETED and DTSTAMP
    keeps whole seconds only: two date strings that denote instants within
    the same second (years 0 to 9999) are written as the same token, which
    has the form YYYYMMDDTHHMMSSZ. *)
Theorem isoToIcal_drops_milliseconds
    (Date_parse : string -> option Z) (s s' : string) (t t' : Z) :
  Date_parse s = Some t -> Date_parse s' = Some t' ->
  DateTime.valid_time t = true -> DateTime.valid_time t' = true ->
  0 <= DateTime.year_of t <= 9999 ->
  t / 1000 = t' / 1000 ->
  exists token,
    DateTime.isoToIcal Date_parse (Some s) = Ok token
    /\ DateTime.isoToIcal Date_parse (Some s') = Ok token
    /\ Shape.datetime_token token = true.
Proof.
  intros Hs Hs' Hv Hv' Hy H.
  exists (Shape.ical_datetime t).
  rewrite (DateFacts.isoToIcal_ok _ _ _ Hs Hv).
  rewrite (DateFacts.isoToIcal_ok _ _ _ Hs' Hv').
  rewrite <- (TokenFacts.same_second_same_token t t' Hy H).
  repeat split. now apply DateFacts.ical_datetime_shape.
Qed.

Lemma isoToIcal_drops_milliseconds_witness :
  exists token,
    DateTime.isoToIcal DateTime.Date_parse_utc (Some "2026-03-01T09:00:00.250Z")
    = Ok token
    /\ DateTime.isoToIcal DateTime.Date_parse_utc (Some "2026-03-01T09:00:00Z")
       = Ok token
    /\ Shape.datetime_token token = true.
Proof.
  apply (isoToIcal_drops_milliseconds DateTime.Date_parse_utc
           "2026-03-01T09:00:00.250Z" "2026-03-01T09:00:00Z"
           1772355600250 1772355600000);
    vm_compute; first [reflexivity | split; discriminate].
Defined.

(** ** Failures while decoding *)

Module FailFacts.

Import DateTime ICal Tools Rules.

Lemma icalDateToIso_throws (d : option parsed_date) :
  date_ok d = false ->
  icalDateToIso d = Throw (RangeError "Invalid time value").
Proof.
  destruct d as [[s|[t|]|[iso|] str]|]; simpl; try discriminate.
  - intros H. unfold toISOString. now rewrite H.
  - reflexivity.
Qed.

Lemma icalDateToIso_error (d : option parsed_date) (e : error) :
  icalDateToIso d = Throw e -> e = RangeError "Invalid time value".
Proof.
  destruct d as [[s|[t|]|[iso|] str]|]; simpl; try discriminate.
  - destruct (Str.nonempty s); discriminate.
  - unfold toISOString. destruct (valid_time t); simpl; [discriminate|].
    now intros [= <-].
  - now intros [= <-].
Qed.

Lemma to_record_error (comp : component) (e : error) :
  to_record comp = Throw e -> e = RangeError "Invalid time value".
Proof.
  unfold to_record.
  destruct (icalDateToIso (c_start comp)) eqn:E1;
    [|intros [= <-]; now apply icalDateToIso_error in E1].
  destruct (icalDateToIso (c_end comp)) eqn:E2;
    [|intros [= <-]; now apply icalDateToIso_error in E2].
  destruct (icalDateToIso (c_completed comp)) eqn:E3;
    [|intros [= <-]; now apply icalDateToIso_error in E3].
  destruct (icalDateToIso (c_due comp)) eqn:E4;
    [|intros [= <-]; now apply icalDateToIso_error in E4].
  discriminate.
Qed.

Lemma to_record_throws (comp : component) :
  dates_ok comp = false ->
  to_record comp = Throw (RangeError "Invalid time value").
Proof.
  intros H. destruct (to_record comp) as [rec|e] eqn:E.
  - exfalso. unfold to_record in E.
    destruct (icalDateToIso (c_start comp)) eqn:E1; [|discriminate].
    destruct (icalDateToIso (c_end comp)) eqn:E2; [|discriminate].
    destruct (icalDateToIso (c_completed comp)) eqn:E3; [|discriminate].
    destruct (icalDateToIso (c_due comp)) eqn:E4; [|discriminate].
    unfold dates_ok in H.
    destruct (date_ok (c_start comp)) eqn:D1;
      [|rewrite (icalDateToIso_throws _ D1) in E1; discriminate].
    destruct (date_ok (c_end comp)) eqn:D2;
      [|rewrite (icalDateToIso_throws _ D2) in E2; discriminate].
    destruct (date_ok (c_completed comp)) eqn:D3;
      [|rewrite (icalDateToIso_throws _ D3) in E3; discriminate].
    destruct (date_ok (c_due comp)) eqn:D4;
      [|rewrite (icalDateToIso_throws _ D4) in E4; discriminate].
    discriminate H.
  - f_equal. now apply to_record_error in E.
Qed.

(** One failing element makes the whole traversal fail. *)
Lemma mapM_throws {A B : Type} (f : A -> res B) (l : list A) (e : error) :
  (forall a e', f a = Throw e' -> e' = e) ->
  (exists a, In a l /\ f a = Throw e) ->
  mapM f l = Throw e.
Proof.
  intros Hone. induction l as [|a l IH]; intros (x & Hin & Hx).
  - destruct Hin.
  - simpl. destruct (f a) as [b|e'] eqn:Ea.
    + cbn [bind]. destruct Hin as [<- | Hin]; [congruence|].
      rewrite IH by eauto. reflexivity.
    + cbn [bind]. f_equal. eauto.
Qed.

Lemma parseIcalObjects_error (parseICS : string -> list component)
    (data type : string) (e : error) :
  parseIcalObjects parseICS data type = Throw e ->
  e = RangeError "Invalid time value".
Proof.
  unfold parseIcalObjects.
  induction (filter (kind_match type) (parseICS data)) as [|c l IH]; simpl.
  - discriminate.
  - destruct (to_record c) eqn:Ec;
      [|intros [= <-]; now apply to_record_error in Ec].
    cbn [bind]. destruct (mapM to_record l); [discriminate|].
    cbn [bind]. intros [= <-]. now apply IH.
Qed.

Lemma parseIcalObjects_throws (parseICS : string -> list component)
    (data type : string) (comp : component) :
  type = "VEVENT" \/ type = "VTODO" ->
  In comp (parseICS data) -> c_type comp = type -> dates_ok comp = false ->
  parseIcalObjects parseICS data type
  = Throw (RangeError "Invalid time value").
Proof.
  intros Ht Hin Hty Hd. unfold parseIcalObjects.
  apply mapM_throws.
  - intros a e'. apply to_record_error.
  - exists comp. split; [|now apply to_record_throws].
    apply filter_In. split; [exact Hin|].
    rewrite kind_match_type by exact Ht. now apply String.eqb_eq.
Qed.

End FailFacts.

(** X6.  Decoding fails as a whole, with the [RangeError] of
    [toISOString], as soon as one component of the requested kind holds an
    invalid [Date] in its start, end, completed or due value, however many
    well-formed components the text holds besides. *)
Theorem decode_fails_on_invalid_date
    (parseICS : string -> list ICal.component) (data type : string)
    (comp : ICal.component) :
  type = "VEVENT" \/ type = "VTODO" ->
  In comp (parseICS data) -> ICal.c_type comp = type ->
  Rules.dates_ok comp = false ->
  ICal.parseIcalObjects parseICS data type
  = Throw (RangeError "Invalid time value").
Proof. apply FailFacts.parseIcalObjects_throws. Qed.

Lemma decode_fails_on_invalid_date_witness :
  ICal.parseIcalObjects
    (fun _ =>
       [Cases.done_component;
        {| ICal.c_type := "VTODO"; ICal.c_uid := Some "88bb";
           ICal.c_summary := Some "Broken"; ICal.c_description := None;
           ICal.c_start := None; ICal.c_end := None; ICal.c_location := None;
           ICal.c_status := None; ICal.c_priority := None;
           ICal.c_completed := None;
           ICal.c_due := Some (DateTime.PDate None) |}])
    "BEGIN:VCALENDAR" "VTODO"
  = Throw (RangeError "Invalid time value").
Proof.
  apply (decode_fails_on_invalid_date _ "BEGIN:VCALENDAR" "VTODO"
           {| ICal.c_type := "VTODO"; ICal.c_uid := Some "88bb";
              ICal.c_summary := Some "Broken"; ICal.c_description := None;
              ICal.c_start := None; ICal.c_end := None;
              ICal.c_location := None; ICal.c_status := None;
              ICal.c_priority := None; ICal.c_completed := None;
              ICal.c_due := Some (DateTime.PDate None) |});
    [now right | right; left; reflexivity | reflexivity | reflexivity].
Defined.

(** X7.  A single stored object with an invalid date makes the whole todo
    listing and the whole event listing fail: no listing of the remaining
    objects is returned. *)
Theorem listing_fails_on_one_bad_object
    (parseICS : string -> list ICal.component)
    (objects : list Tools.dav_object) (show_completed : option bool)
    (o : Tools.dav_object) (comp : ICal.component) :
  In o objects -> In comp (parseICS (Tools.data o)) ->
  Rules.dates_ok comp = false ->
  (ICal.c_type comp = "VTODO" ->
   Tools.radicale_list_todos parseICS objects show_completed
   = Throw (RangeError "Invalid time value"))
  /\ (ICal.c_type comp = "VEVENT" ->
      MoreTools.radicale_list_events parseICS objects
      = Throw (RangeError "Invalid time value")).
Proof.
  intros Ho Hc Hd. split; intros Hty.
  - unfold Tools.radicale_list_todos.
    rewrite (FailFacts.mapM_throws _ objects (RangeError "Invalid time value")).
    + reflexivity.
    + intros a e'.
      destruct (ICal.parseIcalObjects parseICS (Tools.data a) "VTODO") eqn:E;
        [discriminate|].
      cbn [bind]. intros [= <-].
      now apply FailFacts.parseIcalObjects_error in E.
    + exists o. split; [exact Ho|].
      rewrite (FailFacts.parseIcalObjects_throws _ _ "VTODO" comp); auto.
  - unfold MoreTools.radicale_list_events.
    rewrite (FailFacts.mapM_throws _ objects (RangeError "Invalid time value")).
    + reflexivity.
    + intros a e'.
      destruct (ICal.parseIcalObjects parseICS (Tools.data a) "VEVENT") eqn:E;
        [discriminate|].
      cbn [bind]. intros [= <-].
      now apply FailFacts.parseIcalObjects_error in E.
    + exists o. split; [exact Ho|].
      rewrite (FailFacts.parseIcalObjects_throws _ _ "VEVENT" comp); auto.
Qed.

Lemma listing_fails_witness :
  Tools.radicale_list_todos
    (fun d => if String.eqb d "bad"
              then [{| ICal.c_type := "VTODO"; ICal.c_uid := Some "88bb";
                       ICal.c_summary := Some "Broken";
                       ICal.c_description := None; ICal.c_start := None;
                       ICal.c_end := None; ICal.c_location := None;
                       ICal.c_status := None; ICal.c_priority := None;
                       ICal.c_completed := None;
                       ICal.c_due := Some (DateTime.PDate None) |}]
              else [Cases.done_component])
    [Cases.stored "good"; Cases.stored "bad"] (Some true)
  = Throw (RangeError "Invalid time value").
Proof.
  apply (listing_fails_on_one_bad_object _
           [Cases.stored "good"; Cases.stored "bad"] (Some true)
           (Cases.stored "bad")
           {| ICal.c_type := "VTODO"; ICal.c_uid := Some "88bb";
              ICal.c_summary := Some "Broken"; ICal.c_description := None;
              ICal.c_start := None; ICal.c_end := None;
              ICal.c_location := None; ICal.c_status := None;
              ICal.c_priority := None; ICal.c_completed := None;
              ICal.c_due := Some (DateTime.PDate None) |});
    [right; left; reflexivity | left; reflexivity | reflexivity | reflexivity].
Defined.

(** X8.  Only VEVENT and VTODO can be asked for: for any other type the
    result is empty, whatever components the text holds, also components
    of exactly that type. *)
Theorem other_kinds_decode_to_nothing
    (parseICS : string -> list ICal.component) (data type : string) :
  type <> "VEVENT" -> type <> "VTODO" ->
  ICal.parseIcalObjects parseICS data type = Ok [].
Proof.
  intros He Ht. unfold ICal.parseIcalObjects.
  rewrite DecodeFacts.filter_none; [reflexivity|].
  intros c _. unfold ICal.kind_match.
  apply String.eqb_neq in He, Ht. now rewrite He, Ht.
Qed.

Lemma other_kinds_witness :
  ICal.parseIcalObjects
    (fun _ => [{| ICal.c_type := "VJOURNAL"; ICal.c_uid := Some "99cc";
                  ICal.c_summary := Some "Diary"; ICal.c_description := None;
                  ICal.c_start := None; ICal.c_end := None;
                  ICal.c_location := None; ICal.c_status := None;
                  ICal.c_priority := None; ICal.c_completed := None;
                  ICal.c_due := None |}])
    "BEGIN:VCALENDAR" "VJOURNAL" = Ok [].
Proof.
  apply other_kinds_decode_to_nothing; discriminate.
Defined.

(** X9.  When the fetched object holds no VEVENT (for instance a stored
    todo), the event update fails with "No VEVENT found in object" before
    anything is built or written, while the event getter succeeds and
    returns the object's URL, etag and raw text without event fields. *)
Theorem event_tools_on_object_without_event
    (Date_parse : string -> option Z)
    (parseICS : string -> list ICal.component)
    (event_url : string) (o : Tools.dav_object) (rest : list Tools.dav_object)
    (u : Tools.event_update) (now : Z) :
  (forall comp, In comp (parseICS (Tools.data o)) ->
                ICal.c_type comp <> "VEVENT") ->
  Tools.radicale_update_event Date_parse parseICS event_url (o :: rest) u now
  = Throw (Error "No VEVENT found in object")
  /\ MoreTools.radicale_get_event parseICS (o :: rest)
     = Ok {| MoreTools.g_event := None; MoreTools.g_url := Tools.url o;
             MoreTools.g_etag := Tools.etag o;
             MoreTools.g_raw := Tools.data o |}.
Proof.
  intros H.
  assert (E : ICal.parseIcalObjects parseICS (Tools.data o) "VEVENT" = Ok []).
  { unfold ICal.parseIcalObjects. rewrite DecodeFacts.filter_none; [reflexivity|].
    intros c Hc. rewrite kind_match_type by now left.
    apply String.eqb_neq. now apply H. }
  unfold Tools.radicale_update_event, MoreTools.radicale_get_event.
  rewrite E. split; reflexivity.
Qed.

Lemma event_tools_on_todo_witness :
  Tools.radicale_update_event DateTime.Date_parse_utc
    (fun _ => [Cases.done_component]) "https://dav.example.org/u/cal/item.ics"
    [Cases.stored "BEGIN:VCALENDAR"] (Cases.summary_only "New title")
    1772355600000
  = Throw (Error "No VEVENT found in object").
Proof.
  apply (event_tools_on_object_without_event DateTime.Date_parse_utc
           (fun _ => [Cases.done_component])
           "https://dav.example.org/u/cal/item.ics"
           (Cases.stored "BEGIN:VCALENDAR") []
           (Cases.summary_only "New title") 1772355600000).
  intros comp [<-|[]]. discriminate.
Defined.

(** ** Writing events and todos *)

Module WriteFacts.

Import DateTime ICal Tools Shape Contract.

Section WithDateParse.

Variable Date_parse : string -> option Z.

Lemma optional_token (key : string) (o : option string) (ot : option Z) :
  reads_as Date_parse o ot ->
  (if truthy o then
     let* d := isoToIcal Date_parse o in Ok [(key ++ d)%string]
   else Ok [])
  = Ok match ot with
       | Some t => [(key ++ ical_datetime t)%string]
       | None => []
       end.
Proof.
  destruct ot as [t|]; simpl.
  - intros (e & -> & Hne & Hp & Hv). simpl truthy. rewrite Hne.
    now rewrite (DateFacts.isoToIcal_ok _ _ _ Hp Hv).
  - now intros ->.
Qed.

(** The lines of a timed event in full. *)
Lemma vevent_lines_timed (now t_now t_start : Z) (t_end : option Z)
    (a : vevent) :
  is_true (e_allDay a) = false ->
  Date_parse (iso_string now) = Some t_now -> valid_time t_now = true ->
  new_Date Date_parse (e_dtstart a) = Some t_start ->
  valid_time t_start = true ->
  reads_as Date_parse (e_dtend a) t_end ->
  vevent_lines Date_parse now a
  = Ok (["BEGIN:VCALENDAR"; "VERSION:2.0"; "PRODID:-//Radicale MCP//EN";
         "BEGIN:VEVENT";
         ("UID:" ++ template (e_uid a))%string;
         ("DTSTAMP:" ++ ical_datetime t_now)%string;
         ("DTSTART:" ++ ical_datetime t_start)%string]
        ++ match t_end with
           | Some t => [("DTEND:" ++ ical_datetime t)%string]
           | None => []
           end
        ++ push_if "SUMMARY:" (e_summary a)
        ++ push_if "DESCRIPTION:" (e_description a)
        ++ push_if "LOCATION:" (e_location a)
        ++ ["END:VEVENT"; "END:VCALENDAR"])%list.
Proof.
  intros Hall Hnow Hvnow Hstart Hvs Hend.
  unfold vevent_lines, vevent_dates.
  rewrite (EventFacts.stamp_ok _ _ _ Hnow Hvnow), Hall. cbn [bind].
  rewrite (isoToIcal_new_Date _ _ _ Hstart Hvs). cbn [bind].
  rewrite (optional_token "DTEND:" _ _ Hend). reflexivity.
Qed.

(** The lines of a todo in full. *)
Lemma vtodo_lines_full (now t_now : Z) (due_t done_t : option Z) (a : vtodo) :
  Date_parse (iso_string now) = Some t_now -> valid_time t_now = true ->
  reads_as Date_parse (t_due a) due_t ->
  reads_as Date_parse (t_completed a) done_t ->
  vtodo_lines Date_parse now a
  = Ok (["BEGIN:VCALENDAR"; "VERSION:2.0"; "PRODID:-//Radicale MCP//EN";
         "BEGIN:VTODO";
         ("UID:" ++ template (ICal.t_uid a))%string;
         ("DTSTAMP:" ++ ical_datetime t_now)%string]
        ++ push_if "SUMMARY:" (t_summary a)
        ++ push_if "DESCRIPTION:" (t_description a)
        ++ match due_t with
           | Some t => [("DUE:" ++ ical_datetime t)%string]
           | None => []
           end
        ++ match t_priority a with
           | Some p => [("PRIORITY:" ++ prim_to_string p)%string]
           | None => []
           end
        ++ match t_status a with
           | Some s =>
               if Str.nonempty s then [("STATUS:" ++ Str.toUpperCase s)%string]
               else []
           | None => []
           end
        ++ match done_t with
           | Some t => [("COMPLETED:" ++ ical_datetime t)%string]
           | None => []
           end
        ++ ["END:VTODO"; "END:VCALENDAR"])%list.
Proof.
  intros Hnow Hvnow Hdue Hdone. unfold vtodo_lines.
  rewrite (EventFacts.stamp_ok _ _ _ Hnow Hvnow). cbn [bind].
  rewrite (optional_token "DUE:" _ _ Hdue). cbn [bind].
  rewrite (optional_token "COMPLETED:" _ _ Hdone). reflexivity.
Qed.

End WithDateParse.

End WriteFacts.

(** X10.  An event that is stored without a start and is updated without
    one is not rejected: unless [all_day] is set, DTSTART is written as
    the epoch, 19700101T000000Z ([new Date(null)]); with [all_day] set the
    update fails with a [TypeError] and nothing is written. *)
Theorem update_of_event_without_start
    (Date_parse : string -> option Z)
    (parseICS : string -> list ICal.component)
    (event_url : string) (o : Tools.dav_object) (rest : list Tools.dav_object)
    (u : Tools.event_update) (now t_now : Z) (t_end : option Z)
    (existing : ICal.cal_record) (others : list ICal.cal_record) :
  ICal.parseIcalObjects parseICS (Tools.data o) "VEVENT"
  = Ok (existing :: others) ->
  ICal.r_start existing = None -> Tools.ue_start u = None ->
  Date_parse (DateTime.iso_string now) = Some t_now ->
  DateTime.valid_time t_now = true ->
  Contract.reads_as Date_parse
    (Tools.overlay_opt (Tools.ue_end u) (ICal.r_end existing)) t_end ->
  (ICal.is_true (Tools.ue_all_day u) = false ->
   exists put,
     Tools.radicale_update_event Date_parse parseICS event_url (o :: rest) u now
     = Ok (Tools.merge_event existing u, put)
     /\ Tools.p_data put
        = Str.join Str.CRLF
            (["BEGIN:VCALENDAR"; "VERSION:2.0"; "PRODID:-//Radicale MCP//EN";
              "BEGIN:VEVENT";
              ("UID:" ++ ICal.template (ICal.r_uid existing))%string;
              ("DTSTAMP:" ++ Shape.ical_datetime t_now)%string;
              "DTSTART:19700101T000000Z"]
             ++ match t_end with
                | Some t => [("DTEND:" ++ Shape.ical_datetime t)%string]
                | None => []
                end
             ++ ICal.push_if "SUMMARY:"
                  (Some (Tools.overlay (Tools.ue_summary u)
                           (ICal.r_summary existing)))
             ++ ICal.push_if "DESCRIPTION:"
                  (Some (Tools.overlay (Tools.ue_description u)
                           (ICal.r_description existing)))
             ++ ICal.push_if "LOCATION:"
                  (Some (Tools.overlay (Tools.ue_location u)
                           (ICal.r_location existing)))
             ++ ["END:VEVENT"; "END:VCALENDAR"])%list)
  /\ (Tools.ue_all_day u = Some true ->
      Tools.radicale_update_event Date_parse parseICS event_url (o :: rest) u now
      = Throw (TypeError "Cannot read properties of null")).
Proof.
  intros Hparse Hstart Hu Hnow Hvnow Hend. split.
  - intros Hall. unfold Tools.radicale_update_event. rewrite Hparse.
    cbn [bind]. unfold ICal.buildVEvent.
    rewrite (WriteFacts.vevent_lines_timed Date_parse now t_now 0 t_end).
    + cbn [bind]. eexists. split; [reflexivity|]. reflexivity.
    + cbn [Tools.merge_event ICal.e_allDay].
      destruct (Tools.ue_all_day u) as [[|]|]; try discriminate; reflexivity.
    + exact Hnow.
    + exact Hvnow.
    + cbn [Tools.merge_event ICal.e_dtstart]. now rewrite Hu, Hstart.
    + reflexivity.
    + exact Hend.
  - intros Hall. unfold Tools.radicale_update_event. rewrite Hparse.
    cbn [bind]. unfold ICal.buildVEvent, ICal.vevent_lines, ICal.vevent_dates.
    rewrite (EventFacts.stamp_ok _ _ _ Hnow Hvnow). cbn [bind].
    cbn [Tools.merge_event ICal.e_allDay ICal.e_dtstart].
    rewrite Hall, Hu, Hstart. reflexivity.
Qed.

Lemma update_of_event_without_start_witness :
  exists put,
    Tools.radicale_update_event DateTime.Date_parse_utc
      (fun _ => [ExtraCases.floating_component])
      "https://dav.example.org/u/cal/item.ics"
      [Cases.stored "BEGIN:VCALENDAR"] (Cases.summary_only "Kickoff call")
      1772355600000
    = Ok (Tools.merge_event ExtraCases.floating_record
            (Cases.summary_only "Kickoff call"), put)
    /\ Tools.p_data put
       = Str.join Str.CRLF
           ["BEGIN:VCALENDAR"; "VERSION:2.0"; "PRODID:-//Radicale MCP//EN";
            "BEGIN:VEVENT"; "UID:31de"; "DTSTAMP:20260301T090000Z";
            "DTSTART:19700101T000000Z"; "SUMMARY:Kickoff call";
            "END:VEVENT"; "END:VCALENDAR"].
Proof.
  destruct (update_of_event_without_start DateTime.Date_parse_utc
              (fun _ => [ExtraCases.floating_component])
              "https://dav.example.org/u/cal/item.ics"
              (Cases.stored "BEGIN:VCALENDAR") []
              (Cases.summary_only "Kickoff call")
              1772355600000 1772355600000 None
              ExtraCases.floating_record []
              eq_refl eq_refl eq_refl eq_refl eq_refl eq_refl) as [H _].
  destruct (H eq_refl) as (put & H1 & H2).
  exists put. split; [exact H1|]. rewrite H2. vm_compute. reflexivity.
Defined.



(** X12.  A new todo is written with STATUS:NEEDS-ACTION and without a
    COMPLETED line; its PRIORITY line is written whenever a priority is
    given, also for 0; the file name is the generated uid followed by
    ".ics" and the reported URL is the calendar URL followed by it. *)
Theorem created_todo_text
    (Date_parse : string -> option Z) (calendar_url uid : string)
    (a : MoreTools.todo_create) (now t_now : Z) (t_due : option Z) :
  Date_parse (DateTime.iso_string now) = Some t_now ->
  DateTime.valid_time t_now = true ->
  Contract.reads_as Date_parse (MoreTools.ct_due a) t_due ->
  MoreTools.radicale_create_todo Date_parse calendar_url a uid now
  = Ok ({| MoreTools.q_collection := calendar_url;
           MoreTools.q_filename := (uid ++ ".ics")%string;
           MoreTools.q_data :=
             Str.join Str.CRLF
               (["BEGIN:VCALENDAR"; "VERSION:2.0";
                 "PRODID:-//Radicale MCP//EN"; "BEGIN:VTODO";
                 ("UID:" ++ uid)%string;
                 ("DTSTAMP:" ++ Shape.ical_datetime t_now)%string]
                ++ ICal.push_if "SUMMARY:" (Some (MoreTools.ct_summary a))
                ++ ICal.push_if "DESCRIPTION:" (MoreTools.ct_description a)
                ++ match t_due with
                   | Some t => [("DUE:" ++ Shape.ical_datetime t)%string]
                   | None => []
                   end
                ++ match MoreTools.ct_priority a with
                   | Some p => [("PRIORITY:" ++ ICal.prim_to_string p)%string]
                   | None => []
                   end
                ++ ["STATUS:NEEDS-ACTION"; "END:VTODO"; "END:VCALENDAR"])%list |},
        (calendar_url ++ uid ++ ".ics")%string).
Proof.
  intros Hnow Hvnow Hdue. unfold MoreTools.radicale_create_todo, ICal.buildVTodo.
  rewrite (WriteFacts.vtodo_lines_full Date_parse now t_now t_due None
             {| ICal.t_uid := Some uid;
                ICal.t_summary := Some (MoreTools.ct_summary a);
                ICal.t_description := MoreTools.ct_description a;
                ICal.t_due := MoreTools.ct_due a;
                ICal.t_priority := MoreTools.ct_priority a;
                ICal.t_status := Some "NEEDS-ACTION";
                ICal.t_completed := None |}
             Hnow Hvnow Hdue) by reflexivity.
  reflexivity.
Qed.

Lemma created_todo_text_witness :
  exists req,
    MoreTools.radicale_create_todo DateTime.Date_parse_utc
      "https://dav.example.org/u/cal/"
      {| MoreTools.ct_summary := "Water plants";
         MoreTools.ct_description := None;
         MoreTools.ct_due := Some "2026-03-02T08:00:00Z";
         MoreTools.ct_priority := Some (ICal.PNum 0) |}
      "c0ffee" 1772355600000
    = Ok (req, "https://dav.example.org/u/cal/c0ffee.ics")
    /\ MoreTools.q_data req
       = Str.join Str.CRLF
           ["BEGIN:VCALENDAR"; "VERSION:2.0"; "PRODID:-//Radicale MCP//EN";
            "BEGIN:VTODO"; "UID:c0ffee"; "DTSTAMP:20260301T090000Z";
            "SUMMARY:Water plants"; "DUE:20260302T080000Z"; "PRIORITY:0";
            "STATUS:NEEDS-ACTION"; "END:VTODO"; "END:VCALENDAR"].
Proof.
  eexists. rewrite (created_todo_text DateTime.Date_parse_utc
                      "https://dav.example.org/u/cal/" "c0ffee"
                      {| MoreTools.ct_summary := "Water plants";
                         MoreTools.ct_description := None;
                         MoreTools.ct_due := Some "2026-03-02T08:00:00Z";
                         MoreTools.ct_priority := Some (ICal.PNum 0) |}
                      1772355600000 1772355600000 (Some 1772438400000)
                      eq_refl eq_refl
                      (ex_intro _ "2026-03-02T08:00:00Z"
                         (conj eq_refl (conj eq_refl (conj eq_refl eq_refl))))).
  split; [reflexivity|]. vm_compute. reflexivity.
Defined.

(** ** Where listed items come from *)

Module ListFacts.

Import ICal Tools.

Lemma Forall2_in_right {A B : Type} (P : A -> B -> Prop) (l : list A)
    (r : list B) (b : B) :
  Forall2 P l r -> In b r -> exists a, In a l /\ P a b.
Proof.
  induction 1 as [|a b' l r Hab _ IH]; intros Hin; [destruct Hin|].
  destruct Hin as [<- | Hin].
  - exists a. split; [now left | exact Hab].
  - destruct (IH Hin) as (a' & Ha' & HP). exists a'. split; [now right | exact HP].
Qed.

(** Every element of a listing belongs to a fetched object. *)
Lemma listed_origin (parseICS : string -> list component) (kind : string)
    (objects : list dav_object) (per_object : list (list listed)) (t : listed) :
  mapM (fun o =>
          let* items := parseIcalObjects parseICS (data o) kind in
          Ok (List.map (fun e => summariseCalObject e (url o) (etag o)) items))
       objects = Ok per_object ->
  In t (concat per_object) ->
  exists o recs,
    In o objects
    /\ parseIcalObjects parseICS (data o) kind = Ok recs
    /\ In (l_obj t) recs /\ l_url t = url o /\ l_etag t = etag o.
Proof.
  intros Hm Hin. apply EventFacts.mapM_Forall2 in Hm.
  apply in_concat in Hin. destruct Hin as (l & Hl & Ht).
  destruct (Forall2_in_right _ _ _ _ Hm Hl) as (o & Ho & Hol).
  destruct (parseIcalObjects parseICS (data o) kind) as [recs|] eqn:E;
    [|discriminate].
  cbn [bind] in Hol. injection Hol as <-.
  apply in_map_iff in Ht. destruct Ht as (r & <- & Hr).
  exists o, recs. repeat split; auto.
Qed.

End ListFacts.

(** X13.  Every todo of a todo listing and every event of an event listing
    was decoded from one of the fetched objects, carries that object's URL
    and etag, and has a non-empty uid. *)
Theorem listed_items_come_from_fetched_objects
    (parseICS : string -> list ICal.component)
    (objects : list Tools.dav_object) (show_completed : option bool) :
  (forall result t,
      Tools.radicale_list_todos parseICS objects show_completed = Ok result ->
      In t result ->
      truthy (ICal.r_uid (Tools.l_obj t)) = true
      /\ exists o recs,
          In o objects
          /\ ICal.parseIcalObjects parseICS (Tools.data o) "VTODO" = Ok recs
          /\ In (Tools.l_obj t) recs
          /\ Tools.l_url t = Tools.url o /\ Tools.l_etag t = Tools.etag o)
  /\ (forall result t,
      MoreTools.radicale_list_events parseICS objects = Ok result ->
      In t result ->
      truthy (ICal.r_uid (Tools.l_obj t)) = true
      /\ exists o recs,
          In o objects
          /\ ICal.parseIcalObjects parseICS (Tools.data o) "VEVENT" = Ok recs
          /\ In (Tools.l_obj t) recs
          /\ Tools.l_url t = Tools.url o /\ Tools.l_etag t = Tools.etag o).
Proof.
  split; intros result t.
  - unfold Tools.radicale_list_todos.
    match goal with
    | |- (let* _ := ?m in _) = _ -> _ => destruct m as [per|] eqn:E
    end; [|discriminate].
    cbn [bind]. intros [= <-] Hin.
    apply filter_In in Hin. destruct Hin as [Hin _].
    apply filter_In in Hin. destruct Hin as [Hin Hu].
    split; [exact Hu|]. now apply (ListFacts.listed_origin _ _ _ _ _ E).
  - unfold MoreTools.radicale_list_events.
    match goal with
    | |- (let* _ := ?m in _) = _ -> _ => destruct m as [per|] eqn:E
    end; [|discriminate].
    cbn [bind]. intros [= <-] Hin.
    apply filter_In in Hin. destruct Hin as [Hin Hu].
    split; [exact Hu|]. now apply (ListFacts.listed_origin _ _ _ _ _ E).
Qed.

Lemma listed_items_witness :
  exists t,
    Tools.radicale_list_todos (fun _ => [Cases.done_component])
      [Cases.stored "BEGIN:VCALENDAR"] (Some true) = Ok [t]
    /\ Tools.l_url t = "https://dav.example.org/u/cal/item.ics"
    /\ Tools.l_etag t = Some "etag-1".
Proof.
  eexists. split; [vm_compute; reflexivity|].
  destruct (listed_items_come_from_fetched_objects
              (fun _ => [Cases.done_component])
              [Cases.stored "BEGIN:VCALENDAR"] (Some true)) as [H _].
  destruct (H _ _ eq_refl (or_introl eq_refl))
    as (_ & o & recs & [<- | []] & _ & _ & Hu & He).
  split; [exact Hu | exact He].
Defined.

(** ** Writing and reading back a contact *)

Module CardFacts.

Import VCard Spec Rules Extra LineFacts VCardFacts.

Definition starts_with_space (s : string) : bool :=
  match s with
  | String c _ => Ascii.eqb c " "
  | EmptyString => false
  end.

Lemma join_continuations_plain (rest : list string) :
  forall cur,
    Forall (fun l => starts_with_space l = false) rest ->
    join_continuations cur rest = cur :: rest.
Proof.
  induction rest as [|l rest IH]; intros cur H; [reflexivity|].
  inversion H as [|? ? Hl Hrest]; subst. cbn [join_continuations].
  destruct l as [|c l]; [now rewrite IH|].
  simpl in Hl. rewrite Hl. now rewrite IH.
Qed.

Lemma join_continuations_snoc (rest : list string) (line : string) :
  forall cur,
    starts_with_space line = false ->
    join_continuations cur (rest ++ [line])
    = (join_continuations cur rest ++ [line])%list.
Proof.
  induction rest as [|l rest IH]; intros cur H.
  - cbn [app join_continuations]. destruct line as [|c line]; [reflexivity|].
    simpl in H. now rewrite H.
  - cbn [app join_continuations]. destruct l as [|c l].
    + now rewrite IH.
    + destruct (Ascii.eqb c " "); now rewrite IH.
Qed.

Lemma or_else_some (x : string) : or_else (Some x) "" = x.
Proof. destruct x; reflexivity. Qed.

Lemma split_on_first (a rest : string) :
  Str.forallb not_semicolon a = true ->
  Str.split_on ";" (a ++ ";" ++ rest) = a :: Str.split_on ";" rest.
Proof.
  induction a as [|c a IH]; [reflexivity|].
  simpl Str.forallb. intros H. apply andb_true_iff in H. destruct H as [Hc Ha].
  change (String c a ++ ";" ++ rest) with (String c (a ++ ";" ++ rest)).
  cbn [Str.split_on]. unfold not_semicolon in Hc.
  apply negb_true_iff in Hc. rewrite Hc. now rewrite IH.
Qed.

(** Reading a line [KEY:value] written by the encoder. *)
Lemma parse_written (key value : string) (r : contact) :
  Str.nonempty key = true -> Str.forallb not_colon_semi key = true ->
  dot_all value = true ->
  parse_line r (key ++ ":" ++ value) = assign (Str.toUpperCase key) value r.
Proof.
  intros Hne Hk Hv. apply parse_line_assign. now apply line_match_plain.
Qed.

Lemma fold_push_if (key : string) (set : string -> contact -> contact)
    (v : option string) (rest : list string) (r : contact) :
  plain v = true ->
  (forall val r, dot_all val = true ->
                 parse_line r (key ++ val) = set val r) ->
  fold_left parse_line (ICal.push_if key v ++ rest) r
  = fold_left parse_line rest
      match kept v with
      | Some e => set e r
      | None => r
      end.
Proof.
  intros Hv Hset. unfold ICal.push_if, kept.
  destruct v as [[|c s]|]; try reflexivity.
  cbn [truthy Str.nonempty app fold_left]. now rewrite Hset.
Qed.

Lemma plain_or_else (o : option string) :
  plain o = true -> dot_all (or_else o "") = true.
Proof. destruct o as [[|c s]|]; cbn [plain or_else truthy Str.nonempty]; auto. Qed.

Lemma plain_name_parts (o : option string) :
  plain_name o = true ->
  dot_all (or_else o "") = true
  /\ Str.forallb not_semicolon (or_else o "") = true.
Proof.
  destruct o as [[|c s]|]; cbn [plain_name or_else truthy Str.nonempty]; auto.
  intros H. now apply andb_true_iff in H.
Qed.

(** Two values without a line terminator, glued by an ASCII separator. *)
Lemma dot_all_glue (a b : string) (c : ascii) :
  dot_all a = true -> dot_all b = true ->
  Str.is_line_break c = false -> Ascii.eqb c "226" = false ->
  head_safe (String c b) = true ->
  dot_all (a ++ String c b) = true.
Proof.
  intros Ha Hb Hc H226 Hs. apply dot_all_app; auto.
  now rewrite dot_all_cons.
Qed.

Lemma plain_name_plain (o : option string) :
  plain_name o = true -> plain o = true.
Proof.
  destruct o as [s|]; simpl; auto. intros H. now apply andb_true_iff in H.
Qed.

Lemma formatted_name_dot_all (c : contact) :
  plain (v_full_name c) = true -> plain (v_first_name c) = true ->
  plain (v_last_name c) = true ->
  dot_all (formatted_name c) = true.
Proof.
  unfold formatted_name. intros Hf Hn Hl.
  destruct (v_full_name c) as [[|a f]|]; cbn [plain] in Hf;
    destruct (v_first_name c) as [[|b n]|]; cbn [plain] in Hn;
    destruct (v_last_name c) as [[|d l]|]; cbn [plain] in Hl;
    try assumption; try reflexivity.
  all: change (dot_all (String b n ++ String " " (String d l)) = true);
    apply dot_all_glue; auto.
Qed.

Lemma template_dot_all (o : option string) :
  plain o = true -> dot_all (ICal.template o) = true.
Proof. destruct o; cbn [plain ICal.template]; auto. Qed.

Lemma push_if_no_space (key : string) (v : option string) :
  starts_with_space key = false -> Str.nonempty key = true ->
  Forall (fun l => starts_with_space l = false) (ICal.push_if key v).
Proof.
  intros Hk Hne. unfold ICal.push_if. destruct v as [s|]; [|constructor].
  destruct (Str.nonempty s); constructor; [|constructor].
  destruct key; [discriminate Hne | exact Hk].
Qed.

Lemma push_if_plain (key : string) (v : option string) :
  Str.single_line key = true -> plain v = true ->
  Forall (fun x => Str.single_line x = true) (ICal.push_if key v).
Proof.
  intros Hk Hv. apply push_if_single_line; [exact Hk|].
  intros s ->. now apply dot_all_single_line.
Qed.

Lemma names_read_back (last first : string) (r : contact) :
  Str.forallb not_semicolon last = true ->
  Str.forallb not_semicolon first = true ->
  with_names (last ++ ";" ++ first ++ ";;;") r
  = {| v_uid := v_uid r; v_full_name := v_full_name r;
       v_first_name := Some first; v_last_name := Some last;
       v_email := v_email r; v_phone := v_phone r; v_org := v_org r;
       v_title := v_title r; v_note := v_note r |}.
Proof.
  intros Hl Hf. unfold with_names.
  rewrite (split_on_first last) by exact Hl.
  change (first ++ ";;;") with (first ++ ";" ++ ";;").
  rewrite (split_on_first first) by exact Hf.
  cbn [nth_error]. now rewrite !or_else_some.
Qed.

(** The lines written for a contact, read one after the other. *)
Lemma read_written_lines (c : contact) :
  plain_contact c = true ->
  fold_left parse_line (vcard_lines c) VCard.empty = reread c.
Proof.
  unfold plain_contact. intros H.
  repeat (apply andb_true_iff in H; destruct H as [H ?]).
  match goal with
  | Hu : plain (v_uid c) = true, Hf : plain (v_full_name c) = true,
    Hn : plain_name (v_first_name c) = true,
    Hl : plain_name (v_last_name c) = true |- _ =>
      pose proof (template_dot_all _ Hu) as Su;
      pose proof (formatted_name_dot_all c Hf (plain_name_plain _ Hn)
                    (plain_name_plain _ Hl)) as Sf;
      destruct (plain_name_parts _ Hn) as [Sn Pn];
      destruct (plain_name_parts _ Hl) as [Sl Pl]
  end.
  unfold vcard_lines.
  cbn [app fold_left].
  change (parse_line empty "BEGIN:VCARD") with empty.
  change (parse_line empty "VERSION:3.0") with empty.
  change ("UID:" ++ ICal.template (v_uid c))
    with ("UID" ++ ":" ++ ICal.template (v_uid c)).
  rewrite parse_written by auto.
  change ("FN:" ++ formatted_name c) with ("FN" ++ ":" ++ formatted_name c).
  rewrite parse_written by auto.
  change ("N:" ++ or_else (v_last_name c) "" ++ ";"
            ++ or_else (v_first_name c) "" ++ ";;;")
    with ("N" ++ ":" ++ (or_else (v_last_name c) "" ++ ";"
                           ++ or_else (v_first_name c) "" ++ ";;;")).
  rewrite parse_written;
    [| reflexivity | reflexivity
     | apply dot_all_glue; try reflexivity; [exact Sl|];
       apply dot_all_app; [exact Sn | reflexivity | reflexivity] ].
  change (assign (Str.toUpperCase "UID")) with with_uid.
  change (assign (Str.toUpperCase "FN")) with with_full_name.
  change (assign (Str.toUpperCase "N")) with with_names.
  rewrite names_read_back by assumption.
  rewrite (fold_push_if "EMAIL:" with_email) by
    (auto; intros val r Hv; now apply (parse_written "EMAIL")).
  rewrite (fold_push_if "TEL:" with_phone) by
    (auto; intros val r Hv; now apply (parse_written "TEL")).
  rewrite (fold_push_if "ORG:" with_org) by
    (auto; intros val r Hv; now apply (parse_written "ORG")).
  rewrite (fold_push_if "TITLE:" with_title) by
    (auto; intros val r Hv; now apply (parse_written "TITLE")).
  rewrite (fold_push_if "NOTE:" with_note) by
    (auto; intros val r Hv; now apply (parse_written "NOTE")).
  unfold reread.
  destruct (kept (v_email c)), (kept (v_phone c)), (kept (v_org c)),
    (kept (v_title c)), (kept (v_note c)); reflexivity.
Qed.

Lemma vcard_lines_shape (c : contact) :
  plain_contact c = true ->
  exists l ls,
    vcard_lines c = l :: ls
    /\ Forall (fun x => Str.single_line x = true) (l :: ls)
    /\ Forall (fun x => starts_with_space x = false) ls.
Proof.
  unfold plain_contact. intros H.
  repeat (apply andb_true_iff in H; destruct H as [H ?]).
  match goal with
  | Hu : plain (v_uid c) = true, Hf : plain (v_full_name c) = true,
    Hn : plain_name (v_first_name c) = true,
    Hl : plain_name (v_last_name c) = true |- _ =>
      pose proof (dot_all_single_line _ (template_dot_all _ Hu)) as Su;
      pose proof (dot_all_single_line _
                    (formatted_name_dot_all c Hf (plain_name_plain _ Hn)
                       (plain_name_plain _ Hl))) as Sf;
      destruct (plain_name_parts _ Hn) as [Sn Pn];
      destruct (plain_name_parts _ Hl) as [Sl Pl];
      apply dot_all_single_line in Sn; apply dot_all_single_line in Sl
  end.
  unfold vcard_lines. cbn [app]. eexists. eexists. split; [reflexivity|].
  split.
  - repeat (apply Forall_cons; [|]).
    + reflexivity.
    + reflexivity.
    + now apply (single_line_app "UID:").
    + now apply (single_line_app "FN:").
    + apply (single_line_app "N:"); [reflexivity|].
      apply single_line_app; [exact Sl|].
      apply (single_line_app ";"); [reflexivity|].
      apply single_line_app; [exact Sn | reflexivity].
    + repeat (apply Forall_app; split);
        try (apply push_if_plain; [reflexivity | assumption]).
      repeat constructor.
  - repeat (apply Forall_cons; [reflexivity|]).
    repeat (apply Forall_app; split);
      try (apply push_if_no_space; reflexivity).
    repeat constructor.
Qed.

Lemma parse_build (c : contact) :
  plain_contact c = true -> parseVCard (buildVCard c) = reread c.
Proof.
  intros H. destruct (vcard_lines_shape c H) as (l & ls & E & Hs & Hn).
  unfold parseVCard, buildVCard. rewrite E.
  inversion Hs; subst.
  rewrite split_unfold_join by assumption.
  rewrite join_continuations_plain by exact Hn.
  rewrite <- E. now apply read_written_lines.
Qed.

Lemma kept_push_if (key : string) (v : option string) :
  ICal.push_if key (kept v) = ICal.push_if key v.
Proof. destruct v as [[|c s]|]; reflexivity. Qed.

Lemma formatted_name_reread (c : contact) :
  formatted_name (reread c) = formatted_name c.
Proof.
  unfold reread, formatted_name. cbn [v_full_name v_first_name v_last_name].
  destruct (v_full_name c) as [[|a f]|];
    destruct (v_first_name c) as [[|b n]|];
    destruct (v_last_name c) as [[|d l]|]; reflexivity.
Qed.

(** Writing what was read back gives the same lines. *)
Lemma vcard_lines_reread (c : contact) :
  vcard_lines (reread c) = vcard_lines c.
Proof.
  unfold vcard_lines. rewrite formatted_name_reread.
  cbn [reread v_uid v_first_name v_last_name v_email v_phone v_org v_title
         v_note].
  rewrite !kept_push_if, !or_else_some.
  destruct (v_uid c); reflexivity.
Qed.

Lemma merge_nothing (existing : contact) :
  Tools.merge_contact existing no_change = existing.
Proof. destruct existing; reflexivity. Qed.

End CardFacts.

(** X14.  Round trip of a contact.  When the populated fields hold no line
    terminator (CR, LF, U+2028, U+2029) and the first and last name hold no
    semicolon, decoding the card
    written by [buildVCard] gives back the uid, the formatted name as full
    name, the first and last name (the empty string when not populated)
    and every populated one of email, phone, org, title and note; a field
    that was empty or absent is absent. *)
Theorem vcard_round_trip (c : VCard.contact) :
  Extra.plain_contact c = true ->
  VCard.parseVCard (VCard.buildVCard c) = Extra.reread c.
Proof. apply CardFacts.parse_build. Qed.

Lemma vcard_round_trip_witness :
  VCard.parseVCard
    (VCard.buildVCard
       {| VCard.v_uid := Some "u1"; VCard.v_full_name := None;
          VCard.v_first_name := Some "Ada"; VCard.v_last_name := Some "Lovelace";
          VCard.v_email := Some "ada@example.org"; VCard.v_phone := Some "";
          VCard.v_org := None; VCard.v_title := None;
          VCard.v_note := Some "met: London; 1843" |})
  = {| VCard.v_uid := Some "u1"; VCard.v_full_name := Some "Ada Lovelace";
       VCard.v_first_name := Some "Ada"; VCard.v_last_name := Some "Lovelace";
       VCard.v_email := Some "ada@example.org"; VCard.v_phone := None;
       VCard.v_org := None; VCard.v_title := None;
       VCard.v_note := Some "met: London; 1843" |}.
Proof.
  rewrite vcard_round_trip; reflexivity.
Defined.

(** X15.  An update of a contact that supplies no field writes back the
    very text that [buildVCard] stored (under the same preconditions on the
    stored contact), conditioned on the fetched etag. *)
Theorem contact_update_without_changes_keeps_text
    (contact_url : string) (o : Tools.dav_object) (rest : list Tools.dav_object)
    (c : VCard.contact) :
  Extra.plain_contact c = true ->
  Tools.data o = VCard.buildVCard c ->
  Tools.radicale_update_contact contact_url (o :: rest) Extra.no_change
  = Ok (Extra.reread c,
        {| Tools.p_url := contact_url; Tools.p_data := Tools.data o;
           Tools.p_etag := Tools.etag o |}).
Proof.
  intros Hc Hd. unfold Tools.radicale_update_contact.
  rewrite CardFacts.merge_nothing, Hd, (CardFacts.parse_build c Hc).
  unfold VCard.buildVCard. now rewrite CardFacts.vcard_lines_reread.
Qed.

Lemma contact_update_without_changes_witness :
  Tools.radicale_update_contact "https://dav.example.org/u/book/u1.vcf"
    [CardCases.stored_card] Extra.no_change
  = Ok (Extra.reread CardCases.ada,
        {| Tools.p_url := "https://dav.example.org/u/book/u1.vcf";
           Tools.p_data := VCard.buildVCard CardCases.ada;
           Tools.p_etag := Some "e7" |}).
Proof.
  apply (contact_update_without_changes_keeps_text
           "https://dav.example.org/u/book/u1.vcf" CardCases.stored_card []
           CardCases.ada eq_refl eq_refl).
Defined.

(** X16.  When a property occurs more than once the later line wins: a
    card with one more EMAIL line at its end, whose value holds no line
    terminator (CR, LF, U+2028, U+2029), decodes to the same contact with
    that last value as its email. *)
Theorem vcard_last_email_wins (l : string) (ls : list string) (v : string) :
  Forall (fun x => Str.single_line x = true) (l :: ls) ->
  VCard.dot_all v = true ->
  VCard.parseVCard
    (Str.join Str.CRLF ((l :: ls) ++ [("EMAIL:" ++ v)%string])%list)
  = Rules.with_email v (VCard.parseVCard (Str.join Str.CRLF (l :: ls))).
Proof.
  intros Hs Hv. unfold VCard.parseVCard. inversion Hs; subst.
  change ((l :: ls) ++ [("EMAIL:" ++ v)%string])%list
    with (l :: (ls ++ [("EMAIL:" ++ v)%string]))%list.
  rewrite !VCardFacts.split_unfold_join; auto.
  - rewrite CardFacts.join_continuations_snoc by reflexivity.
    rewrite fold_left_app. cbn [fold_left].
    now apply (CardFacts.parse_written "EMAIL").
  - apply Forall_app. split; [assumption|].
    repeat constructor. apply (LineFacts.single_line_app "EMAIL:");
      [reflexivity | now apply VCardFacts.dot_all_single_line].
Qed.

Lemma vcard_last_email_wins_witness :
  VCard.v_email
    (VCard.parseVCard
       (Str.join Str.CRLF
          ["BEGIN:VCARD"; "EMAIL:old@example.org"; "EMAIL:new@example.org"]))
  = Some "new@example.org".
Proof.
  pose proof (vcard_last_email_wins "BEGIN:VCARD" ["EMAIL:old@example.org"]
                "new@example.org" ltac:(repeat constructor) eq_refl) as H.
  apply (f_equal VCard.v_email) in H. exact H.
Defined.

(** X17.  A new timed event is written under the file name "<uid>.ics"
    with UID, DTSTAMP and DTSTART as UTC date-time tokens, a DTEND line
    only when an end is given, and SUMMARY, DESCRIPTION and LOCATION for
    the non-empty ones; the reported URL is the calendar URL followed by
    the file name. *)
Theorem created_event_text
    (Date_parse : string -> option Z) (calendar_url uid : string)
    (a : MoreTools.event_create) (now t_now t_start : Z) (t_end : option Z) :
  ICal.is_true (MoreTools.ce_all_day a) = false ->
  Date_parse (DateTime.iso_string now) = Some t_now ->
  DateTime.valid_time t_now = true ->
  Date_parse (MoreTools.ce_start a) = Some t_start ->
  DateTime.valid_time t_start = true ->
  Contract.reads_as Date_parse (MoreTools.ce_end a) t_end ->
  MoreTools.radicale_create_event Date_parse calendar_url a uid now
  = Ok ({| MoreTools.q_collection := calendar_url;
           MoreTools.q_filename := (uid ++ ".ics")%string;
           MoreTools.q_data :=
             Str.join Str.CRLF
               (["BEGIN:VCALENDAR"; "VERSION:2.0";
                 "PRODID:-//Radicale MCP//EN"; "BEGIN:VEVENT";
                 ("UID:" ++ uid)%string;
                 ("DTSTAMP:" ++ Shape.ical_datetime t_now)%string;
                 ("DTSTART:" ++ Shape.ical_datetime t_start)%string]
                ++ match t_end with
                   | Some t => [("DTEND:" ++ Shape.ical_datetime t)%string]
                   | None => []
                   end
                ++ ICal.push_if "SUMMARY:" (Some (MoreTools.ce_summary a))
                ++ ICal.push_if "DESCRIPTION:" (MoreTools.ce_description a)
                ++ ICal.push_if "LOCATION:" (MoreTools.ce_location a)
                ++ ["END:VEVENT"; "END:VCALENDAR"])%list |},
        (calendar_url ++ uid ++ ".ics")%string).
Proof.
  intros Hall Hnow Hvnow Hstart Hvs Hend.
  unfold MoreTools.radicale_create_event, ICal.buildVEvent.
  rewrite (WriteFacts.vevent_lines_timed Date_parse now t_now t_start t_end
             {| ICal.e_uid := Some uid;
                ICal.e_summary := Some (MoreTools.ce_summary a);
                ICal.e_dtstart := Some (MoreTools.ce_start a);
                ICal.e_dtend := MoreTools.ce_end a;
                ICal.e_description := MoreTools.ce_description a;
                ICal.e_location := MoreTools.ce_location a;
                ICal.e_allDay := MoreTools.ce_all_day a |}
             Hall Hnow Hvnow Hstart Hvs Hend).
  reflexivity.
Qed.

Lemma created_event_text_witness :
  exists req,
    MoreTools.radicale_create_event DateTime.Date_parse_utc
      "https://dav.example.org/u/team-sync/"
      {| MoreTools.ce_summary := "Standup";
         MoreTools.ce_start := "2026-03-01T09:00:00Z";
         MoreTools.ce_end := None; MoreTools.ce_description := None;
         MoreTools.ce_location := None;
         MoreTools.ce_all_day := Some false |}
      "c0ffee" 1772355600000
    = Ok (req, "https://dav.example.org/u/team-sync/c0ffee.ics")
    /\ MoreTools.q_data req
       = Str.join Str.CRLF
           ["BEGIN:VCALENDAR"; "VERSION:2.0"; "PRODID:-//Radicale MCP//EN";
            "BEGIN:VEVENT"; "UID:c0ffee"; "DTSTAMP:20260301T090000Z";
            "DTSTART:20260301T090000Z"; "SUMMARY:Standup";
            "END:VEVENT"; "END:VCALENDAR"].
Proof.
  eexists. rewrite (created_event_text DateTime.Date_parse_utc
                      "https://dav.example.org/u/team-sync/" "c0ffee"
                      {| MoreTools.ce_summary := "Standup";
                         MoreTools.ce_start := "2026-03-01T09:00:00Z";
                         MoreTools.ce_end := None;
                         MoreTools.ce_description := None;
                         MoreTools.ce_location := None;
                         MoreTools.ce_all_day := Some false |}
                      1772355600000 1772355600000 1772355600000 None
                      eq_refl eq_refl eq_refl eq_refl eq_refl eq_refl).
  split; [reflexivity|]. vm_compute. reflexivity.
Defined.

(** ** The DATE token on arbitrary input *)

Module DateTokenFacts.




End DateTokenFacts.

